(** * mcp-stdio-docker-test: the tool-call dispatcher and the log correlator

    A shallow embedding of [src/mcp_stdio_test/server.py],
    [src/mcp_stdio_test/logging_config.py], [src/mcp_stdio_test/cli.py] and
    [scripts/view-logs.py], and the properties of the specification that
    are decided by that code.

    Layout:
    - [Py]      : the Python values the code handles (JSON-shaped), with the
                  builtins it calls on them ([dict.get], [max], [min], [len],
                  truthiness, [in], slicing), text being counted and cut
                  in code points;
    - [Mcp]     : the protocol types the handlers build;
    - [Eff]     : the process state (random generator, clocks, log records,
                  output streams) and the state-and-exception monad the
                  handlers run in;
    - [Logging] : the root logger as [configure_logging] sets it up or
                  fails to, and the records the libraries log through it;
    - [Server]  : the generators, the tool catalogue, [handle_call_tool],
                  [run_mcp_server] and [main];
    - [Viewer]  : [format_timestamp] and [RequestTracker.process_log];
    - [Sample]  : concrete environments to run the above on;
    - [Observe] : the vocabulary of the further properties (what a run
                  leaves untouched, the shapes of the generated fields, the
                  records a call submits, what the JSON handler writes);
    - [EffFacts], [LoggingFacts], [ServerFacts], [ViewerFacts] : the
                  properties, C1 to C10 among them;
    - [GeneratorFacts], [KeepFacts], [HandlerFacts], [SessionFacts],
      [ConfigFacts], [ViewerMore] : further properties of the same code,
                  X1 to X29 among them. *)

From Stdlib Require Import ZArith QArith Qround String Ascii List Bool Lia Lqa.
From Stdlib Require Import DecimalString HexadecimalString.
Import ListNotations.

Local Open Scope string_scope.
Local Open Scope Z_scope.

(* ================================================================== *)
(** * Python values *)
(* ================================================================== *)

Module Py.

(** A value as [json.loads] produces it and [json.dumps] accepts it.  A
    [dict] keeps its insertion order, which [json.dumps] and [dict.items]
    expose, so it is an association list.  A [float] is modelled by the
    rational it denotes: comparisons between [int] and [float] are exact in
    Python, and the rounding error of binary64 arithmetic is not modelled. *)
#[warnings="-register-all"]
Inductive value : Type :=
| PNone
| PBool (b : bool)
| PInt (z : Z)
| PFloat (q : Q)
| PStr (s : string)
| PList (l : list value)
| PDict (d : list (string * value)).

Definition dict := list (string * value).

(** Exceptions carry the text that [str(e)] returns. *)
Inductive exn : Type :=
| ValueError (msg : string)
| TypeError (msg : string)
| AttributeError (msg : string)
| KeyError (msg : string).

Definition str_of_exn (e : exn) : string :=
  match e with
  | ValueError m | TypeError m | AttributeError m | KeyError m => m
  end.

(** The outcome of an expression that may raise. *)
Inductive res (A : Type) : Type :=
| Ok (a : A)
| Raise (e : exn).
Arguments Ok {A} a.
Arguments Raise {A} e.

Definition res_bind {A B} (r : res A) (k : A -> res B) : res B :=
  match r with
  | Ok a => k a
  | Raise e => Raise e
  end.

(** [type(v).__name__], as it appears in the interpreter's error messages. *)
Definition type_name (v : value) : string :=
  match v with
  | PNone => "NoneType"
  | PBool _ => "bool"
  | PInt _ => "int"
  | PFloat _ => "float"
  | PStr _ => "str"
  | PList _ => "list"
  | PDict _ => "dict"
  end.

(** [d.get(key)]: the value bound to [key], if any. *)
Fixpoint lookup (key : string) (d : dict) : option value :=
  match d with
  | [] => None
  | (k, v) :: rest => if String.eqb k key then Some v else lookup key rest
  end.

(** [d.get(key, default)]. *)
Definition get (d : dict) (key : string) (default : value) : value :=
  match lookup key d with
  | Some v => v
  | None => default
  end.

(** The number a numeric value denotes ([bool] is a subclass of [int]). *)
Definition as_number (v : value) : option Q :=
  match v with
  | PBool b => Some (inject_Z (if b then 1 else 0))
  | PInt z => Some (inject_Z z)
  | PFloat q => Some q
  | _ => None
  end.

(** [x < y] on the numbers two values denote. *)
Definition Qlt_bool (x y : Q) : bool := negb (Qle_bool y x).

(** [a > b] where [a] is an [int] literal of the source. *)
Definition int_gt (a : Z) (b : value) : res bool :=
  match as_number b with
  | Some q => Ok (Qlt_bool q (inject_Z a))
  | None => Raise (TypeError ("'>' not supported between instances of 'int' and '"
                              ++ type_name b ++ "'"))
  end.

(** [a < b] where [a] is an [int] literal of the source. *)
Definition int_lt (a : Z) (b : value) : res bool :=
  match as_number b with
  | Some q => Ok (Qlt_bool (inject_Z a) q)
  | None => Raise (TypeError ("'<' not supported between instances of 'int' and '"
                              ++ type_name b ++ "'"))
  end.

(** [max(x, b)] for an [int] literal [b]: the builtin keeps its first
    argument unless the second compares strictly greater. *)
Definition max2 (x : value) (b : Z) : res value :=
  res_bind (int_gt b x) (fun gt => Ok (if gt then PInt b else x)).

(** [min(x, b)] for an [int] literal [b]: the builtin keeps its first
    argument unless the second compares strictly smaller. *)
Definition min2 (x : value) (b : Z) : res value :=
  res_bind (int_lt b x) (fun lt => Ok (if lt then PInt b else x)).

(** [v == n] for an [int] literal [n]. *)
Definition eq_int (v : value) (n : Z) : bool :=
  match as_number v with
  | Some q => Qeq_bool q (inject_Z n)
  | None => false
  end.

(** [bool(v)], the truth value an [if] tests. *)
Definition truthy (v : value) : bool :=
  match v with
  | PNone => false
  | PBool b => b
  | PInt z => negb (z =? 0)
  | PFloat q => negb (Qeq_bool q 0)
  | PStr s => negb (String.eqb s "")
  | PList l => match l with [] => false | _ => true end
  | PDict d => match d with [] => false | _ => true end
  end.

(** ** Text

    A [str] is held as its UTF-8 text.  Python counts and cuts a [str] by
    code points; in UTF-8 a code point is one byte that is no continuation
    byte, followed by its continuation bytes (those of the form
    [10xxxxxx]). *)

Definition is_continuation (c : ascii) : bool :=
  ((128 <=? nat_of_ascii c) && (nat_of_ascii c <? 192))%nat.

(** [len(s)] for a [str]: the number of its code points. *)
Fixpoint str_len (s : string) : nat :=
  match s with
  | EmptyString => O
  | String c rest => if is_continuation c then str_len rest else S (str_len rest)
  end.

(** [s[:n]] for a [str]: its first [n] code points. *)
Fixpoint str_slice_to (n : nat) (s : string) : string :=
  match s with
  | EmptyString => EmptyString
  | String c rest =>
      if is_continuation c then String c (str_slice_to n rest)
      else match n with
           | O => EmptyString
           | S m => String c (str_slice_to m rest)
           end
  end.

(** Every character of the text is an ASCII one. *)
Fixpoint all_ascii (s : string) : bool :=
  match s with
  | EmptyString => true
  | String c rest => (nat_of_ascii c <? 128)%nat && all_ascii rest
  end.

(** [len(v)]. *)
Definition len (v : value) : res Z :=
  match v with
  | PStr s => Ok (Z.of_nat (str_len s))
  | PList l => Ok (Z.of_nat (List.length l))
  | PDict d => Ok (Z.of_nat (List.length d))
  | _ => Raise (TypeError ("object of type '" ++ type_name v ++ "' has no len()"))
  end.

(** [range(v)], as the list of its items. *)
Definition range (v : value) : res (list Z) :=
  match v with
  | PInt n => Ok (map Z.of_nat (seq 0 (Z.to_nat n)))
  | PBool b => Ok (if b then [0] else [])
  | _ => Raise (TypeError ("'" ++ type_name v
                           ++ "' object cannot be interpreted as an integer"))
  end.

(** [needle in hay] on strings: [needle] occurs as a substring. *)
Fixpoint contains (needle hay : string) : bool :=
  String.prefix needle hay ||
  match hay with
  | EmptyString => false
  | String _ rest => contains needle rest
  end.

(** [needle in v] for a string literal [needle]: substring test on a
    [str], membership on a [list], key membership on a [dict]. *)
Definition str_in (needle : string) (v : value) : res bool :=
  match v with
  | PStr s => Ok (contains needle s)
  | PList l => Ok (existsb (fun x => match x with
                                     | PStr s => String.eqb s needle
                                     | _ => false
                                     end) l)
  | PDict d => Ok (existsb (fun kv => String.eqb (fst kv) needle) d)
  | _ => Raise (TypeError ("argument of type '" ++ type_name v ++ "' is not iterable"))
  end.

(** [v[:n]]. *)
Definition slice_to (n : nat) (v : value) : res value :=
  match v with
  | PStr s => Ok (PStr (str_slice_to n s))
  | PList l => Ok (PList (firstn n l))
  | PDict _ => Raise (TypeError "unhashable type: 'slice'")
  | _ => Raise (TypeError ("'" ++ type_name v ++ "' object is not subscriptable"))
  end.

(** [str(z)] for an [int]. *)
Definition str_of_int (z : Z) : string :=
  DecimalString.NilZero.string_of_int (Z.to_int z).

(** [f'{n:02x}'] for [0 <= n]: lower-case hexadecimal, at least two digits. *)
Definition hex02 (n : Z) : string :=
  let h := HexadecimalString.NilZero.string_of_uint (N.to_hex_uint (Z.to_N n)) in
  if (String.length h <? 2)%nat then "0" ++ h else h.

(** [sep.join(parts)]. *)
Fixpoint join (sep : string) (parts : list string) : string :=
  match parts with
  | [] => ""
  | [p] => p
  | p :: rest => p ++ sep ++ join sep rest
  end.

(** [round(q, 2)]: to the nearest hundredth, ties to the even one. *)
Definition round2 (q : Q) : Q :=
  let y := Qmult q (inject_Z 100) in
  let f := Qfloor y in
  let frac := Qminus y (inject_Z f) in
  let n := match Qcompare frac (1 # 2) with
           | Lt => f
           | Gt => f + 1
           | Eq => if Z.even f then f else f + 1
           end in
  Qmake n 100.

End Py.

(* ================================================================== *)
(** * Protocol types *)
(* ================================================================== *)

(** The types of [mcp.types] the handlers build, and the frames of the
    stdio transport. *)
Module Mcp.
Import Py.

(** [types.TextContent(type=..., text=...)]. *)
Record TextContent : Type := mkTextContent {
  tc_type : string;
  tc_text : string
}.

(** [types.Tool(name=..., description=..., inputSchema=...)]. *)
Record Tool : Type := mkTool {
  tool_name : string;
  tool_description : string;
  tool_inputSchema : value
}.

(** The requests the server registers a handler for. *)
Inductive request : Type :=
| ListResources
| ReadResource (uri : string)
| ListPrompts
| GetPrompt (name : string) (arguments : option dict)
| ListTools
| CallTool (name : string) (arguments : option dict).

(** What a handler hands back to the session. *)
Inductive reply : Type :=
| Resources (names : list string)
| Prompts (names : list string)
| Tools (tools : list Tool)
| Content (blocks : list TextContent).

(** One complete message on the protocol output stream, answering the
    request with the same [id]. *)
Inductive frame : Type :=
| ResultFrame (id : Z) (r : reply)
| ErrorFrame (id : Z) (msg : string).

End Mcp.

(* ================================================================== *)
(** * Process state and effects *)
(* ================================================================== *)

Module Eff.
Import Py Mcp.

(** ** Logging objects *)

Inductive stream_id : Type := Stdout | Stderr.

Inductive formatter : Type :=
| PlainFormatter
| JsonFormatter (fmt datefmt : string).

(** [logging.StreamHandler(stream)] with its formatter. *)
Record Handler : Type := mkHandler {
  h_stream : stream_id;
  h_formatter : formatter
}.

(** The root logger: every logger of the program is a child of it without
    level or handlers of its own, so its level and handlers decide. *)
Record RootLogger : Type := mkRoot {
  level : Z;
  handlers : list Handler
}.

(** A call to a logger method: level, logger name, message, the [extra]
    mapping, and whether the active exception is attached
    ([logger.exception]). *)
Record LogRecord : Type := mkRecord {
  levelno : Z;
  logger_name : string;
  message : string;
  extra : dict;
  exc_info : bool
}.

Definition DEBUG : Z := 10.
Definition INFO : Z := 20.
Definition WARNING : Z := 30.
Definition ERROR : Z := 40.
Definition CRITICAL : Z := 50.

(** What can be written on an output stream of the process: a formatted
    log record, or a protocol frame. *)
Inductive line : Type :=
| LogLine (h : Handler) (r : LogRecord)
| ProtocolFrame (f : frame).

(** ** The world

    The inputs the code draws from its environment are tapes, consumed from
    the head: the raw outcomes of the random generator, the readings of
    [time.time()], the instants [datetime.now(timezone.utc)] returns (as
    their [isoformat()] text) and the identifiers [uuid.uuid4()] returns.
    An exhausted tape yields [0] or the empty string.  The outputs are the
    two streams of the process, the sleeps taken and the calls the program
    has made to its loggers so far. *)
Record world : Type := mkWorld {
  randoms : list N;
  clock : list Q;
  nows : list string;
  uuids : list string;
  slept : list Q;
  logged : list LogRecord;
  root_logger : RootLogger;
  stdout : list line;
  stderr : list line
}.

Definition set_randoms (x : list N) (w : world) : world :=
  mkWorld x (clock w) (nows w) (uuids w) (slept w) (logged w)
          (root_logger w) (stdout w) (stderr w).
Definition set_clock (x : list Q) (w : world) : world :=
  mkWorld (randoms w) x (nows w) (uuids w) (slept w) (logged w)
          (root_logger w) (stdout w) (stderr w).
Definition set_nows (x : list string) (w : world) : world :=
  mkWorld (randoms w) (clock w) x (uuids w) (slept w) (logged w)
          (root_logger w) (stdout w) (stderr w).
Definition set_uuids (x : list string) (w : world) : world :=
  mkWorld (randoms w) (clock w) (nows w) x (slept w) (logged w)
          (root_logger w) (stdout w) (stderr w).
Definition set_slept (x : list Q) (w : world) : world :=
  mkWorld (randoms w) (clock w) (nows w) (uuids w) x (logged w)
          (root_logger w) (stdout w) (stderr w).
Definition set_logged (x : list LogRecord) (w : world) : world :=
  mkWorld (randoms w) (clock w) (nows w) (uuids w) (slept w) x
          (root_logger w) (stdout w) (stderr w).
Definition set_root_logger (x : RootLogger) (w : world) : world :=
  mkWorld (randoms w) (clock w) (nows w) (uuids w) (slept w) (logged w)
          x (stdout w) (stderr w).
Definition set_stdout (x : list line) (w : world) : world :=
  mkWorld (randoms w) (clock w) (nows w) (uuids w) (slept w) (logged w)
          (root_logger w) x (stderr w).
Definition set_stderr (x : list line) (w : world) : world :=
  mkWorld (randoms w) (clock w) (nows w) (uuids w) (slept w) (logged w)
          (root_logger w) (stdout w) x.

(** ** The monad of effectful code *)

Definition M (A : Type) : Type := world -> res A * world.

Definition ret {A} (a : A) : M A := fun w => (Ok a, w).

Definition bind {A B} (c : M A) (k : A -> M B) : M B :=
  fun w => match c w with
           | (Ok a, w') => k a w'
           | (Raise e, w') => (Raise e, w')
           end.

Definition raise {A} (e : exn) : M A := fun w => (Raise e, w).

(** An expression that may raise, evaluated in place. *)
Definition lift {A} (r : res A) : M A := fun w => (r, w).

(** [try: body  except Exception as e: handler(e)]. *)
Definition try_except {A} (body : M A) (handler : exn -> M A) : M A :=
  fun w => match body w with
           | (Ok a, w') => (Ok a, w')
           | (Raise e, w') => handler e w'
           end.

(** [try: body  finally: cleanup]. *)
Definition try_finally {A} (body : M A) (cleanup : M unit) : M A :=
  fun w => match body w with
           | (r, w') => match cleanup w' with
                        | (Ok _, w'') => (r, w'')
                        | (Raise e, w'') => (Raise e, w'')
                        end
           end.

Declare Scope eff_scope.
Delimit Scope eff_scope with eff.
Notation "x <- c ;; k" := (bind c (fun x => k))
  (at level 61, c at next level, right associativity) : eff_scope.
Notation "c ;;; k" := (bind c (fun _ => k))
  (at level 61, right associativity) : eff_scope.
Local Open Scope eff_scope.

(** [[f(x) for x in xs]]. *)
Fixpoint mapM {A B} (f : A -> M B) (xs : list A) : M (list B) :=
  match xs with
  | [] => ret []
  | x :: rest => y <- f x ;; ys <- mapM f rest ;; ret (y :: ys)
  end.

(** [for x in xs: f(x)]. *)
Fixpoint forM_ {A} (f : A -> M unit) (xs : list A) : M unit :=
  match xs with
  | [] => ret tt
  | x :: rest => f x ;;; forM_ f rest
  end.

(** ** The random generator *)

(** The next raw outcome of the generator. *)
Definition draw : M N :=
  fun w => (Ok (hd 0%N (randoms w)), set_randoms (tl (randoms w)) w).

(** An integer in [[0, n)], every one of them possible. *)
Definition randbelow (n : Z) : M Z :=
  r <- draw ;; ret (Z.of_N r mod n).

(** [random.randint(a, b)]: an integer in [[a, b]]. *)
Definition randint (a b : Z) : M Z :=
  k <- randbelow (b - a + 1) ;; ret (a + k).

(** [random.random()]: a multiple of [2^-53] in [[0, 1)]. *)
Definition random : M Q :=
  r <- draw ;; ret (Qmake (Z.of_N r mod 2 ^ 53) (2 ^ 53)).

(** [random.uniform(a, b)]: [a + (b - a) * random()]. *)
Definition uniform (a b : Q) : M Q :=
  u <- random ;; ret (Qplus a (Qmult (Qminus b a) u)).

(** [random.choice(seq)] for a non-empty [seq]. *)
Definition choice {A} (seq : list A) (default : A) : M A :=
  i <- randbelow (Z.of_nat (List.length seq)) ;;
  ret (nth (Z.to_nat i) seq default).

(** One step of [random.choices(population, k=...)]:
    [population[floor(random() * n)]]. *)
Definition choose_char (population : string) : M string :=
  u <- random ;;
  let i := Qfloor (Qmult u (inject_Z (Z.of_nat (String.length population)))) in
  ret (match String.get (Z.to_nat i) population with
       | Some c => String c EmptyString
       | None => EmptyString
       end).

(** [random.choices(population, k=k)]. *)
Definition choices (population : string) (k : nat) : M (list string) :=
  mapM (fun _ => choose_char population) (seq 0 k).

(** ** Clocks, identifiers and sleeping *)

(** [time.time()]. *)
Definition time_time : M Q :=
  fun w => (Ok (hd 0%Q (clock w)), set_clock (tl (clock w)) w).

(** [datetime.now(timezone.utc)], as the text [isoformat()] gives for it. *)
Definition datetime_now : M string :=
  fun w => (Ok (hd "" (nows w)), set_nows (tl (nows w)) w).

(** [str(uuid.uuid4())]. *)
Definition uuid4 : M string :=
  fun w => (Ok (hd "" (uuids w)), set_uuids (tl (uuids w)) w).

(** [await asyncio.sleep(delay)]. *)
Definition sleep (delay : Q) : M unit :=
  fun w => (Ok tt, set_slept (slept w ++ [delay]) w).

(** ** Streams *)

Definition write (s : stream_id) (l : line) (w : world) : world :=
  match s with
  | Stdout => set_stdout (stdout w ++ [l]) w
  | Stderr => set_stderr (stderr w ++ [l]) w
  end.

(** The transport writes one frame on the protocol output stream. *)
Definition write_frame (f : frame) : M unit :=
  fun w => (Ok tt, write Stdout (ProtocolFrame f) w).

(** ** Specifications of effectful code *)

(** [c] returns normally from every state, with a value satisfying [P]. *)
Definition returns {A} (c : M A) (P : A -> Prop) : Prop :=
  forall w, exists a w', c w = (Ok a, w') /\ P a.

(** Two worlds that offer the same inputs and have slept the same: they
    differ at most in the logger and in what was logged and written. *)
Definition same_inputs (w1 w2 : world) : Prop :=
  randoms w1 = randoms w2 /\ clock w1 = clock w2 /\ nows w1 = nows w2
  /\ uuids w1 = uuids w2 /\ slept w1 = slept w2.

(** The outcome of [c] depends on the inputs only, and [c] consumes them
    alike from worlds that offer the same. *)
Definition input_determined {A} (c : M A) : Prop :=
  forall w1 w2, same_inputs w1 w2 ->
    fst (c w1) = fst (c w2) /\ same_inputs (snd (c w1)) (snd (c w2)).

End Eff.

(* ================================================================== *)
(** * Logging configuration ([logging_config.py]) *)
(* ================================================================== *)

Module Logging.
Import Py Mcp Eff.
Local Open Scope eff_scope.

(** [c.upper()] on one ASCII character. *)
Definition upper_ascii (c : ascii) : ascii :=
  let n := nat_of_ascii c in
  if ((97 <=? n) && (n <=? 122))%nat then ascii_of_nat (n - 32) else c.

(** The letters [a] to [z] of a text in upper case. *)
Fixpoint ascii_upper (s : string) : string :=
  match s with
  | EmptyString => EmptyString
  | String c rest => String (upper_ascii c) (ascii_upper rest)
  end.

(** ** The attributes of the [logging] module

    [getattr(logging, name, default)] for an upper-case [name].  The
    module has ten attributes whose names hold no lower-case letter: the
    eight level constants, the string [BASIC_FORMAT] and the dictionary
    [_STYLES]. *)
Inductive attribute : Type :=
| IntAttr (n : Z)
| StrAttr (s : string)
| DictAttr (repr : string).

Definition BASIC_FORMAT : string := "%(levelname)s:%(name)s:%(message)s".

(** [repr(logging._STYLES)]. *)
Definition STYLES_repr : string :=
  "{'%': (<class 'logging.PercentStyle'>, '%(levelname)s:%(name)s:%(message)s'), "
  ++ "'{': (<class 'logging.StrFormatStyle'>, '{levelname}:{name}:{message}'), "
  ++ "'$': (<class 'logging.StringTemplateStyle'>, '${levelname}:${name}:${message}')}".

Definition getattr_logging (name : string) (default : attribute) : attribute :=
  if String.eqb name "CRITICAL" then IntAttr CRITICAL
  else if String.eqb name "FATAL" then IntAttr CRITICAL
  else if String.eqb name "ERROR" then IntAttr ERROR
  else if String.eqb name "WARNING" then IntAttr WARNING
  else if String.eqb name "WARN" then IntAttr WARNING
  else if String.eqb name "INFO" then IntAttr INFO
  else if String.eqb name "DEBUG" then IntAttr DEBUG
  else if String.eqb name "NOTSET" then IntAttr 0
  else if String.eqb name "BASIC_FORMAT" then StrAttr BASIC_FORMAT
  else if String.eqb name "_STYLES" then DictAttr STYLES_repr
  else default.

(** [logging._nameToLevel.get(name)]. *)
Definition nameToLevel (name : string) : option Z :=
  if String.eqb name "CRITICAL" then Some CRITICAL
  else if String.eqb name "FATAL" then Some CRITICAL
  else if String.eqb name "ERROR" then Some ERROR
  else if String.eqb name "WARN" then Some WARNING
  else if String.eqb name "WARNING" then Some WARNING
  else if String.eqb name "INFO" then Some INFO
  else if String.eqb name "DEBUG" then Some DEBUG
  else if String.eqb name "NOTSET" then Some 0
  else None.

(** [logging._checkLevel(level)], which [Logger.setLevel] calls first: an
    [int] is a level, a [str] must name one, anything else is refused. *)
Definition checkLevel (level : attribute) : res Z :=
  match level with
  | IntAttr n => Ok n
  | StrAttr name =>
      match nameToLevel name with
      | Some n => Ok n
      | None => Raise (ValueError ("Unknown level: '" ++ name ++ "'"))
      end
  | DictAttr repr =>
      Raise (TypeError ("Level not an integer or a valid string: " ++ repr))
  end.

(** The handler [configure_logging] installs. *)
Definition stderr_json_handler : Handler :=
  mkHandler Stderr
            (JsonFormatter "%(asctime)s %(levelname)s %(name)s %(message)s"
                           "%Y-%m-%dT%H:%M:%S").

Section WithUnicode.

(** [str.upper()] of the interpreter on a text that holds other
    characters than ASCII ones: the case mapping of Unicode, which is not
    spelled out here. *)
Variable unicode_upper : string -> string.

(** [s.upper()].  On ASCII text the letters [a] to [z] change and nothing
    else.  On any text every cased character is mapped, so the result
    holds no lower-case ASCII letter. *)
Definition upper (s : string) : string :=
  ascii_upper (if all_ascii s then s else unicode_upper s).

(** [configure_logging()], given [os.environ.get("LOG_LEVEL")]: the root
    logger loses whatever handlers it had and gets the one JSON handler on
    stderr; then [setLevel] takes the attribute of the [logging] module
    the environment names, [INFO] when there is none, and raises when the
    attribute is no level, which leaves the level as it was. *)
Definition configure_logging (env_LOG_LEVEL : option string) : M unit :=
  fun w =>
    let log_level := upper (match env_LOG_LEVEL with
                            | Some v => v
                            | None => "INFO"
                            end) in
    let handler := stderr_json_handler in
    let root := root_logger w in
    let root := mkRoot (level root) [] in
    let root := mkRoot (level root) (handlers root ++ [handler]) in
    match checkLevel (getattr_logging log_level (IntAttr INFO)) with
    | Ok lvl => (Ok tt, set_root_logger (mkRoot lvl (handlers root)) w)
    | Raise e => (Raise e, set_root_logger root w)
    end.

End WithUnicode.

(** The handler of last resort the library uses when no handler is
    installed: stderr, [WARNING] and above. *)
Definition lastResort : Handler := mkHandler Stderr PlainFormatter.

(** [Logger.callHandlers(record)]: every handler of the root logger
    writes the record on its own stream. *)
Definition callHandlers (r : LogRecord) (w : world) : world :=
  match handlers (root_logger w) with
  | [] => if WARNING <=? levelno r then write Stderr (LogLine lastResort r) w else w
  | hs => fold_left (fun w' h => write (h_stream h) (LogLine h r) w') hs w
  end.

(** A call [logger.<level>(msg, extra=extra)] on the logger [name]: the
    call is recorded, and the record is handled when the level is enabled. *)
Definition log (lvl : Z) (name msg : string) (extra : dict) (exc : bool) : M unit :=
  fun w =>
    let r := mkRecord lvl name msg extra exc in
    let w1 := set_logged (logged w ++ [r]) w in
    (Ok tt, if level (root_logger w) <=? lvl then callHandlers r w1 else w1).

(** [logger.info(msg, extra=extra)]. *)
Definition info (name msg : string) (extra : dict) : M unit :=
  log INFO name msg extra false.

(** [logger.exception(msg, extra=extra)], inside an [except] block. *)
Definition exception (name msg : string) (extra : dict) : M unit :=
  log ERROR name msg extra true.

(** ** Records of the libraries

    The libraries the server runs on log through loggers of their own,
    children of the root logger like those of the program, with [debug],
    [info], [warning], [error] and [exception]. *)
Inductive library_level : Type := LibDebug | LibInfo | LibWarning | LibError.

Definition levelno_of (l : library_level) : Z :=
  match l with
  | LibDebug => DEBUG
  | LibInfo => INFO
  | LibWarning => WARNING
  | LibError => ERROR
  end.

Record LibraryRecord : Type := mkLibraryRecord {
  lib_level : library_level;
  lib_logger : string;
  lib_message : string;
  lib_exc_info : bool
}.

Definition record_of (r : LibraryRecord) : LogRecord :=
  mkRecord (levelno_of (lib_level r)) (lib_logger r) (lib_message r) []
           (lib_exc_info r).

(** A library logs [r]: the record is handled when the level is enabled.
    It is none of the program's own calls, which [logged] lists. *)
Definition library_log (r : LibraryRecord) : M unit :=
  fun w =>
    (Ok tt, if level (root_logger w) <=? levelno_of (lib_level r)
            then callHandlers (record_of r) w else w).

(** ** Where log records go *)

(** The record passes a logger of level [lvl]. *)
Definition enabled (lvl : Z) (r : LogRecord) : bool := lvl <=? levelno r.

(** From [w] to [w'] the logger is untouched, the protocol output stream
    has gained frames only, and the error stream has gained exactly the
    enabled ones of the records submitted, in order, as the JSON handler
    writes them. *)
Definition logs_to_stderr (w w' : world) : Prop :=
  root_logger w' = root_logger w /\
  exists (frames : list frame) (records : list LogRecord),
    stdout w' = (stdout w ++ map ProtocolFrame frames)%list /\
    logged w' = (logged w ++ records)%list /\
    stderr w' = (stderr w
                 ++ map (LogLine stderr_json_handler)
                        (filter (enabled (level (root_logger w))) records))%list.

(** The root logger is as [configure_logging] leaves it. *)
Definition configured (w : world) : Prop :=
  handlers (root_logger w) = [stderr_json_handler].

(** Run under a configured logger, [c] keeps the protocol output stream to
    frames and sends what it logs to stderr, however it ends. *)
Definition stderr_only {A} (c : M A) : Prop :=
  forall w, configured w -> logs_to_stderr w (snd (c w)).

(** [zs] interleaves [xs] and [ys], each in its order. *)
Inductive merged {A : Type} : list A -> list A -> list A -> Prop :=
| merged_nil : merged [] [] []
| merged_left (x : A) (xs ys zs : list A) :
    merged xs ys zs -> merged (x :: xs) ys (x :: zs)
| merged_right (y : A) (xs ys zs : list A) :
    merged xs ys zs -> merged xs (y :: ys) (y :: zs).

(** As [logs_to_stderr], when the libraries have logged [noise]
    meanwhile: the error stream has gained the enabled records of the
    program and the enabled ones of the libraries, each kind in its order,
    as the JSON handler writes them, and nothing else. *)
Definition logs_to_stderr_with (noise : list LogRecord) (w w' : world) : Prop :=
  root_logger w' = root_logger w /\
  exists (frames : list frame) (records : list LogRecord) (lines : list line),
    stdout w' = (stdout w ++ map ProtocolFrame frames)%list /\
    logged w' = (logged w ++ records)%list /\
    stderr w' = (stderr w ++ lines)%list /\
    merged (map (LogLine stderr_json_handler)
                (filter (enabled (level (root_logger w))) records))
           (map (LogLine stderr_json_handler)
                (filter (enabled (level (root_logger w))) noise))
           lines.

Definition stderr_only_with (noise : list LogRecord) {A} (c : M A) : Prop :=
  forall w, configured w -> logs_to_stderr_with noise w (snd (c w)).

End Logging.

(* ================================================================== *)
(** * The server ([server.py], [cli.py]) *)
(* ================================================================== *)

Module Server.
Import Py Mcp Eff.
Local Open Scope eff_scope.

Section WithEnvironment.

(** [json.dumps(obj, indent=2)] of the standard library, total on the
    values of [Py.value]. *)
Variable json_dumps : value -> string.

(** [__version__]: the content of the [VERSION] file, or ["unknown"]. *)
Variable version : string.

(** [str.upper()] beyond ASCII, for [configure_logging]. *)
Variable unicode_upper : string -> string.

(** [logger = get_logger(__name__)]. *)
Definition logger : string := "mcp_stdio_test.server".

(** ** Generators *)

(** [string.ascii_letters + string.digits]. *)
Definition alphanumerics : string :=
  "abcdefghijklmnopqrstuvwxyzABCDEFGHIJKLMNOPQRSTUVWXYZ" ++ "0123456789".

(** [generate_random_string(length)]. *)
Definition generate_random_string (length : nat) : M string :=
  cs <- choices alphanumerics length ;; ret (join "" cs).

(** [generate_random_ip()]. *)
Definition generate_random_ip : M string :=
  a <- randint 1 255 ;;
  b <- randint 0 255 ;;
  c <- randint 0 255 ;;
  d <- randint 1 254 ;;
  ret (str_of_int a ++ "." ++ str_of_int b ++ "." ++ str_of_int c ++ "."
       ++ str_of_int d).

(** [generate_random_mac()]. *)
Definition generate_random_mac : M string :=
  parts <- mapM (fun _ => v <- randint 0 255 ;; ret (hex02 v)) (seq 0 6) ;;
  ret (join ":" parts).

(** [memory_total_mb], a constant of the record. *)
Definition memory_total_mb : Z := 32768.

(** [generate_technical_data()]: the fields are computed in the order the
    dictionary display lists them. *)
Definition generate_technical_data : M value :=
  now <- datetime_now ;;
  request_id <- uuid4 ;;
  host <- generate_random_string 6 ;;
  ip_address <- generate_random_ip ;;
  mac_address <- generate_random_mac ;;
  uptime_seconds <- randint 3600 (86400 * 30) ;;
  cpu_usage <- uniform 5 95 ;;
  memory_used_mb <- randint 512 16384 ;;
  disk_read <- uniform (1 # 10) 500 ;;
  disk_write <- uniform (1 # 10) 300 ;;
  network_rx <- uniform (1 # 100) 1000 ;;
  network_tx <- uniform (1 # 100) 500 ;;
  pid <- randint 1000 65535 ;;
  threads <- randint 1 64 ;;
  open_files <- randint 10 1000 ;;
  connections <- randint 0 500 ;;
  status <- choice ["healthy"; "degraded"; "warning"; "critical"] "" ;;
  ntags <- randint 2 5 ;;
  tags <- mapM (fun _ => generate_random_string 4) (seq 0 (Z.to_nat ntags)) ;;
  major <- randint 1 5 ;;
  minor <- randint 0 20 ;;
  patch <- randint 0 100 ;;
  ret (PDict
    [ ("request_id", PStr request_id);
      ("timestamp", PStr now);
      ("server_info", PDict
        [ ("hostname", PStr ("server-" ++ host));
          ("ip_address", PStr ip_address);
          ("mac_address", PStr mac_address);
          ("uptime_seconds", PInt uptime_seconds) ]);
      ("metrics", PDict
        [ ("cpu_usage_percent", PFloat (round2 cpu_usage));
          ("memory_used_mb", PInt memory_used_mb);
          ("memory_total_mb", PInt memory_total_mb);
          ("disk_io_read_mbps", PFloat (round2 disk_read));
          ("disk_io_write_mbps", PFloat (round2 disk_write));
          ("network_rx_mbps", PFloat (round2 network_rx));
          ("network_tx_mbps", PFloat (round2 network_tx)) ]);
      ("process_info", PDict
        [ ("pid", PInt pid);
          ("threads", PInt threads);
          ("open_files", PInt open_files);
          ("connections", PInt connections) ]);
      ("status", PStr status);
      ("tags", PList (map PStr tags));
      ("version", PStr (str_of_int major ++ "." ++ str_of_int minor ++ "."
                        ++ str_of_int patch)) ]).

(** ** Resource and prompt handlers *)

(** [handle_list_resources()]. *)
Definition handle_list_resources : M (list string) := ret [].

(** [handle_read_resource(uri)]. *)
Definition handle_read_resource (uri : string) : M string :=
  raise (ValueError ("Resource not found: " ++ uri)).

(** [handle_list_prompts()]. *)
Definition handle_list_prompts : M (list string) := ret [].

(** [handle_get_prompt(name, arguments)]. *)
Definition handle_get_prompt (name : string) (arguments : option dict) : M string :=
  raise (ValueError ("Unknown prompt: " ++ name)).

(** ** The tool catalogue *)

(** [handle_list_tools()]. *)
Definition handle_list_tools : M (list Tool) :=
  ret
    [ mkTool "get-random-data"
        "Returns random structured technical data for testing Docker stdio communications. Generates ~10-15 fields of technical metrics."
        (PDict
          [ ("type", PStr "object");
            ("properties", PDict
              [ ("count", PDict
                  [ ("type", PStr "integer");
                    ("description",
                     PStr "Number of data records to generate (1-10, default: 1)");
                    ("minimum", PInt 1);
                    ("maximum", PInt 10);
                    ("default", PInt 1) ]);
                ("include_delay", PDict
                  [ ("type", PStr "boolean");
                    ("description",
                     PStr "Add a small random delay (0-500ms) to simulate real API latency");
                    ("default", PBool false) ]) ]);
            ("required", PList []) ]);
      mkTool "echo"
        "Echoes back the provided message. Useful for testing basic stdio communication."
        (PDict
          [ ("type", PStr "object");
            ("properties", PDict
              [ ("message", PDict
                  [ ("type", PStr "string");
                    ("description", PStr "Message to echo back") ]) ]);
            ("required", PList [PStr "message"]) ]);
      mkTool "server-status"
        "Returns the current server status and version information."
        (PDict
          [ ("type", PStr "object");
            ("properties", PDict []);
            ("required", PList []) ]) ].

(** ** The tool-call handler *)

(** [min(max(arguments.get("count", 1), 1), 10)]. *)
Definition effective_count (arguments : dict) : res value :=
  res_bind (max2 (get arguments "count" (PInt 1)) 1) (fun m => min2 m 10).

(** The branch of [handle_call_tool] that computes [result]: the
    [if name == ...] chain at the head of the [try] block. *)
Definition tool_result (name : string) (arguments : dict) : M value :=
  if String.eqb name "get-random-data" then
    count <- lift (effective_count arguments) ;;
    let include_delay := get arguments "include_delay" (PBool false) in
    (if truthy include_delay
     then delay <- uniform (5 # 100) (1 # 2) ;; sleep delay
     else ret tt) ;;;
    if eq_int count 1 then
      generate_technical_data
    else
      idx <- lift (range count) ;;
      records <- mapM (fun _ => generate_technical_data) idx ;;
      ret (PDict [ ("records", PList records); ("count", count) ])
  else if String.eqb name "echo" then
    let message := get arguments "message" (PStr "") in
    timestamp <- datetime_now ;;
    message_length <- lift (len message) ;;
    ret (PDict [ ("echoed_message", message);
                 ("timestamp", PStr timestamp);
                 ("message_length", PInt message_length) ])
  else if String.eqb name "server-status" then
    timestamp <- datetime_now ;;
    ret (PDict [ ("server_name", PStr "mcp-stdio-docker-test");
                 ("version", PStr version);
                 ("status", PStr "running");
                 ("timestamp", PStr timestamp);
                 ("uptime_info", PStr "Server is operational") ])
  else
    raise (ValueError ("Unknown tool: " ++ name)).

(** [round((time.time() - start_time) * 1000, 2)]. *)
Definition elapsed_ms (start_time : Q) : M Q :=
  t <- time_time ;; ret (round2 (Qmult (Qminus t start_time) 1000)).

(** The [try] block of [handle_call_tool]. *)
Definition call_tool_try (name : string) (arguments : dict) (start_time : Q)
  : M (list TextContent) :=
  result <- tool_result name arguments ;;
  duration_ms <- elapsed_ms start_time ;;
  let response_json := json_dumps result in
  Logging.info logger "MCP tool completed"
    [ ("tool_name", PStr name);
      ("duration_ms", PFloat duration_ms);
      ("response_length", PInt (Z.of_nat (str_len response_json))) ] ;;;
  timestamp <- datetime_now ;;
  Logging.info logger "OUTBOUND JSON-RPC RESPONSE"
    [ ("tool_name", PStr name);
      ("response_length", PInt (Z.of_nat (str_len response_json)));
      ("response_payload", PStr response_json);
      ("duration_ms", PFloat duration_ms);
      ("timestamp", PStr timestamp);
      ("debug_outbound_message", PBool true) ] ;;;
  ret [mkTextContent "text" response_json].

(** The [except Exception as e] block of [handle_call_tool]. *)
Definition call_tool_except (name : string) (start_time : Q) (e : exn)
  : M (list TextContent) :=
  duration_ms <- elapsed_ms start_time ;;
  Logging.exception logger "MCP tool failed"
    [ ("tool_name", PStr name);
      ("error", PStr (str_of_exn e));
      ("duration_ms", PFloat duration_ms) ] ;;;
  ret [mkTextContent "text" ("Error: " ++ str_of_exn e)].

(** [handle_call_tool(name, arguments)]. *)
Definition handle_call_tool (name : string) (arguments : option dict)
  : M (list TextContent) :=
  start_time <- time_time ;;
  let arguments := match arguments with
                   | None => []
                   | Some d => d
                   end in
  timestamp <- datetime_now ;;
  Logging.info logger "MCP tool called"
    [ ("tool_name", PStr name);
      ("arguments", PDict arguments);
      ("timestamp", PStr timestamp) ] ;;;
  try_except (call_tool_try name arguments start_time)
             (call_tool_except name start_time).

(** ** The session *)

(** What happens in the session, one event after the other: a request
    arrives with its id and the library calls the handler registered for
    it; a message arrives that the library answers itself, without calling
    a handler (a malformed or unknown request, a tool call whose arguments
    fail the validation against the schema of the tool); the library logs
    a record of its own (a warning about a tool that is not listed, for
    instance); or the transport itself fails. *)
Inductive inbound : Type :=
| Message (id : Z) (r : request)
| LibraryAnswers (f : frame)
| LibraryLogs (r : Logging.LibraryRecord)
| TransportFailure (e : exn).

(** The handler registered for each request. *)
Definition dispatch (r : request) : M reply :=
  match r with
  | ListResources => x <- handle_list_resources ;; ret (Resources x)
  | ReadResource uri => x <- handle_read_resource uri ;; ret (Content [mkTextContent "text" x])
  | ListPrompts => x <- handle_list_prompts ;; ret (Prompts x)
  | GetPrompt name arguments =>
      x <- handle_get_prompt name arguments ;; ret (Content [mkTextContent "text" x])
  | ListTools => x <- handle_list_tools ;; ret (Tools x)
  | CallTool name arguments => x <- handle_call_tool name arguments ;; ret (Content x)
  end.

(** [server.run(read_stream, write_stream, ...)] of the protocol library,
    which is not part of this repository; it is modelled as the
    specification describes the session: messages are taken one at a
    time, the registered handler runs, its result is written as one frame
    (a handler's exception as an error frame), and the loop goes on to the
    next message; a failure of the transport ends the loop with the
    exception.  What the library does on its own, answering and logging,
    is given by the events. *)
Fixpoint server_run (inbox : list inbound) : M unit :=
  match inbox with
  | [] => ret tt
  | Message id r :: rest =>
      f <- try_except (x <- dispatch r ;; ret (ResultFrame id x))
                      (fun e => ret (ErrorFrame id (str_of_exn e))) ;;
      write_frame f ;;;
      server_run rest
  | LibraryAnswers f :: rest =>
      write_frame f ;;;
      server_run rest
  | LibraryLogs r :: rest =>
      Logging.library_log r ;;;
      server_run rest
  | TransportFailure e :: _ => raise e
  end.

(** The records the libraries log in a session, up to the failure of the
    transport if there is one. *)
Fixpoint heard (inbox : list inbound) : list LogRecord :=
  match inbox with
  | [] => []
  | Message _ _ :: rest | LibraryAnswers _ :: rest => heard rest
  | LibraryLogs r :: rest => Logging.record_of r :: heard rest
  | TransportFailure _ :: _ => []
  end.

(** [run_mcp_server()], serving the messages of [inbox]. *)
Definition run_mcp_server (inbox : list inbound) : M unit :=
  Logging.info logger "MCP server starting" [ ("version", PStr version) ] ;;;
  try_finally
    (try_except (server_run inbox)
       (fun e =>
          Logging.exception logger "MCP server crashed"
            [ ("error", PStr (str_of_exn e)) ] ;;;
          raise e))
    (Logging.info logger "MCP server stopped" []).

(** [logger = get_logger(__name__)] of [cli.py]. *)
Definition cli_logger : string := "mcp_stdio_test.cli".

(** [main()] of [cli.py], returning the exit status of the process.
    [asyncio.run] runs the coroutine to its end; what the event loop logs
    on its own counts among the records of the libraries in the events of
    the session.  An exception that leaves [main] ends the process too. *)
Definition main (env_LOG_LEVEL : option string) (inbox : list inbound) : M Z :=
  Logging.configure_logging unicode_upper env_LOG_LEVEL ;;;
  Logging.info cli_logger "Starting MCP STDIO Test Server"
    [ ("version", PStr version) ] ;;;
  try_except (run_mcp_server inbox ;;; ret 0)
    (fun e =>
       Logging.exception cli_logger "Fatal error in MCP server"
         [ ("error", PStr (str_of_exn e)) ] ;;;
       ret 1).

(** ** Observations on a generated record *)

(** [record[key]]. *)
Definition field (key : string) (record : value) : option value :=
  match record with
  | PDict d => lookup key d
  | _ => None
  end.

(** [record["metrics"][key]]. *)
Definition metric (key : string) (record : value) : option value :=
  match field "metrics" record with
  | Some m => field key m
  | None => None
  end.

(** The values of the [status] enumeration. *)
Definition statuses : list string := ["healthy"; "degraded"; "warning"; "critical"].

(** [record] is a record [generate_technical_data] can produce, and its
    [status] is one of the four. *)
Definition is_record (record : value) : Prop :=
  (exists w, fst (generate_technical_data w) = Ok record) /\
  exists s, field "status" record = Some (PStr s) /\ In s statuses.

(** What the [result] of [get-random-data] is for the effective count [n]:
    one record, or the records and their count. *)
Definition random_data_shape (n : Z) (result : value) : Prop :=
  if n =? 1 then is_record result
  else exists records,
      result = PDict [ ("records", PList records); ("count", PInt n) ]
      /\ Z.of_nat (List.length records) = n
      /\ Forall is_record records.

(** The state in which the [try] block of [handle_call_tool] starts, and
    the start time it measures from. *)
Definition enter_call (name : string) (arguments : dict) (w : world) : Q * world :=
  match (start_time <- time_time ;;
         timestamp <- datetime_now ;;
         Logging.info logger "MCP tool called"
           [ ("tool_name", PStr name);
             ("arguments", PDict arguments);
             ("timestamp", PStr timestamp) ] ;;;
         ret start_time) w with
  | (Ok start_time, w') => (start_time, w')
  | (Raise _, w') => (0%Q, w')
  end.

End WithEnvironment.

End Server.

(* ================================================================== *)
(** * The log viewer ([scripts/view-logs.py]) *)
(* ================================================================== *)

Module Viewer.
Import Py.

Section WithLibrary.

(** [datetime.fromisoformat] and [strftime("%H:%M:%S")] of the standard
    library; [fromisoformat] gives [None] where the library raises. *)
Variable datetime : Type.
Variable fromisoformat : string -> option datetime.
Variable strftime_HMS : datetime -> string.

(** [repr(v)] of the interpreter, used where a [float], [list] or [dict]
    is interpolated into an f-string. *)
Variable py_repr : value -> string.

(** [str(v)], what [f"{v}"] interpolates. *)
Definition str_of (v : value) : string :=
  match v with
  | PNone => "None"
  | PBool true => "True"
  | PBool false => "False"
  | PInt z => str_of_int z
  | PStr s => s
  | _ => py_repr v
  end.

(** [s.replace(old, new)] for a one-character [old]. *)
Fixpoint replace1 (old : ascii) (new s : string) : string :=
  match s with
  | EmptyString => EmptyString
  | String c rest =>
      if Ascii.eqb c old then new ++ replace1 old new rest
      else String c (replace1 old new rest)
  end.

(** [format_timestamp(ts)]: every exception of the [try] block, the
    missing [replace] of a non-string included, leads to [ts[:8]]. *)
Definition format_timestamp (ts : value) : res value :=
  match ts with
  | PStr s =>
      match fromisoformat (replace1 "Z" "+00:00" s) with
      | Some dt => Ok (PStr (strftime_HMS dt))
      | None => slice_to 8 ts
      end
  | _ => slice_to 8 ts
  end.

(** ** Format specifications *)

Definition unsupported_format (v : value) : exn :=
  TypeError ("unsupported format string passed to " ++ type_name v ++ ".__format__").

Definition unknown_format_code (code : string) (v : value) : exn :=
  ValueError ("Unknown format code '" ++ code ++ "' for object of type '"
              ++ type_name v ++ "'").

(** [f"{v:20s}"] accepts a [str] only. *)
Definition check_s (v : value) : res string :=
  match v with
  | PStr s => Ok s
  | PBool _ | PInt _ | PFloat _ => Raise (unknown_format_code "s" v)
  | _ => Raise (unsupported_format v)
  end.

(** [f"{v:>6.2f}"] accepts a number. *)
Definition check_f (v : value) : res Q :=
  match v with
  | PBool _ | PInt _ | PFloat _ =>
      match as_number v with
      | Some q => Ok q
      | None => Raise (unsupported_format v)
      end
  | PStr _ => Raise (unknown_format_code "f" v)
  | _ => Raise (unsupported_format v)
  end.

(** [f"{v:>4d}"] accepts an [int]. *)
Definition check_d (v : value) : res Z :=
  match v with
  | PBool b => Ok (if b then 1 else 0)
  | PInt z => Ok z
  | PFloat _ | PStr _ => Raise (unknown_format_code "d" v)
  | _ => Raise (unsupported_format v)
  end.

(** [n] copies of a space. *)
Fixpoint spaces (n : nat) : string :=
  match n with
  | O => EmptyString
  | S m => String " " (spaces m)
  end.

(** [f"{s:<width>s}"]: left-aligned, padded on the right. *)
Definition pad_right (width : nat) (s : string) : string :=
  s ++ spaces (width - str_len s).

(** [f"{s:>width}"]: right-aligned, padded on the left. *)
Definition pad_left (width : nat) (s : string) : string :=
  spaces (width - str_len s) ++ s.

(** [f"{q:.2f}"]: two decimals, the sign kept. *)
Definition fixed2 (q : Q) : string :=
  let n := Z.abs (Qnum (round2 q)) in
  let frac := n mod 100 in
  (if Qlt_bool q 0 then "-" else "")
  ++ str_of_int (n / 100) ++ "."
  ++ (if frac <? 10 then "0" else "") ++ str_of_int frac.

(** ** Colours *)

Definition ESC : string := String (ascii_of_nat 27) EmptyString.
Definition RESET : string := ESC ++ "[0m".
Definition BOLD : string := ESC ++ "[1m".
Definition DIM : string := ESC ++ "[2m".
Definition CYAN : string := ESC ++ "[36m".
Definition GREEN : string := ESC ++ "[32m".
Definition YELLOW : string := ESC ++ "[33m".
Definition RED : string := ESC ++ "[31m".
Definition GRAY : string := ESC ++ "[90m".

(** ** Rendered lines

    What [process_log] returns, by the f-string that builds it, with the
    values interpolated into it. *)
Inductive rendered : Type :=
| SuccessLine (ts : value) (tool args_str : string) (duration : Q) (size : Z)
| FailureLine (ts : value) (tool : string) (error : value)
| StartBanner (version : value)
| StoppedLine.

(** [n] copies of [s]. *)
Fixpoint times (n : nat) (s : string) : string :=
  match n with
  | O => EmptyString
  | S m => s ++ times m s
  end.

Definition newline : string := String (ascii_of_nat 10) EmptyString.

(** The text of a rendered line. *)
Definition render (r : rendered) : string :=
  match r with
  | SuccessLine ts tool args_str duration size =>
      GRAY ++ str_of ts ++ RESET ++ " " ++ GREEN ++ "✓" ++ RESET ++ " "
      ++ BOLD ++ pad_right 20 tool ++ RESET ++ " "
      ++ CYAN ++ pad_right 25 args_str ++ RESET ++ " "
      ++ YELLOW ++ pad_left 6 (fixed2 duration) ++ "ms" ++ RESET ++ " "
      ++ DIM ++ pad_left 4 (str_of_int size) ++ "b" ++ RESET
  | FailureLine ts tool error =>
      GRAY ++ str_of ts ++ RESET ++ " " ++ RED ++ "✗" ++ RESET ++ " "
      ++ BOLD ++ pad_right 20 tool ++ RESET ++ " "
      ++ RED ++ str_of error ++ RESET
  | StartBanner version =>
      newline ++ GREEN ++ times 80 "═" ++ newline
      ++ "🚀 MCP Server v" ++ str_of version ++ newline
      ++ times 80 "═" ++ RESET ++ newline
  | StoppedLine =>
      YELLOW ++ "⏹  Stopped" ++ RESET
  end.

(** ** The request tracker *)

(** [self.current_request]: the empty dictionary when no call is pending. *)
Definition tracker : Type := dict.

(** [RequestTracker()]. *)
Definition init : tracker := [].

(** [" ".join(f"{k}={v}" for k, v in args.items()) if args else ""]. *)
Definition format_args (args : value) : res string :=
  if truthy args then
    match args with
    | PDict d => Ok (join " " (map (fun kv => fst kv ++ "=" ++ str_of (snd kv)) d))
    | _ => Raise (AttributeError ("'" ++ type_name args
                                  ++ "' object has no attribute 'items'"))
    end
  else Ok "".

(** The ["MCP tool completed"] branch once a call is pending. *)
Definition render_completed (current_request log : dict) (timestamp : value)
  : res rendered :=
  let tool := get current_request "tool" (PStr "?") in
  let args := get current_request "args" (PDict []) in
  let duration := get log "duration_ms" (PInt 0) in
  let size := get log "response_length" (PInt 0) in
  let ts := get current_request "timestamp" timestamp in
  res_bind (format_args args) (fun args_str =>
  res_bind (check_s tool) (fun tool =>
  res_bind (check_f duration) (fun duration =>
  res_bind (check_d size) (fun size =>
  Ok (SuccessLine ts tool args_str duration size))))).

(** The ["MCP tool failed"] branch. *)
Definition render_failed (current_request log : dict) (timestamp : value)
  : res rendered :=
  let tool := get current_request "tool" (get log "tool_name" (PStr "?")) in
  res_bind (slice_to 50 (get log "error" (PStr ""))) (fun error =>
  let ts := get current_request "timestamp" timestamp in
  res_bind (check_s tool) (fun tool =>
  Ok (FailureLine ts tool error))).

(** [RequestTracker.process_log(log)]: the value returned (or the
    exception raised) and [self.current_request] afterwards. *)
Definition process_log (current_request : tracker) (log : dict)
  : res (option rendered) * tracker :=
  let message := get log "message" (PStr "") in
  match format_timestamp (get log "asctime" (PStr "")) with
  | Raise e => (Raise e, current_request)
  | Ok timestamp =>
  match str_in "MCP tool called" message with
  | Raise e => (Raise e, current_request)
  | Ok true =>
      (Ok None,
       [ ("timestamp", timestamp);
         ("tool", get log "tool_name" (PStr "?"));
         ("args", get log "arguments" (PDict [])) ])
  | Ok false =>
  match str_in "MCP tool completed" message with
  | Raise e => (Raise e, current_request)
  | Ok true =>
      if negb (truthy (PDict current_request)) then (Ok None, current_request)
      else match render_completed current_request log timestamp with
           | Raise e => (Raise e, current_request)
           | Ok result => (Ok (Some result), [])
           end
  | Ok false =>
  match str_in "MCP tool failed" message with
  | Raise e => (Raise e, current_request)
  | Ok true =>
      match render_failed current_request log timestamp with
      | Raise e => (Raise e, current_request)
      | Ok result => (Ok (Some result), [])
      end
  | Ok false =>
  match res_bind (str_in "Server Starting" message) (fun a =>
          if a then Ok true else str_in "MCP server starting" message) with
  | Raise e => (Raise e, current_request)
  | Ok true => (Ok (Some (StartBanner (get log "version" (PStr "?")))), current_request)
  | Ok false =>
  match str_in "MCP server stopped" message with
  | Raise e => (Raise e, current_request)
  | Ok true => (Ok (Some StoppedLine), current_request)
  | Ok false => (Ok None, current_request)
  end end end end end end.

(** ** The main loop *)

(** What the loop prints: a rendered line, or the column header again. *)
Inductive printed : Type :=
| Row (r : rendered)
| Header.

(** The body of [for line in process.stdout] on the lines [json.loads]
    accepts, given as the values it returns: each goes through
    [tracker.process_log], a result is printed and counted, and the header
    is printed again after every twentieth line.  The loop ends with the
    first exception that is not a [JSONDecodeError]; what was printed
    before stays printed. *)
Fixpoint feed (logs : list value) (current_request : tracker) (line_count : Z)
  : list printed * res unit :=
  match logs with
  | [] => ([], Ok tt)
  | PDict log :: rest =>
      match process_log current_request log with
      | (Raise e, _) => ([], Raise e)
      | (Ok None, current_request) => feed rest current_request line_count
      | (Ok (Some formatted), current_request) =>
          let line_count := line_count + 1 in
          let out := Row formatted
                     :: (if line_count mod 20 =? 0 then [Header] else []) in
          let (more, outcome) := feed rest current_request line_count in
          ((out ++ more)%list, outcome)
      end
  | v :: _ =>
      ([], Raise (AttributeError ("'" ++ type_name v
                                  ++ "' object has no attribute 'get'")))
  end.

(** The viewer on a stream of decoded log lines, from a fresh tracker. *)
Definition view (logs : list value) : list printed * res unit :=
  feed logs init 0.

(** ** Events of the server's log

    Lines of the shape the JSON handler of the server writes, as
    [json.loads] returns them: the four fields of the format string, then
    the [extra] fields of the record (a traceback, which the viewer does
    not read, is left out). *)

Definition event (asctime levelname message : string) (extra : dict) : dict :=
  ([ ("asctime", PStr asctime);
     ("levelname", PStr levelname);
     ("name", PStr "mcp_stdio_test.server");
     ("message", PStr message) ] ++ extra)%list.

Definition called (asctime tool : string) (arguments : dict) : dict :=
  event asctime "INFO" "MCP tool called"
    [ ("tool_name", PStr tool); ("arguments", PDict arguments) ].

Definition completed (asctime tool : string) (duration : Q) (size : Z) : dict :=
  event asctime "INFO" "MCP tool completed"
    [ ("tool_name", PStr tool);
      ("duration_ms", PFloat duration);
      ("response_length", PInt size) ].

Definition failed (asctime tool error : string) (duration : Q) : dict :=
  event asctime "ERROR" "MCP tool failed"
    [ ("tool_name", PStr tool);
      ("error", PStr error);
      ("duration_ms", PFloat duration) ].

(** What [format_timestamp] makes of a string. *)
Definition time_of_day (asctime : string) : value :=
  match fromisoformat (replace1 "Z" "+00:00" asctime) with
  | Some dt => PStr (strftime_HMS dt)
  | None => PStr (str_slice_to 8 asctime)
  end.

(** The argument column of a line. *)
Definition args_column (arguments : dict) : string :=
  join " " (map (fun kv => fst kv ++ "=" ++ str_of (snd kv)) arguments).

End WithLibrary.

End Viewer.

(* ================================================================== *)
(** * Concrete environments *)
(* ================================================================== *)

(** Values for what the embedding leaves open, to run the handlers and
    the viewer on concrete inputs. *)
Module Sample.
Import Py Mcp Eff.

Definition quote : string := String (ascii_of_nat 34) EmptyString.

(** A compact serialiser: keys in order, strings unescaped, a [float] as
    the fraction it denotes. *)
Fixpoint dumps (v : value) : string :=
  match v with
  | PNone => "null"
  | PBool true => "true"
  | PBool false => "false"
  | PInt z => str_of_int z
  | PFloat q => str_of_int (Qnum q) ++ "/" ++ str_of_int (Zpos (Qden q))
  | PStr s => quote ++ s ++ quote
  | PList l => "[" ++ join ", " (map dumps l) ++ "]"
  | PDict d =>
      "{" ++ join ", " (map (fun kv : string * value => let (k, x) := kv in
                                       quote ++ k ++ quote ++ ": " ++ dumps x) d)
      ++ "}"
  end.

Definition version : string := "1.0.0".

(** A stand-in for the case mapping of Unicode: the environments below
    use ASCII names only. *)
Definition unicode_upper (s : string) : string := s.

(** A process before [configure_logging]: the root logger of a fresh
    interpreter, some entropy, a clock that advances by 50 ms. *)
Definition world0 : world :=
  mkWorld (map Z.to_N [3; 141; 59; 26; 535; 8979; 323; 846; 2643; 383; 27; 950; 2884])
          [10%Q; (1005 # 100)%Q; 11%Q; (1105 # 100)%Q]
          ["2024-05-01T12:00:00+00:00"; "2024-05-01T12:00:01+00:00";
           "2024-05-01T12:00:02+00:00"; "2024-05-01T12:00:03+00:00"]
          ["0b0e7a52-5f0c-4d0b-9d4e-3f0a6c1d2e3f"]
          [] [] (mkRoot WARNING []) [] [].

(** What the library logs when a tool is called that the catalogue does
    not list. *)
Definition unlisted_tool_warning : Logging.LibraryRecord :=
  Logging.mkLibraryRecord Logging.LibWarning "mcp.server.lowlevel.server"
    "Tool 'nope' not listed, no validation will be performed" false.

(** A session of one call, of a tool that is not listed. *)
Definition unlisted_tool_call : list Server.inbound :=
  [ Server.LibraryLogs unlisted_tool_warning;
    Server.Message 1 (CallTool "nope" None) ].

(** The same process after [configure_logging()] with [LOG_LEVEL] unset. *)
Definition configured_world : world :=
  snd (Logging.configure_logging unicode_upper None world0).

(** The time of day of an ISO timestamp of the shape
    [YYYY-MM-DDTHH:MM:SS...], standing for [datetime.fromisoformat]. *)
Definition fromisoformat (s : string) : option string :=
  if (19 <=? String.length s)%nat && String.eqb (String.substring 10 1 s) "T"
  then Some (String.substring 11 8 s)
  else None.

Definition strftime_HMS (hms : string) : string := hms.

End Sample.

(* ================================================================== *)
(** * Observations *)
(* ================================================================== *)

(** Predicates and measures in which the further properties of the
    server and of the viewer are stated. *)
Module Observe.
Import Py Mcp Eff Logging Server Viewer.

(** ** Footprints of effectful code *)

(** [c] returns normally from every state with a value satisfying [P],
    and changes nothing but the tape of the random generator. *)
Definition draws {A} (c : M A) (P : A -> Prop) : Prop :=
  forall w, exists a rs, c w = (Ok a, set_randoms rs w) /\ P a.

(** However [c] ends, the state it leaves is related by [R] to the state
    it started from. *)
Definition keeps (R : world -> world -> Prop) {A} (c : M A) : Prop :=
  forall w, R w (snd (c w)).

(** Nothing was logged, written or configured. *)
Definition unlogged (w w' : world) : Prop :=
  logged w' = logged w /\ root_logger w' = root_logger w
  /\ stdout w' = stdout w /\ stderr w' = stderr w.

(** Nothing was logged, written, configured, slept or read off
    [time.time()]. *)
Definition generates (w w' : world) : Prop :=
  unlogged w w' /\ clock w' = clock w /\ slept w' = slept w.

(** The random generator was not consulted and nothing was slept. *)
Definition undrawn (w w' : world) : Prop :=
  randoms w' = randoms w /\ uuids w' = uuids w /\ slept w' = slept w.

(** The level of the record is the one of [logger.info] or the one of
    [logger.exception]. *)
Definition info_or_error (r : LogRecord) : Prop :=
  levelno r = INFO \/ levelno r = ERROR.

(** The records submitted from [w] to [w'] come from [logger.info] and
    [logger.exception] calls. *)
Definition submits (w w' : world) : Prop :=
  exists records,
    logged w' = (logged w ++ records)%list /\ Forall info_or_error records.

(** Under a configured logger, neither the logger nor the protocol
    output stream was touched. *)
Definition stdout_kept (w w' : world) : Prop :=
  configured w -> root_logger w' = root_logger w /\ stdout w' = stdout w.

(** ** Characters of generated strings *)

Definition between (lo hi : nat) (c : ascii) : bool :=
  ((lo <=? nat_of_ascii c) && (nat_of_ascii c <=? hi))%nat.

(** An ASCII letter or digit. *)
Definition is_alnum (c : ascii) : bool :=
  between 48 57 c || between 65 90 c || between 97 122 c.

(** A digit or one of [a] to [f]. *)
Definition is_hex_lower (c : ascii) : bool :=
  between 48 57 c || between 97 102 c.

(** A decimal digit. *)
Definition is_digit (c : ascii) : bool := between 48 57 c.

(** Every character of [s] passes [p]. *)
Fixpoint string_forall (p : ascii -> bool) (s : string) : bool :=
  match s with
  | EmptyString => true
  | String c rest => p c && string_forall p rest
  end.

(** [n] alphanumeric characters. *)
Definition alnum_of_length (n : nat) (s : string) : Prop :=
  String.length s = n /\ string_forall is_alnum s = true.

(** Two lower-case hexadecimal digits. *)
Definition hex_pair (s : string) : Prop :=
  String.length s = 2%nat /\ string_forall is_hex_lower s = true.

(** The text of a dotted quad. *)
Definition dotted (a b c d : Z) : string :=
  str_of_int a ++ "." ++ str_of_int b ++ "." ++ str_of_int c ++ "." ++ str_of_int d.

(** The state after one instant and one identifier were taken and the
    tape of the random generator was left at [rs]. *)
Definition after_record (rs : list N) (w : world) : world :=
  set_randoms rs (set_uuids (tl (uuids w)) (set_nows (tl (nows w)) w)).

(** ** Fields of a record *)

(** [record[outer][key]]. *)
Definition sub (outer key : string) (record : value) : option value :=
  match field outer record with
  | Some inner => field key inner
  | None => None
  end.

(** The field is an [int] within [[lo, hi]]. *)
Definition int_within (lo hi : Z) (v : option value) : Prop :=
  exists z, v = Some (PInt z) /\ lo <= z <= hi.

(** The field is a [float] within [[lo, hi]], a whole number of
    hundredths. *)
Definition hundredths_within (lo hi : Q) (v : option value) : Prop :=
  exists n, v = Some (PFloat (Qmake n 100))
            /\ Qle lo (Qmake n 100) /\ Qle (Qmake n 100) hi.

(** The field is ["server-"] followed by six alphanumeric characters. *)
Definition hostname_shape (v : option value) : Prop :=
  exists h, v = Some (PStr ("server-" ++ h)) /\ alnum_of_length 6 h.

(** The field is a dotted quad within the ranges of [generate_random_ip]. *)
Definition ip_shape (v : option value) : Prop :=
  exists a b c d,
    v = Some (PStr (dotted a b c d))
    /\ 1 <= a <= 255 /\ 0 <= b <= 255 /\ 0 <= c <= 255 /\ 1 <= d <= 254.

(** The field is six pairs of hexadecimal digits joined by colons. *)
Definition mac_shape (v : option value) : Prop :=
  exists p1 p2 p3 p4 p5 p6,
    v = Some (PStr (join ":" [p1; p2; p3; p4; p5; p6]))
    /\ Forall hex_pair [p1; p2; p3; p4; p5; p6].

(** The field is a list of two to five strings of four alphanumeric
    characters. *)
Definition tags_shape (v : option value) : Prop :=
  exists tags,
    v = Some (PList (map PStr tags))
    /\ (2 <= List.length tags <= 5)%nat
    /\ Forall (alnum_of_length 4) tags.

(** The field is a version [major.minor.patch] within the ranges of the
    generator. *)
Definition version_shape (v : option value) : Prop :=
  exists major minor patch,
    v = Some (PStr (str_of_int major ++ "." ++ str_of_int minor ++ "."
                    ++ str_of_int patch))
    /\ 1 <= major <= 5 /\ 0 <= minor <= 20 /\ 0 <= patch <= 100.

(** ** The session *)

(** The failure of the transport that ends the session, if there is one. *)
Fixpoint first_failure (inbox : list inbound) : option exn :=
  match inbox with
  | [] => None
  | Message _ _ :: rest | LibraryAnswers _ :: rest | LibraryLogs _ :: rest =>
      first_failure rest
  | TransportFailure e :: _ => Some e
  end.

(** The id a frame answers. *)
Definition frame_id (f : frame) : Z :=
  match f with
  | ResultFrame id _ | ErrorFrame id _ => id
  end.

(** The ids of the messages that arrive before the transport fails. *)
Fixpoint ids_served (inbox : list inbound) : list Z :=
  match inbox with
  | [] => []
  | Message id _ :: rest => id :: ids_served rest
  | LibraryAnswers f :: rest => frame_id f :: ids_served rest
  | LibraryLogs _ :: rest => ids_served rest
  | TransportFailure _ :: _ => []
  end.

(** ** Log lines *)

(** The records [handle_call_tool] submits. *)

Definition called_record (name : string) (args : dict) (timestamp : string)
  : LogRecord :=
  mkRecord INFO logger "MCP tool called"
    [ ("tool_name", PStr name);
      ("arguments", PDict args);
      ("timestamp", PStr timestamp) ] false.

Definition completed_record (name : string) (duration_ms : Q) (text : string)
  : LogRecord :=
  mkRecord INFO logger "MCP tool completed"
    [ ("tool_name", PStr name);
      ("duration_ms", PFloat duration_ms);
      ("response_length", PInt (Z.of_nat (str_len text))) ] false.

Definition outbound_record (name : string) (duration_ms : Q) (text timestamp : string)
  : LogRecord :=
  mkRecord INFO logger "OUTBOUND JSON-RPC RESPONSE"
    [ ("tool_name", PStr name);
      ("response_length", PInt (Z.of_nat (str_len text)));
      ("response_payload", PStr text);
      ("duration_ms", PFloat duration_ms);
      ("timestamp", PStr timestamp);
      ("debug_outbound_message", PBool true) ] false.

Definition failed_record (name : string) (e : exn) (duration_ms : Q) : LogRecord :=
  mkRecord ERROR logger "MCP tool failed"
    [ ("tool_name", PStr name);
      ("error", PStr (str_of_exn e));
      ("duration_ms", PFloat duration_ms) ] true.

(** The records [run_mcp_server] and [main] submit. *)

Definition cli_starting_record (version : string) : LogRecord :=
  mkRecord INFO cli_logger "Starting MCP STDIO Test Server"
    [ ("version", PStr version) ] false.

Definition starting_record (version : string) : LogRecord :=
  mkRecord INFO logger "MCP server starting" [ ("version", PStr version) ] false.

Definition crashed_record (e : exn) : LogRecord :=
  mkRecord ERROR logger "MCP server crashed" [ ("error", PStr (str_of_exn e)) ] true.

Definition stopped_record : LogRecord :=
  mkRecord INFO logger "MCP server stopped" [] false.

Definition fatal_record (e : exn) : LogRecord :=
  mkRecord ERROR cli_logger "Fatal error in MCP server"
    [ ("error", PStr (str_of_exn e)) ] true.

(** The record comes from [logger.exception]. *)
Definition is_error (r : LogRecord) : bool := levelno r =? ERROR.

(** The name [configure_logging] looks up in the [logging] module. *)
Definition level_name_of (unicode_upper : string -> string)
           (env_LOG_LEVEL : option string) : string :=
  upper unicode_upper (match env_LOG_LEVEL with
                       | Some v => v
                       | None => "INFO"
                       end).

(** [LOG_LEVEL] is unset or names, in any case, a level of the [logging]
    module. *)
Definition names_a_level (unicode_upper : string -> string)
           (env_LOG_LEVEL : option string) : Prop :=
  In (level_name_of unicode_upper env_LOG_LEVEL)
     ["CRITICAL"; "FATAL"; "ERROR"; "WARNING"; "WARN"; "INFO"; "DEBUG"; "NOTSET"].

(** The level [configure_logging] sets for a value of [LOG_LEVEL], or the
    exception [setLevel] raises. *)
Definition configured_level (unicode_upper : string -> string)
           (env_LOG_LEVEL : option string) : res Z :=
  checkLevel (getattr_logging (level_name_of unicode_upper env_LOG_LEVEL)
                              (IntAttr INFO)).

(** The value has a length: a [str], a [list] or a [dict]. *)
Definition is_sized (v : value) : bool :=
  match v with
  | PStr _ | PList _ | PDict _ => true
  | _ => false
  end.

(** [logging.getLevelName(levelno)]. *)
Definition level_name (levelno : Z) : string :=
  if levelno =? CRITICAL then "CRITICAL"
  else if levelno =? ERROR then "ERROR"
  else if levelno =? WARNING then "WARNING"
  else if levelno =? INFO then "INFO"
  else if levelno =? DEBUG then "DEBUG"
  else if levelno =? 0 then "NOTSET"
  else "Level " ++ str_of_int levelno.

(** The object the JSON handler writes for a record at the time
    [asctime], as [json.loads] returns it: the four fields of the format
    string ["%(asctime)s %(levelname)s %(name)s %(message)s"], the
    formatted traceback [exc_text] under [exc_info] when an exception is
    attached to the record, then the [extra] fields of the call. *)
Definition json_object (asctime exc_text : string) (r : LogRecord) : dict :=
  ([ ("asctime", PStr asctime);
     ("levelname", PStr (level_name (levelno r)));
     ("name", PStr (logger_name r));
     ("message", PStr (message r)) ]
   ++ (if exc_info r then [ ("exc_info", PStr exc_text) ] else [])
   ++ extra r)%list.

(** ** What the viewer printed *)

Definition is_row (p : printed) : bool :=
  match p with Row _ => true | Header => false end.

Definition is_header (p : printed) : bool :=
  match p with Row _ => false | Header => true end.

(** The number of rendered lines among what was printed. *)
Definition rows (out : list printed) : Z := Z.of_nat (List.length (filter is_row out)).

(** The number of repeated headers among what was printed. *)
Definition headers (out : list printed) : Z :=
  Z.of_nat (List.length (filter is_header out)).

(** The pending slot is empty, or holds the three fields a
    ["MCP tool called"] event stores. *)
Definition slot_shape (current_request : tracker) : Prop :=
  current_request = []
  \/ exists ts tool args,
      current_request = [ ("timestamp", ts); ("tool", tool); ("args", args) ].

End Observe.

(* ================================================================== *)
(** * Reasoning about effectful code *)
(* ================================================================== *)

Module EffFacts.
Import Py Mcp Eff.
Local Open Scope eff_scope.

(** ** Normal return *)

Lemma returns_ret {A} (a : A) (P : A -> Prop) : P a -> returns (ret a) P.
Proof. intros H w. exists a, w. split; [reflexivity | exact H]. Qed.

Lemma returns_bind {A B} (c : M A) (k : A -> M B) (P : A -> Prop) (Q : B -> Prop) :
  returns c P -> (forall a, P a -> returns (k a) Q) -> returns (bind c k) Q.
Proof.
  intros Hc Hk w.
  destruct (Hc w) as (a & w1 & E & Pa).
  destruct (Hk a Pa w1) as (b & w2 & E2 & Qb).
  exists b, w2. unfold bind. rewrite E. split; assumption.
Qed.

Lemma returns_weaken {A} (c : M A) (P Q : A -> Prop) :
  returns c P -> (forall a, P a -> Q a) -> returns c Q.
Proof.
  intros Hc HPQ w. destruct (Hc w) as (a & w' & E & Pa).
  exists a, w'. split; [exact E | apply HPQ, Pa].
Qed.

Lemma returns_lift {A} (a : A) (P : A -> Prop) : P a -> returns (lift (Ok a)) P.
Proof. intros H w. exists a, w. split; [reflexivity | exact H]. Qed.

Lemma returns_mapM {A B} (f : A -> M B) (P : B -> Prop) (xs : list A) :
  (forall x, returns (f x) P) ->
  returns (mapM f xs) (fun ys => List.length ys = List.length xs /\ Forall P ys).
Proof.
  intros Hf. induction xs as [|x rest IH]; simpl.
  - apply returns_ret. split; [reflexivity | constructor].
  - eapply returns_bind; [apply Hf | intros y Py].
    eapply returns_bind; [apply IH | intros ys [Hlen Hall]].
    apply returns_ret. split; [simpl; congruence | constructor; assumption].
Qed.

Lemma returns_draw : returns draw (fun _ => True).
Proof. intros w. eexists _, _. split; [reflexivity | exact I]. Qed.

Lemma returns_randbelow (n : Z) :
  0 < n -> returns (randbelow n) (fun k => 0 <= k < n).
Proof.
  intros Hn. unfold randbelow.
  eapply returns_bind; [apply returns_draw | intros r _].
  apply returns_ret. apply Z.mod_pos_bound, Hn.
Qed.

Lemma returns_randint (a b : Z) :
  a <= b -> returns (randint a b) (fun v => a <= v <= b).
Proof.
  intros Hab. unfold randint.
  eapply returns_bind; [apply returns_randbelow; lia | intros k Hk].
  apply returns_ret. cbv beta in Hk. lia.
Qed.

Lemma returns_random : returns random (fun _ => True).
Proof.
  unfold random. eapply returns_bind; [apply returns_draw | intros r _].
  apply returns_ret. exact I.
Qed.

Lemma returns_uniform (a b : Q) : returns (uniform a b) (fun _ => True).
Proof.
  unfold uniform. eapply returns_bind; [apply returns_random | intros u _].
  apply returns_ret. exact I.
Qed.

Lemma returns_choice {A} (seq : list A) (d : A) :
  seq <> [] -> returns (choice seq d) (fun x => In x seq).
Proof.
  intros Hne. unfold choice.
  assert (0 < Z.of_nat (List.length seq)) by (destruct seq; [congruence | simpl; lia]).
  eapply returns_bind; [apply returns_randbelow; assumption | intros i Hi].
  apply returns_ret. cbv beta in Hi. apply nth_In. lia.
Qed.

Lemma returns_choices (population : string) (k : nat) :
  returns (choices population k) (fun cs => List.length cs = k).
Proof.
  unfold choices.
  eapply returns_weaken.
  - apply returns_mapM with (P := fun _ => True).
    intros _. unfold choose_char.
    eapply returns_bind; [apply returns_random | intros u _].
    apply returns_ret. exact I.
  - intros cs [Hlen _]. rewrite Hlen. apply length_seq.
Qed.

Lemma returns_time_time : returns time_time (fun _ => True).
Proof. intros w. eexists _, _. split; [reflexivity | exact I]. Qed.

Lemma returns_datetime_now : returns datetime_now (fun _ => True).
Proof. intros w. eexists _, _. split; [reflexivity | exact I]. Qed.

Lemma returns_uuid4 : returns uuid4 (fun _ => True).
Proof. intros w. eexists _, _. split; [reflexivity | exact I]. Qed.

Lemma returns_sleep (d : Q) : returns (sleep d) (fun _ => True).
Proof. intros w. eexists _, _. split; [reflexivity | exact I]. Qed.

Create HintDb returns.
#[export] Hint Resolve returns_datetime_now returns_uuid4 returns_uniform
  returns_time_time returns_sleep returns_random : returns.

(** ** Dependence on the inputs only *)

Lemma same_inputs_refl (w : world) : same_inputs w w.
Proof. repeat split. Qed.

Lemma determined_ret {A} (a : A) : input_determined (ret a).
Proof. intros w1 w2 H. split; [reflexivity | exact H]. Qed.

Lemma determined_lift {A} (r : res A) : input_determined (lift r).
Proof. intros w1 w2 H. split; [reflexivity | exact H]. Qed.

Lemma determined_raise {A} (e : exn) : input_determined (@raise A e).
Proof. intros w1 w2 H. split; [reflexivity | exact H]. Qed.

Lemma determined_bind {A B} (c : M A) (k : A -> M B) :
  input_determined c -> (forall a, input_determined (k a)) ->
  input_determined (bind c k).
Proof.
  intros Hc Hk w1 w2 H. unfold bind.
  destruct (Hc w1 w2 H) as [E S].
  destruct (c w1) as [r1 w1'], (c w2) as [r2 w2']. simpl in E, S. subst r2.
  destruct r1 as [a|e]; [apply Hk, S | split; [reflexivity | exact S]].
Qed.

Lemma determined_mapM {A B} (f : A -> M B) (xs : list A) :
  (forall x, input_determined (f x)) -> input_determined (mapM f xs).
Proof.
  intros Hf. induction xs as [|x rest IH]; simpl.
  - apply determined_ret.
  - apply determined_bind; [apply Hf | intros y].
    apply determined_bind; [apply IH | intros ys]. apply determined_ret.
Qed.

Lemma determined_draw : input_determined draw.
Proof.
  intros w1 w2 (Hr & Hc & Hn & Hu & Hs). unfold draw, same_inputs; simpl.
  rewrite Hr. repeat split; assumption.
Qed.

Lemma determined_time_time : input_determined time_time.
Proof.
  intros w1 w2 (Hr & Hc & Hn & Hu & Hs). unfold time_time, same_inputs; simpl.
  rewrite Hc. repeat split; assumption.
Qed.

Lemma determined_datetime_now : input_determined datetime_now.
Proof.
  intros w1 w2 (Hr & Hc & Hn & Hu & Hs). unfold datetime_now, same_inputs; simpl.
  rewrite Hn. repeat split; assumption.
Qed.

Lemma determined_uuid4 : input_determined uuid4.
Proof.
  intros w1 w2 (Hr & Hc & Hn & Hu & Hs). unfold uuid4, same_inputs; simpl.
  rewrite Hu. repeat split; assumption.
Qed.

Lemma determined_sleep (d : Q) : input_determined (sleep d).
Proof.
  intros w1 w2 (Hr & Hc & Hn & Hu & Hs). unfold sleep, same_inputs; simpl.
  rewrite Hs. repeat split; assumption.
Qed.

Lemma determined_randint (a b : Z) : input_determined (randint a b).
Proof.
  unfold randint, randbelow.
  repeat (apply determined_bind; [| intros ?]);
    first [apply determined_draw | apply determined_ret].
Qed.

Lemma determined_random : input_determined random.
Proof.
  unfold random. apply determined_bind; [apply determined_draw | intros ?].
  apply determined_ret.
Qed.

Lemma determined_uniform (a b : Q) : input_determined (uniform a b).
Proof.
  unfold uniform. apply determined_bind; [apply determined_random | intros ?].
  apply determined_ret.
Qed.

Lemma determined_choice {A} (seq : list A) (d : A) : input_determined (choice seq d).
Proof.
  unfold choice, randbelow.
  repeat (apply determined_bind; [| intros ?]);
    first [apply determined_draw | apply determined_ret].
Qed.

Lemma determined_choices (population : string) (k : nat) :
  input_determined (choices population k).
Proof.
  unfold choices. apply determined_mapM. intros _. unfold choose_char.
  apply determined_bind; [apply determined_random | intros ?].
  apply determined_ret.
Qed.

Lemma determined_try_except {A} (body : M A) (handler : exn -> M A) :
  input_determined body -> (forall e, input_determined (handler e)) ->
  input_determined (try_except body handler).
Proof.
  intros Hb Hh w1 w2 H. unfold try_except.
  destruct (Hb w1 w2 H) as [E S].
  destruct (body w1) as [r1 w1'], (body w2) as [r2 w2']. simpl in E, S. subst r2.
  destruct r1 as [a|e]; [split; [reflexivity | exact S] | apply Hh, S].
Qed.

Create HintDb determined.
#[export] Hint Resolve determined_ret determined_lift determined_raise
  determined_draw determined_time_time determined_datetime_now determined_uuid4
  determined_sleep determined_randint determined_random determined_uniform
  determined_choice determined_choices : determined.

(** Takes a sequence apart, down to the calls the hints know. *)
Ltac determined :=
  repeat first
    [ apply determined_bind; [| intros ?]
    | apply determined_mapM; intros ?
    | solve [auto with determined]
    | match goal with
      | |- input_determined (if ?b then _ else _) => destruct b
      end ].

End EffFacts.

(* ================================================================== *)
(** * Properties of the logger *)
(* ================================================================== *)

Module LoggingFacts.
Import Py Mcp Eff EffFacts Logging.
Local Open Scope eff_scope.

(** ** Writing touches the streams only *)

Lemma write_same_inputs (s : stream_id) (l : line) (w : world) :
  same_inputs w (write s l w).
Proof. destruct s; repeat split. Qed.

Lemma write_logged (s : stream_id) (l : line) (w : world) :
  logged (write s l w) = logged w.
Proof. destruct s; reflexivity. Qed.

Lemma write_root_logger (s : stream_id) (l : line) (w : world) :
  root_logger (write s l w) = root_logger w.
Proof. destruct s; reflexivity. Qed.

Lemma same_inputs_trans (w1 w2 w3 : world) :
  same_inputs w1 w2 -> same_inputs w2 w3 -> same_inputs w1 w3.
Proof.
  intros (A1 & A2 & A3 & A4 & A5) (B1 & B2 & B3 & B4 & B5).
  repeat split; congruence.
Qed.

Lemma same_inputs_sym (w1 w2 : world) : same_inputs w1 w2 -> same_inputs w2 w1.
Proof. intros (A1 & A2 & A3 & A4 & A5). repeat split; congruence. Qed.

(** What every handler of a list does to the world, one after the other. *)
Lemma fold_write_untouched (r : LogRecord) (hs : list Handler) (w : world) :
  let w' := fold_left (fun w' h => write (h_stream h) (LogLine h r) w') hs w in
  same_inputs w w' /\ logged w' = logged w /\ root_logger w' = root_logger w.
Proof.
  revert w. induction hs as [|h rest IH]; intros w; simpl.
  - repeat split.
  - destruct (IH (write (h_stream h) (LogLine h r) w)) as (S & L & R).
    split; [| split].
    + eapply same_inputs_trans; [apply write_same_inputs | exact S].
    + rewrite L. apply write_logged.
    + rewrite R. apply write_root_logger.
Qed.

Lemma callHandlers_untouched (r : LogRecord) (w : world) :
  same_inputs w (callHandlers r w)
  /\ logged (callHandlers r w) = logged w
  /\ root_logger (callHandlers r w) = root_logger w.
Proof.
  unfold callHandlers. destruct (handlers (root_logger w)) as [|h hs].
  - destruct (WARNING <=? levelno r).
    + split; [apply write_same_inputs | split; [apply write_logged | apply write_root_logger]].
    + repeat split.
  - apply fold_write_untouched.
Qed.

(** A logger call records the call, whatever the level and the handlers. *)
Lemma log_logged (lvl : Z) (name msg : string) (extra : dict) (exc : bool) (w : world) :
  logged (snd (log lvl name msg extra exc w))
  = (logged w ++ [mkRecord lvl name msg extra exc])%list.
Proof.
  unfold log. simpl. destruct (level (root_logger w) <=? lvl); [| reflexivity].
  destruct (callHandlers_untouched (mkRecord lvl name msg extra exc)
              (set_logged (logged w ++ [mkRecord lvl name msg extra exc]) w))
    as (_ & L & _).
  rewrite L. reflexivity.
Qed.

Lemma log_returns (lvl : Z) (name msg : string) (extra : dict) (exc : bool) (w : world) :
  fst (log lvl name msg extra exc w) = Ok tt.
Proof. reflexivity. Qed.

Lemma log_same_inputs (lvl : Z) (name msg : string) (extra : dict) (exc : bool)
      (w : world) :
  same_inputs w (snd (log lvl name msg extra exc w)).
Proof.
  unfold log. simpl.
  destruct (level (root_logger w) <=? lvl); [| repeat split].
  eapply same_inputs_trans; [| apply callHandlers_untouched]. repeat split.
Qed.

Lemma determined_log (lvl : Z) (name msg : string) (extra : dict) (exc : bool) :
  input_determined (log lvl name msg extra exc).
Proof.
  intros w1 w2 H. split; [reflexivity |].
  eapply same_inputs_trans; [apply same_inputs_sym, log_same_inputs |].
  eapply same_inputs_trans; [exact H | apply log_same_inputs].
Qed.

(** ** A configured logger writes on stderr *)

Lemma callHandlers_configured (r : LogRecord) (w : world) :
  configured w ->
  callHandlers r w = write Stderr (LogLine stderr_json_handler r) w.
Proof. unfold configured, callHandlers. intros ->. reflexivity. Qed.

(** Whether [setLevel] accepts the level or raises, the one JSON handler
    is installed by then. *)
Lemma configure_logging_configured (unicode_upper : string -> string)
      (env_LOG_LEVEL : option string) (w : world) :
  configured (snd (configure_logging unicode_upper env_LOG_LEVEL w)).
Proof. unfold configure_logging. destruct (checkLevel _); reflexivity. Qed.

(** Configuring touches the root logger only. *)
Lemma configure_logging_quiet (unicode_upper : string -> string)
      (env_LOG_LEVEL : option string) (w : world) :
  let w' := snd (configure_logging unicode_upper env_LOG_LEVEL w) in
  stdout w' = stdout w /\ stderr w' = stderr w /\ logged w' = logged w.
Proof. unfold configure_logging. destruct (checkLevel _); repeat split. Qed.

Lemma logs_to_stderr_refl (w : world) : logs_to_stderr w w.
Proof.
  split; [reflexivity |]. exists [], []. simpl. rewrite !app_nil_r. repeat split.
Qed.

Lemma logs_to_stderr_trans (w1 w2 w3 : world) :
  logs_to_stderr w1 w2 -> logs_to_stderr w2 w3 -> logs_to_stderr w1 w3.
Proof.
  intros (R1 & f1 & r1 & O1 & L1 & E1) (R2 & f2 & r2 & O2 & L2 & E2).
  split; [congruence |].
  exists (f1 ++ f2)%list, (r1 ++ r2)%list.
  rewrite O2, O1, L2, L1, E2, E1, R1.
  rewrite filter_app, !map_app, <- !app_assoc. repeat split.
Qed.

Lemma logs_to_stderr_configured (w w' : world) :
  configured w -> logs_to_stderr w w' -> configured w'.
Proof. unfold configured. intros C [R _]. rewrite R. exact C. Qed.

(** A step that leaves the logger, the records and both streams alone. *)
Lemma logs_to_stderr_quiet (w w' : world) :
  root_logger w' = root_logger w -> stdout w' = stdout w ->
  logged w' = logged w -> stderr w' = stderr w -> logs_to_stderr w w'.
Proof.
  intros R O L E. split; [exact R |]. exists [], []. simpl.
  rewrite !app_nil_r. repeat split; assumption.
Qed.

Lemma stderr_only_ret {A} (a : A) : stderr_only (ret a).
Proof. intros w _. apply logs_to_stderr_refl. Qed.

Lemma stderr_only_raise {A} (e : exn) : stderr_only (@raise A e).
Proof. intros w _. apply logs_to_stderr_refl. Qed.

Lemma stderr_only_lift {A} (r : res A) : stderr_only (lift r).
Proof. intros w _. apply logs_to_stderr_refl. Qed.

Lemma stderr_only_bind {A B} (c : M A) (k : A -> M B) :
  stderr_only c -> (forall a, stderr_only (k a)) -> stderr_only (bind c k).
Proof.
  intros Hc Hk w C. unfold bind. specialize (Hc w C).
  destruct (c w) as [[a|e] w1]; simpl in Hc; [| exact Hc].
  eapply logs_to_stderr_trans; [exact Hc |].
  apply Hk. eapply logs_to_stderr_configured; eassumption.
Qed.

Lemma stderr_only_try_except {A} (body : M A) (handler : exn -> M A) :
  stderr_only body -> (forall e, stderr_only (handler e)) ->
  stderr_only (try_except body handler).
Proof.
  intros Hb Hh w C. unfold try_except. specialize (Hb w C).
  destruct (body w) as [[a|e] w1]; simpl in Hb; [exact Hb |].
  eapply logs_to_stderr_trans; [exact Hb |].
  apply Hh. eapply logs_to_stderr_configured; eassumption.
Qed.

Lemma stderr_only_try_finally {A} (body : M A) (cleanup : M unit) :
  stderr_only body -> stderr_only cleanup -> stderr_only (try_finally body cleanup).
Proof.
  intros Hb Hc w C. unfold try_finally. specialize (Hb w C).
  destruct (body w) as [r w1]; simpl in Hb.
  assert (C1 : configured w1) by (eapply logs_to_stderr_configured; eassumption).
  specialize (Hc w1 C1).
  destruct (cleanup w1) as [[u|e] w2]; simpl in Hc |- *;
    eapply logs_to_stderr_trans; eassumption.
Qed.

Lemma stderr_only_mapM {A B} (f : A -> M B) (xs : list A) :
  (forall x, stderr_only (f x)) -> stderr_only (mapM f xs).
Proof.
  intros Hf. induction xs as [|x rest IH]; simpl.
  - apply stderr_only_ret.
  - apply stderr_only_bind; [apply Hf | intros y].
    apply stderr_only_bind; [apply IH | intros ys]. apply stderr_only_ret.
Qed.

Lemma stderr_only_draw : stderr_only draw.
Proof. intros w _. apply logs_to_stderr_quiet; reflexivity. Qed.

Lemma stderr_only_time_time : stderr_only time_time.
Proof. intros w _. apply logs_to_stderr_quiet; reflexivity. Qed.

Lemma stderr_only_datetime_now : stderr_only datetime_now.
Proof. intros w _. apply logs_to_stderr_quiet; reflexivity. Qed.

Lemma stderr_only_uuid4 : stderr_only uuid4.
Proof. intros w _. apply logs_to_stderr_quiet; reflexivity. Qed.

Lemma stderr_only_sleep (d : Q) : stderr_only (sleep d).
Proof. intros w _. apply logs_to_stderr_quiet; reflexivity. Qed.

(** The transport adds a frame to the protocol output stream. *)
Lemma stderr_only_write_frame (f : frame) : stderr_only (write_frame f).
Proof.
  intros w _. split; [reflexivity |]. exists [f], []. simpl.
  rewrite !app_nil_r. repeat split.
Qed.

(** A logger call adds its record to stderr when the level is enabled,
    and nothing anywhere otherwise. *)
Lemma stderr_only_log (lvl : Z) (name msg : string) (extra : dict) (exc : bool) :
  stderr_only (log lvl name msg extra exc).
Proof.
  intros w C. unfold log. simpl.
  split.
  - destruct (level (root_logger w) <=? lvl); [| reflexivity].
    rewrite callHandlers_configured by exact C. reflexivity.
  - exists [], [mkRecord lvl name msg extra exc]. simpl.
    unfold enabled at 1. simpl levelno.
    destruct (level (root_logger w) <=? lvl).
    + rewrite callHandlers_configured by exact C. simpl.
      rewrite app_nil_r. repeat split.
    + simpl. rewrite !app_nil_r. repeat split.
Qed.

(** ** Records of the libraries *)

Lemma library_log_untouched (r : LibraryRecord) (w : world) :
  same_inputs w (snd (library_log r w))
  /\ logged (snd (library_log r w)) = logged w
  /\ root_logger (snd (library_log r w)) = root_logger w.
Proof.
  unfold library_log. simpl.
  destruct (level (root_logger w) <=? levelno_of (lib_level r));
    [apply callHandlers_untouched | repeat split].
Qed.

Lemma merged_nil_r {A} (xs : list A) : merged xs [] xs.
Proof. induction xs; constructor; assumption. Qed.

Lemma merged_nil_l {A} (ys : list A) : merged [] ys ys.
Proof. induction ys; constructor; assumption. Qed.

Lemma merged_app {A} (a b c a' b' c' : list A) :
  merged a b c -> merged a' b' c' -> merged (a ++ a') (b ++ b') (c ++ c').
Proof.
  intros H H'. induction H; simpl; [exact H' | |]; constructor; assumption.
Qed.

(** Nothing but the empty list interleaves two empty lists. *)
Lemma merged_nil_inv {A} (zs : list A) : merged [] [] zs -> zs = [].
Proof. intros H. inversion H. reflexivity. Qed.

Lemma logs_to_stderr_with_strict (w w' : world) :
  logs_to_stderr w w' -> logs_to_stderr_with [] w w'.
Proof.
  intros (R & frames & records & O & L & E). split; [exact R |].
  exists frames, records,
    (map (LogLine stderr_json_handler)
         (filter (enabled (level (root_logger w))) records)).
  repeat split; try assumption. apply merged_nil_r.
Qed.

Lemma logs_to_stderr_with_trans (n1 n2 : list LogRecord) (w1 w2 w3 : world) :
  logs_to_stderr_with n1 w1 w2 -> logs_to_stderr_with n2 w2 w3 ->
  logs_to_stderr_with (n1 ++ n2) w1 w3.
Proof.
  intros (R1 & f1 & r1 & l1 & O1 & L1 & E1 & M1)
         (R2 & f2 & r2 & l2 & O2 & L2 & E2 & M2).
  split; [congruence |].
  exists (f1 ++ f2)%list, (r1 ++ r2)%list, (l1 ++ l2)%list.
  rewrite R1 in M2. rewrite O2, O1, L2, L1, E2, E1.
  rewrite !filter_app, !map_app, <- !app_assoc.
  repeat split. apply merged_app; assumption.
Qed.

Lemma logs_to_stderr_with_configured (noise : list LogRecord) (w w' : world) :
  configured w -> logs_to_stderr_with noise w w' -> configured w'.
Proof. unfold configured. intros C [R _]. rewrite R. exact C. Qed.

Lemma stderr_only_with_strict {A} (c : M A) :
  stderr_only c -> stderr_only_with [] c.
Proof. intros H w C. apply logs_to_stderr_with_strict, H, C. Qed.

(** A sequence whose head returns: what the libraries log during the head
    comes before what they log during the rest. *)
Lemma stderr_only_with_bind {A B} (n1 n2 : list LogRecord) (c : M A) (k : A -> M B) :
  stderr_only_with n1 c -> returns c (fun _ => True) ->
  (forall a, stderr_only_with n2 (k a)) ->
  stderr_only_with (n1 ++ n2) (bind c k).
Proof.
  intros Hc Hr Hk w C. unfold bind. specialize (Hc w C).
  destruct (Hr w) as (a & w1 & E & _). rewrite E in *. simpl in Hc.
  eapply logs_to_stderr_with_trans; [exact Hc |].
  apply Hk. eapply logs_to_stderr_with_configured; eassumption.
Qed.

Lemma stderr_only_with_bind_after {A B} (noise : list LogRecord) (c : M A)
      (k : A -> M B) :
  stderr_only c -> returns c (fun _ => True) ->
  (forall a, stderr_only_with noise (k a)) ->
  stderr_only_with noise (bind c k).
Proof.
  intros Hc Hr Hk.
  apply (stderr_only_with_bind [] noise); [apply stderr_only_with_strict |..];
    assumption.
Qed.

(** A sequence whose rest is the program's own code. *)
Lemma stderr_only_with_bind_before {A B} (noise : list LogRecord) (c : M A)
      (k : A -> M B) :
  stderr_only_with noise c -> (forall a, stderr_only (k a)) ->
  stderr_only_with noise (bind c k).
Proof.
  intros Hc Hk w C. unfold bind. specialize (Hc w C).
  destruct (c w) as [[a|e] w1]; simpl in Hc; [| exact Hc].
  rewrite <- (app_nil_r noise).
  eapply logs_to_stderr_with_trans; [exact Hc |].
  apply logs_to_stderr_with_strict, Hk.
  eapply logs_to_stderr_with_configured; eassumption.
Qed.

Lemma stderr_only_with_try_except {A} (noise : list LogRecord) (body : M A)
      (handler : exn -> M A) :
  stderr_only_with noise body -> (forall e, stderr_only (handler e)) ->
  stderr_only_with noise (try_except body handler).
Proof.
  intros Hb Hh w C. unfold try_except. specialize (Hb w C).
  destruct (body w) as [[a|e] w1]; simpl in Hb; [exact Hb |].
  rewrite <- (app_nil_r noise).
  eapply logs_to_stderr_with_trans; [exact Hb |].
  apply logs_to_stderr_with_strict, Hh.
  eapply logs_to_stderr_with_configured; eassumption.
Qed.

Lemma stderr_only_with_try_finally {A} (noise : list LogRecord) (body : M A)
      (cleanup : M unit) :
  stderr_only_with noise body -> stderr_only cleanup ->
  stderr_only_with noise (try_finally body cleanup).
Proof.
  intros Hb Hc w C. unfold try_finally. specialize (Hb w C).
  destruct (body w) as [r w1]; simpl in Hb.
  assert (C1 : configured w1)
    by (eapply logs_to_stderr_with_configured; eassumption).
  specialize (Hc w1 C1). apply logs_to_stderr_with_strict in Hc.
  rewrite <- (app_nil_r noise).
  destruct (cleanup w1) as [[u|e] w2]; simpl in Hc |- *;
    eapply logs_to_stderr_with_trans; eassumption.
Qed.

(** A record of a library goes where the program's records go. *)
Lemma stderr_only_with_library_log (r : LibraryRecord) :
  stderr_only_with [record_of r] (library_log r).
Proof.
  intros w C. unfold library_log. simpl. split.
  - destruct (level (root_logger w) <=? levelno_of (lib_level r)); [| reflexivity].
    rewrite callHandlers_configured by exact C. reflexivity.
  - exists [], [],
      (if level (root_logger w) <=? levelno_of (lib_level r)
       then [LogLine stderr_json_handler (record_of r)] else []).
    unfold enabled. cbn [filter map levelno record_of].
    destruct (level (root_logger w) <=? levelno_of (lib_level r)).
    + rewrite callHandlers_configured by exact C. simpl.
      rewrite !app_nil_r. repeat split. apply merged_right, merged_nil.
    + simpl. rewrite !app_nil_r. repeat split. constructor.
Qed.

Lemma returns_log (lvl : Z) (name msg : string) (extra : dict) (exc : bool) :
  returns (log lvl name msg extra exc) (fun _ => True).
Proof. intros w. eexists _, _. split; [reflexivity | exact I]. Qed.

Lemma returns_library_log (r : LibraryRecord) :
  returns (library_log r) (fun _ => True).
Proof. intros w. eexists _, _. split; [reflexivity | exact I]. Qed.

Lemma returns_write_frame (f : frame) : returns (write_frame f) (fun _ => True).
Proof. intros w. eexists _, _. split; [reflexivity | exact I]. Qed.

Create HintDb stderr_only.
#[export] Hint Resolve stderr_only_ret stderr_only_raise stderr_only_lift
  stderr_only_draw stderr_only_time_time stderr_only_datetime_now
  stderr_only_uuid4 stderr_only_sleep stderr_only_write_frame
  stderr_only_log : stderr_only.

(** Takes a sequence apart, down to the calls the hints know. *)
Ltac stderr_only :=
  repeat first
    [ apply stderr_only_bind; [| intros ?]
    | apply stderr_only_mapM; intros ?
    | apply stderr_only_try_except; [| intros ?]
    | apply stderr_only_try_finally
    | solve [auto with stderr_only]
    | match goal with
      | |- stderr_only (if ?b then _ else _) => destruct b
      end ].

End LoggingFacts.

(* ================================================================== *)
(** * Properties of the server *)
(* ================================================================== *)

Module ServerFacts.
Import Py Mcp Eff EffFacts Logging Server.
Local Open Scope eff_scope.

(** ** The generators *)

Lemma returns_generate_random_string (n : nat) :
  returns (generate_random_string n) (fun _ => True).
Proof.
  unfold generate_random_string.
  eapply returns_bind; [apply returns_choices | intros cs _].
  apply returns_ret. exact I.
Qed.

Lemma returns_generate_random_ip : returns generate_random_ip (fun _ => True).
Proof.
  unfold generate_random_ip.
  do 4 (eapply returns_bind; [apply returns_randint; lia | intros ? _]).
  apply returns_ret. exact I.
Qed.

Lemma returns_generate_random_mac : returns generate_random_mac (fun _ => True).
Proof.
  unfold generate_random_mac.
  eapply returns_bind.
  - apply returns_mapM with (P := fun _ => True). intros _.
    eapply returns_bind; [apply returns_randint; lia | intros ? _].
    apply returns_ret. exact I.
  - intros parts _. apply returns_ret. exact I.
Qed.

#[local] Hint Resolve returns_generate_random_string returns_generate_random_ip
  returns_generate_random_mac : returns.

(** One generic step of a [returns] proof: the head of the sequence
    returns, whatever it returns. *)
Ltac returns_step :=
  eapply returns_bind;
  [ first [ solve [auto with returns] | apply returns_randint; lia ]
  | intros ? _ ].

(** Every record has a [status] among the four, a [memory_used_mb] drawn
    from [[512, 16384]] and the constant [memory_total_mb]. *)
Lemma returns_generate_technical_data :
  returns generate_technical_data
    (fun record =>
       (exists s, field "status" record = Some (PStr s) /\ In s statuses) /\
       (exists used, metric "memory_used_mb" record = Some (PInt used)
                     /\ 512 <= used <= 16384) /\
       metric "memory_total_mb" record = Some (PInt memory_total_mb)).
Proof.
  unfold generate_technical_data.
  do 7 returns_step.
  eapply returns_bind; [apply returns_randint; lia | intros used Hused].
  do 8 returns_step.
  eapply returns_bind; [apply returns_choice; discriminate | intros s Hs].
  returns_step.
  eapply returns_bind;
    [ apply returns_mapM with (P := fun _ => True); intros _;
      apply returns_generate_random_string
    | intros tags _ ].
  do 3 returns_step.
  apply returns_ret. repeat split.
  - exists s. split; [reflexivity | exact Hs].
  - exists used. split; [reflexivity | exact Hused].
Qed.

Lemma returns_record : returns generate_technical_data is_record.
Proof.
  intros w. destruct (returns_generate_technical_data w) as (r & w' & E & Hs & _).
  exists r, w'. split; [exact E | split; [| exact Hs]].
  exists w. rewrite E. reflexivity.
Qed.

Lemma returns_records (idx : list Z) :
  returns (mapM (fun _ => generate_technical_data) idx)
          (fun records => List.length records = List.length idx
                          /\ Forall is_record records).
Proof. apply returns_mapM. intros _. apply returns_record. Qed.

(** ** The effective count *)

Lemma Qlt_bool_inject (a b : Z) : Qlt_bool (inject_Z a) (inject_Z b) = (a <? b).
Proof.
  unfold Qlt_bool, Qle_bool. simpl. rewrite !Z.mul_1_r. symmetry. apply Z.ltb_antisym.
Qed.

Lemma effective_count_default (arguments : dict) :
  lookup "count" arguments = None -> effective_count arguments = Ok (PInt 1).
Proof. intros H. unfold effective_count, get. rewrite H. reflexivity. Qed.

Lemma effective_count_int (arguments : dict) (c : Z) :
  lookup "count" arguments = Some (PInt c) ->
  effective_count arguments = Ok (PInt (Z.min (Z.max c 1) 10)).
Proof.
  intros H. unfold effective_count, get. rewrite H.
  unfold max2, min2, int_gt, int_lt, res_bind, as_number.
  rewrite Qlt_bool_inject.
  destruct (c <? 1) eqn:E1.
  - apply Z.ltb_lt in E1. rewrite Qlt_bool_inject.
    replace (Z.max c 1) with 1 by lia. reflexivity.
  - apply Z.ltb_ge in E1. rewrite Qlt_bool_inject.
    replace (Z.max c 1) with c by lia.
    destruct (10 <? c) eqn:E2.
    + apply Z.ltb_lt in E2. replace (Z.min c 10) with 10 by lia. reflexivity.
    + apply Z.ltb_ge in E2. replace (Z.min c 10) with c by lia. reflexivity.
Qed.

(** Whatever the argument, an effective count that is an [int] lies in
    [[1, 10]]. *)
Lemma effective_count_range (arguments : dict) (n : Z) :
  effective_count arguments = Ok (PInt n) -> 1 <= n <= 10.
Proof.
  unfold effective_count, get.
  destruct (lookup "count" arguments) as [v|].
  2:{ cbn. intros H. injection H as <-. lia. }
  destruct v as [ | b | z | q | s | l | d ]; try discriminate.
  - destruct b; cbn; intros H; [discriminate | injection H as <-; lia].
  - change (effective_count [("count", PInt z)] = Ok (PInt n) -> 1 <= n <= 10).
    rewrite (effective_count_int [("count", PInt z)] z eq_refl).
    intros H. injection H as <-. lia.
  - unfold max2, min2, int_gt, int_lt, res_bind, as_number.
    destruct (Qlt_bool q (inject_Z 1)).
    + cbn. intros H. injection H as <-. lia.
    + destruct (Qlt_bool (inject_Z 10) q); intros H;
        [injection H as <-; lia | discriminate].
Qed.

(** ** Memory figures of a record *)

(** C3, as the code has it: whatever the random generator yields, the
    record is produced, its [memory_used_mb] lies in [[512, 16384]], its
    [memory_total_mb] is the constant 32768, and so the former stays
    strictly below the latter. *)
Theorem C3_memory_used_below_total :
  forall w, exists record w' used,
    generate_technical_data w = (Ok record, w') /\
    metric "memory_used_mb" record = Some (PInt used) /\
    metric "memory_total_mb" record = Some (PInt 32768) /\
    512 <= used <= 16384 /\ used < 32768.
Proof.
  intros w.
  destruct (returns_generate_technical_data w)
    as (record & w' & E & _ & (used & Hused & Hrange) & Htotal).
  exists record, w', used. repeat split; try assumption; lia.
Qed.

(** C3, as stated, fails: no outcome of the random generator produces a
    record whose [memory_used_mb] is strictly greater than its
    [memory_total_mb]. *)
Lemma C3_used_never_exceeds_total :
  ~ exists w record used total,
      fst (generate_technical_data w) = Ok record /\
      metric "memory_used_mb" record = Some (PInt used) /\
      metric "memory_total_mb" record = Some (PInt total) /\
      used > total.
Proof.
  intros (w & record & used & total & E & Hu & Ht & Hgt).
  destruct (returns_generate_technical_data w)
    as (record' & w' & E' & _ & (used' & Hu' & Hrange) & Ht').
  rewrite E' in E. simpl in E. injection E as <-.
  rewrite Hu' in Hu. rewrite Ht' in Ht.
  injection Hu as <-. injection Ht as <-. unfold memory_total_mb in Hgt. lia.
Qed.

Section WithEnvironment.

Variable json_dumps : value -> string.
Variable version : string.
Variable unicode_upper : string -> string.

(** ** The shape of [handle_call_tool] *)

(** [arguments], or the empty dictionary for [None]. *)
Lemma handle_call_tool_unfold (name : string) (arguments : option dict) (w : world) :
  handle_call_tool json_dumps version name arguments w =
  let args := match arguments with None => [] | Some d => d end in
  let sw := enter_call name args w in
  try_except (call_tool_try json_dumps version name args (fst sw))
             (call_tool_except name (fst sw)) (snd sw).
Proof. reflexivity. Qed.

(** The [try] block after a result: the two log records, one text block. *)
Lemma call_tool_try_ok (name : string) (args : dict) (start : Q)
      (w1 w2 : world) (result : value) :
  tool_result version name args w1 = (Ok result, w2) ->
  exists w3,
    call_tool_try json_dumps version name args start w1
    = (Ok [mkTextContent "text" (json_dumps result)], w3).
Proof.
  intros E. unfold call_tool_try, bind at 1. rewrite E.
  eexists. reflexivity.
Qed.

(** The [try] block after an exception: it leaves the block at once. *)
Lemma call_tool_try_raise (name : string) (args : dict) (start : Q)
      (w1 w2 : world) (e : exn) :
  tool_result version name args w1 = (Raise e, w2) ->
  call_tool_try json_dumps version name args start w1 = (Raise e, w2).
Proof. intros E. unfold call_tool_try, bind at 1. rewrite E. reflexivity. Qed.

(** The [except] block: one ["MCP tool failed"] record, one text block. *)
Lemma call_tool_except_ok (name : string) (start : Q) (e : exn) (w : world) :
  exists w' d,
    call_tool_except name start e w
    = (Ok [mkTextContent "text" ("Error: " ++ str_of_exn e)], w') /\
    logged w' = (logged w
                 ++ [mkRecord ERROR logger "MCP tool failed"
                       [ ("tool_name", PStr name);
                         ("error", PStr (str_of_exn e));
                         ("duration_ms", PFloat d) ] true])%list.
Proof.
  set (d := round2 (Qmult (Qminus (hd 0%Q (clock w)) start) 1000)).
  set (failed := [ ("tool_name", PStr name);
                   ("error", PStr (str_of_exn e));
                   ("duration_ms", PFloat d) ]).
  exists (snd (Logging.exception logger "MCP tool failed" failed
                 (set_clock (tl (clock w)) w))), d.
  split; [reflexivity |].
  unfold Logging.exception. rewrite LoggingFacts.log_logged. reflexivity.
Qed.

(** ** Exactly one response *)

(** C1. For every tool name and every argument mapping (or none),
    [handle_call_tool] returns normally, with a list of exactly one
    content block, of type text: the serialised result when the handler
    of the tool returns one, and ["Error: "] followed by the message of
    the exception when it raises (an unknown tool included). *)
Theorem C1_exactly_one_text_block (name : string) (arguments : option dict) (w : world) :
  let args := match arguments with None => [] | Some d => d end in
  exists text w',
    handle_call_tool json_dumps version name arguments w
    = (Ok [mkTextContent "text" text], w') /\
    match fst (tool_result version name args (snd (enter_call name args w))) with
    | Ok result => text = json_dumps result
    | Raise e => text = "Error: " ++ str_of_exn e
    end.
Proof.
  intros args. rewrite handle_call_tool_unfold. fold args. cbv zeta.
  destruct (enter_call name args w) as [start w1]. simpl fst. simpl snd.
  unfold try_except.
  destruct (tool_result version name args w1) as [[result|e] w2] eqn:E.
  - destruct (call_tool_try_ok name args start w1 w2 result E) as (w3 & E3).
    rewrite E3. exists (json_dumps result), w3. split; reflexivity.
  - rewrite (call_tool_try_raise name args start w1 w2 e E).
    destruct (call_tool_except_ok name start e w2) as (w3 & d & E3 & _).
    rewrite E3. eexists _, _. split; reflexivity.
Qed.

(** ** The session goes on after a tool call *)

(** The ["MCP tool called"] record is submitted before the [try] block. *)
Lemma enter_call_logged (name : string) (args : dict) (w : world) :
  logged (snd (enter_call name args w))
  = (logged w
     ++ [mkRecord INFO logger "MCP tool called"
           [ ("tool_name", PStr name);
             ("arguments", PDict args);
             ("timestamp", PStr (hd "" (nows w))) ] false])%list.
Proof.
  unfold enter_call, bind, time_time, datetime_now, Logging.info, ret.
  match goal with
  | |- context [Logging.log ?l ?n ?m ?x ?b ?w0] =>
      pose proof (LoggingFacts.log_logged l n m x b w0) as L;
      destruct (Logging.log l n m x b w0) as [[[]|e] w1] eqn:E
  end; simpl in *; exact L.
Qed.

(** Once the handler has returned its blocks, the session writes them as
    one frame and turns to the next message. *)
Lemma server_run_call_tool (id : Z) (name : string) (arguments : option dict)
      (rest : list inbound) (w w' : world) (blocks : list TextContent) :
  handle_call_tool json_dumps version name arguments w = (Ok blocks, w') ->
  server_run json_dumps version (Message id (CallTool name arguments) :: rest) w
  = server_run json_dumps version rest
      (write Stdout (ProtocolFrame (ResultFrame id (Content blocks))) w').
Proof.
  intros E. simpl. unfold bind, try_except, dispatch, bind. rewrite E. reflexivity.
Qed.

(** ** Unknown tools *)

Lemma tool_result_unknown (name : string) (args : dict) (w : world) :
  name <> "get-random-data" -> name <> "echo" -> name <> "server-status" ->
  tool_result version name args w = (Raise (ValueError ("Unknown tool: " ++ name)), w).
Proof.
  intros H1 H2 H3. unfold tool_result.
  apply String.eqb_neq in H1, H2, H3. rewrite H1, H2, H3. reflexivity.
Qed.

(** C6. For every tool name that is none of the three registered ones,
    [handle_call_tool] returns the single text block
    ["Error: Unknown tool: <name>"] (so the text starts with
    ["Error: Unknown tool:"]), submits a ["MCP tool failed"] record after
    the ["MCP tool called"] one, and the session writes the block as a
    frame and serves the messages that follow. *)
Theorem C6_unknown_tool_is_reported (name : string) (arguments : option dict) (w : world) :
  name <> "get-random-data" -> name <> "echo" -> name <> "server-status" ->
  let args := match arguments with None => [] | Some d => d end in
  let text := "Error: Unknown tool: " ++ name in
  exists w' d,
    handle_call_tool json_dumps version name arguments w
    = (Ok [mkTextContent "text" text], w') /\
    String.prefix "Error: Unknown tool:" text = true /\
    logged w'
    = (logged w
       ++ [ mkRecord INFO logger "MCP tool called"
              [ ("tool_name", PStr name);
                ("arguments", PDict args);
                ("timestamp", PStr (hd "" (nows w))) ] false;
            mkRecord ERROR logger "MCP tool failed"
              [ ("tool_name", PStr name);
                ("error", PStr ("Unknown tool: " ++ name));
                ("duration_ms", PFloat d) ] true ])%list /\
    forall id rest,
      server_run json_dumps version (Message id (CallTool name arguments) :: rest) w
      = server_run json_dumps version rest
          (write Stdout
             (ProtocolFrame (ResultFrame id (Content [mkTextContent "text" text]))) w').
Proof.
  intros H1 H2 H3 args text.
  pose proof (enter_call_logged name args w) as Lcalled.
  assert (E : exists w' d,
             handle_call_tool json_dumps version name arguments w
             = (Ok [mkTextContent "text" text], w') /\
             logged w'
             = (logged (snd (enter_call name args w))
                ++ [ mkRecord ERROR logger "MCP tool failed"
                       [ ("tool_name", PStr name);
                         ("error", PStr ("Unknown tool: " ++ name));
                         ("duration_ms", PFloat d) ] true ])%list).
  { rewrite handle_call_tool_unfold. fold args. cbv zeta.
    destruct (enter_call name args w) as [start w1]. simpl fst. simpl snd.
    unfold try_except.
    rewrite (call_tool_try_raise name args start w1 w1 _
               (tool_result_unknown name args w1 H1 H2 H3)).
    destruct (call_tool_except_ok name start
                (ValueError ("Unknown tool: " ++ name)) w1) as (w' & d & E & L).
    exists w', d. split; assumption. }
  destruct E as (w' & d & E & L).
  exists w', d. split; [exact E | split; [reflexivity | split]].
  - rewrite L, Lcalled, <- app_assoc. reflexivity.
  - intros id rest. apply server_run_call_tool, E.
Qed.

(** ** The same inputs give the same response *)

Lemma determined_generate_random_string (n : nat) :
  input_determined (generate_random_string n).
Proof. unfold generate_random_string. determined. Qed.

Lemma determined_generate_random_ip : input_determined generate_random_ip.
Proof. unfold generate_random_ip. determined. Qed.

Lemma determined_generate_random_mac : input_determined generate_random_mac.
Proof. unfold generate_random_mac. determined. Qed.

#[local] Hint Resolve determined_generate_random_string
  determined_generate_random_ip determined_generate_random_mac : determined.

Lemma determined_generate_technical_data : input_determined generate_technical_data.
Proof. unfold generate_technical_data. determined. Qed.

#[local] Hint Resolve determined_generate_technical_data : determined.

Lemma determined_tool_result (name : string) (args : dict) :
  input_determined (tool_result version name args).
Proof. unfold tool_result. determined. Qed.

Lemma determined_call_tool (name : string) (args : dict) (start : Q) :
  input_determined
    (try_except (call_tool_try json_dumps version name args start)
                (call_tool_except name start)).
Proof.
  apply determined_try_except; [| intros e];
    unfold call_tool_try, call_tool_except, elapsed_ms, Logging.info,
      Logging.exception;
    repeat first
      [ apply determined_bind; [| intros ?]
      | apply determined_tool_result
      | apply LoggingFacts.determined_log
      | solve [auto with determined] ].
Qed.

(** The arguments reach the handler of [get-random-data] through the
    effective count and [include_delay] only. *)
Lemma tool_result_get_random_data (args1 args2 : dict) :
  effective_count args1 = effective_count args2 ->
  get args1 "include_delay" (PBool false) = get args2 "include_delay" (PBool false) ->
  tool_result version "get-random-data" args1
  = tool_result version "get-random-data" args2.
Proof. intros Hc Hd. unfold tool_result. simpl. rewrite Hc, Hd. reflexivity. Qed.

Lemma enter_call_inputs (name : string) (args : dict) (w : world) :
  fst (enter_call name args w) = hd 0%Q (clock w) /\
  same_inputs (set_nows (tl (nows w)) (set_clock (tl (clock w)) w))
              (snd (enter_call name args w)).
Proof.
  unfold enter_call, bind, time_time, datetime_now, Logging.info, ret.
  match goal with
  | |- context [Logging.log ?l ?n ?m ?x ?b ?w0] =>
      pose proof (LoggingFacts.log_same_inputs l n m x b w0) as L;
      destruct (Logging.log l n m x b w0) as [[[]|e] w1] eqn:E
  end; [| unfold Logging.log in E; discriminate].
  simpl in *. split; [reflexivity | exact L].
Qed.

Lemma enter_call_same_inputs (name : string) (args1 args2 : dict) (w : world) :
  fst (enter_call name args1 w) = fst (enter_call name args2 w) /\
  same_inputs (snd (enter_call name args1 w)) (snd (enter_call name args2 w)).
Proof.
  destruct (enter_call_inputs name args1 w) as [E1 S1].
  destruct (enter_call_inputs name args2 w) as [E2 S2].
  split; [congruence |].
  eapply LoggingFacts.same_inputs_trans;
    [apply LoggingFacts.same_inputs_sym, S1 | exact S2].
Qed.

(** Two calls of [get-random-data] with the same effective count and the
    same [include_delay] answer alike and consume the same inputs. *)
Lemma same_count_same_response (args1 args2 : dict) (w : world) :
  effective_count args1 = effective_count args2 ->
  get args1 "include_delay" (PBool false) = get args2 "include_delay" (PBool false) ->
  fst (handle_call_tool json_dumps version "get-random-data" (Some args1) w)
  = fst (handle_call_tool json_dumps version "get-random-data" (Some args2) w)
  /\ same_inputs
       (snd (handle_call_tool json_dumps version "get-random-data" (Some args1) w))
       (snd (handle_call_tool json_dumps version "get-random-data" (Some args2) w)).
Proof.
  intros Hc Hd. rewrite !handle_call_tool_unfold. cbv zeta.
  destruct (enter_call_same_inputs "get-random-data" args1 args2 w) as [Es Ss].
  rewrite <- Es.
  unfold call_tool_try. rewrite (tool_result_get_random_data args2 args1)
    by (symmetry; assumption).
  apply (determined_call_tool "get-random-data" args1), Ss.
Qed.

(** ** From the result of a tool to the response *)

Lemma handle_call_tool_ok (name : string) (arguments : option dict) (w w2 : world)
      (result : value) :
  let args := match arguments with None => [] | Some d => d end in
  tool_result version name args (snd (enter_call name args w)) = (Ok result, w2) ->
  exists w',
    handle_call_tool json_dumps version name arguments w
    = (Ok [mkTextContent "text" (json_dumps result)], w').
Proof.
  intros args E. rewrite handle_call_tool_unfold. fold args. cbv zeta.
  destruct (enter_call name args w) as [start w1]. simpl in *.
  unfold try_except.
  destruct (call_tool_try_ok name args start w1 w2 result E) as (w3 & E3).
  rewrite E3. exists w3. reflexivity.
Qed.

Lemma handle_call_tool_returns (name : string) (arguments : option dict)
      (P : value -> Prop) (w : world) :
  let args := match arguments with None => [] | Some d => d end in
  returns (tool_result version name args) P ->
  exists result w',
    handle_call_tool json_dumps version name arguments w
    = (Ok [mkTextContent "text" (json_dumps result)], w') /\ P result.
Proof.
  intros args H.
  destruct (H (snd (enter_call name args w))) as (result & w2 & E & HP).
  destruct (handle_call_tool_ok name arguments w w2 result E) as (w' & E').
  exists result, w'. split; assumption.
Qed.

(** ** [get-random-data] *)

Lemma Qeq_bool_inject (a b : Z) : Qeq_bool (inject_Z a) (inject_Z b) = (a =? b).
Proof. unfold Qeq_bool. simpl. rewrite !Z.mul_1_r. reflexivity. Qed.

Lemma returns_get_random_data (arguments : dict) (n : Z) :
  effective_count arguments = Ok (PInt n) ->
  returns (tool_result version "get-random-data" arguments) (random_data_shape n).
Proof.
  intros Hn. pose proof (effective_count_range arguments n Hn) as Hrange.
  unfold tool_result, random_data_shape. simpl String.eqb. cbv iota.
  rewrite Hn.
  eapply returns_bind with (P := fun count => count = PInt n);
    [apply returns_lift; reflexivity | intros count ->].
  eapply returns_bind with (P := fun _ => True).
  { destruct (truthy _); [| apply returns_ret; exact I].
    eapply returns_bind; [apply returns_uniform | intros delay _].
    apply returns_sleep. }
  intros _ _.
  unfold eq_int, as_number. rewrite Qeq_bool_inject.
  destruct (n =? 1) eqn:E1; [apply returns_record |].
  unfold range.
  eapply returns_bind
    with (P := fun idx => idx = map Z.of_nat (seq 0 (Z.to_nat n)));
    [apply returns_lift; reflexivity | intros idx ->].
  eapply returns_bind; [apply returns_records | intros records [Hlen Hall]].
  apply returns_ret. exists records. repeat split; [| exact Hall].
  rewrite Hlen, length_map, length_seq. lia.
Qed.

(** C7. For every call of [get-random-data] whose effective count is the
    integer [n], the handler answers with the serialisation of a result
    that is a single record when [n = 1], and otherwise the dictionary of
    [records] and [count] with [count = n] and [n] records; every record
    is one [generate_technical_data] produces and has a [status] among
    healthy, degraded, warning and critical. *)
Theorem C7_random_data_shape (arguments : dict) (n : Z) (w : world) :
  effective_count arguments = Ok (PInt n) ->
  exists result w',
    handle_call_tool json_dumps version "get-random-data" (Some arguments) w
    = (Ok [mkTextContent "text" (json_dumps result)], w') /\
    if n =? 1 then is_record result
    else exists records,
        result = PDict [ ("records", PList records); ("count", PInt n) ]
        /\ Z.of_nat (List.length records) = n
        /\ Forall is_record records.
Proof.
  intros Hn.
  apply (handle_call_tool_returns "get-random-data" (Some arguments)
           (random_data_shape n) w).
  apply returns_get_random_data, Hn.
Qed.

(** C5. For every call of [get-random-data] that requests the integer
    [c] (or no count, which stands for 1), the effective count is [c]
    clamped to [[1, 10]], and the call answers as the same call with the
    clamped count written in; in particular a call with [count = 15]
    answers exactly as the call with [count = 10] in its place, consuming
    the same inputs. *)
Theorem C5_count_is_clamped (arguments rest : dict) (c : Z) (w : world) :
  lookup "count" arguments = Some (PInt c)
  \/ (lookup "count" arguments = None /\ c = 1) ->
  let n := Z.min (Z.max c 1) 10 in
  effective_count arguments = Ok (PInt n) /\
  fst (handle_call_tool json_dumps version "get-random-data" (Some arguments) w)
  = fst (handle_call_tool json_dumps version "get-random-data"
           (Some (("count", PInt n) :: arguments)) w) /\
  fst (handle_call_tool json_dumps version "get-random-data"
         (Some (("count", PInt 15) :: rest)) w)
  = fst (handle_call_tool json_dumps version "get-random-data"
           (Some (("count", PInt 10) :: rest)) w) /\
  same_inputs
    (snd (handle_call_tool json_dumps version "get-random-data"
            (Some (("count", PInt 15) :: rest)) w))
    (snd (handle_call_tool json_dumps version "get-random-data"
            (Some (("count", PInt 10) :: rest)) w)).
Proof.
  intros H n.
  assert (E : effective_count arguments = Ok (PInt n)).
  { destruct H as [H | [H ->]].
    - apply effective_count_int, H.
    - apply effective_count_default, H. }
  split; [exact E | split].
  - apply same_count_same_response; [| reflexivity].
    rewrite E.
    rewrite (effective_count_int (("count", PInt n) :: arguments) n eq_refl).
    do 2 f_equal. unfold n. lia.
  - apply same_count_same_response; reflexivity.
Qed.

(** ** [echo] *)

Lemma returns_echo (arguments : dict) :
  returns (tool_result version "echo" arguments)
    (fun result =>
       exists timestamp n,
         len (get arguments "message" (PStr "")) = Ok n /\
         result = PDict [ ("echoed_message", get arguments "message" (PStr ""));
                          ("timestamp", PStr timestamp);
                          ("message_length", PInt n) ])
  \/ exists e, len (get arguments "message" (PStr "")) = Raise e.
Proof.
  destruct (len (get arguments "message" (PStr ""))) as [n|e] eqn:E;
    [left | right; exists e; reflexivity].
  unfold tool_result. simpl String.eqb. cbv iota. rewrite E.
  eapply returns_bind; [apply returns_datetime_now | intros timestamp _].
  eapply returns_bind with (P := fun k => k = n);
    [apply returns_lift; reflexivity | intros k ->].
  apply returns_ret. exists timestamp, n. split; reflexivity.
Qed.

(** C8. For every string [m], [echo] called with a mapping that binds
    [message] to [m] answers with the serialisation of the dictionary of
    [echoed_message], [timestamp] and [message_length], where
    [echoed_message] is [m] and [message_length] is the length of [m],
    the number of its code points. *)
Theorem C8_echo_returns_message (arguments : dict) (m : string) (w : world) :
  lookup "message" arguments = Some (PStr m) ->
  exists timestamp w',
    handle_call_tool json_dumps version "echo" (Some arguments) w
    = (Ok [mkTextContent "text"
             (json_dumps
                (PDict [ ("echoed_message", PStr m);
                         ("timestamp", PStr timestamp);
                         ("message_length", PInt (Z.of_nat (str_len m))) ]))],
       w').
Proof.
  intros H.
  destruct (returns_echo arguments) as [R | [e E]];
    unfold get in *; rewrite H in *; [| discriminate].
  destruct (handle_call_tool_returns "echo" (Some arguments) _ w R)
    as (result & w' & E & timestamp & n & Hn & ->).
  injection Hn as <-. exists timestamp, w'. exact E.
Qed.

(** C9. The catalogue advertises [message] as required for [echo], and
    yet [echo] called with a mapping that lacks [message] (or with no
    mapping) does not fail: it answers with [echoed_message] the empty
    string and [message_length] 0. *)
Theorem C9_echo_without_message (arguments : option dict) (w : world) :
  lookup "message" (match arguments with None => [] | Some d => d end) = None ->
  (exists tools w0 tool,
      handle_list_tools w = (Ok tools, w0) /\ In tool tools
      /\ tool_name tool = "echo"
      /\ field "required" (tool_inputSchema tool) = Some (PList [PStr "message"])) /\
  exists timestamp w',
    handle_call_tool json_dumps version "echo" arguments w
    = (Ok [mkTextContent "text"
             (json_dumps
                (PDict [ ("echoed_message", PStr "");
                         ("timestamp", PStr timestamp);
                         ("message_length", PInt 0) ]))],
       w').
Proof.
  intros H. split.
  - eexists _, _, _. split; [reflexivity |].
    split; [right; left; reflexivity | split; reflexivity].
  - set (args := match arguments with None => [] | Some d => d end) in *.
    destruct (returns_echo args) as [R | [e E]];
      unfold get in *; rewrite H in *; [| discriminate].
    destruct (handle_call_tool_returns "echo" arguments _ w R)
      as (result & w' & E & timestamp & n & Hn & ->).
    injection Hn as <-. exists timestamp, w'. exact E.
Qed.

(** ** Log records never reach the protocol stream *)

Import LoggingFacts.

Lemma stderr_only_randint (a b : Z) : stderr_only (randint a b).
Proof. unfold randint, randbelow. stderr_only. Qed.

Lemma stderr_only_uniform (a b : Q) : stderr_only (uniform a b).
Proof. unfold uniform, random. stderr_only. Qed.

Lemma stderr_only_choice {A} (seq : list A) (d : A) : stderr_only (choice seq d).
Proof. unfold choice, randbelow. stderr_only. Qed.

Lemma stderr_only_generate_random_string (n : nat) :
  stderr_only (generate_random_string n).
Proof. unfold generate_random_string, choices, choose_char, random. stderr_only. Qed.

#[local] Hint Resolve stderr_only_randint stderr_only_uniform stderr_only_choice
  stderr_only_generate_random_string : stderr_only.

Lemma stderr_only_generate_technical_data : stderr_only generate_technical_data.
Proof.
  unfold generate_technical_data, generate_random_ip, generate_random_mac.
  stderr_only.
Qed.

#[local] Hint Resolve stderr_only_generate_technical_data : stderr_only.

Lemma stderr_only_handle_call_tool (name : string) (arguments : option dict) :
  stderr_only (handle_call_tool json_dumps version name arguments).
Proof.
  unfold handle_call_tool, call_tool_try, call_tool_except, tool_result,
    elapsed_ms, Logging.info, Logging.exception.
  stderr_only.
Qed.

Lemma stderr_only_dispatch (r : request) : stderr_only (dispatch json_dumps version r).
Proof.
  destruct r; unfold dispatch, handle_list_resources, handle_read_resource,
    handle_list_prompts, handle_get_prompt, handle_list_tools;
    repeat first
      [ apply stderr_only_handle_call_tool
      | apply stderr_only_bind; [| intros ?]
      | solve [auto with stderr_only] ].
Qed.

(** A message is answered whatever its handler does. *)
Lemma returns_answer (id : Z) (r : request) :
  returns (try_except (x <- dispatch json_dumps version r ;; ret (ResultFrame id x))
                      (fun e => ret (ErrorFrame id (str_of_exn e))))
          (fun _ => True).
Proof.
  intros w. unfold try_except, bind.
  destruct (dispatch json_dumps version r w) as [[x|e] w1];
    eexists _, _; (split; [reflexivity | exact I]).
Qed.

(** In a session the protocol output stream gains frames only; the
    records of the handlers and those of the library go to stderr. *)
Lemma stderr_only_server_run (inbox : list inbound) :
  stderr_only_with (heard inbox) (server_run json_dumps version inbox).
Proof.
  induction inbox as [|[id r|f|r|e] rest IH]; simpl.
  - apply stderr_only_with_strict, stderr_only_ret.
  - apply stderr_only_with_bind_after; [| apply returns_answer | intros f].
    + apply stderr_only_try_except; [| intros e; apply stderr_only_ret].
      apply stderr_only_bind; [apply stderr_only_dispatch | intros x].
      apply stderr_only_ret.
    + apply stderr_only_with_bind_after;
        [apply stderr_only_write_frame | apply returns_write_frame | intros _; exact IH].
  - apply stderr_only_with_bind_after;
      [apply stderr_only_write_frame | apply returns_write_frame | intros _; exact IH].
  - apply (stderr_only_with_bind [record_of r] (heard rest));
      [apply stderr_only_with_library_log | apply returns_library_log
      | intros _; exact IH].
  - apply stderr_only_with_strict, stderr_only_raise.
Qed.

Lemma stderr_only_run_mcp_server (inbox : list inbound) :
  stderr_only_with (heard inbox) (run_mcp_server json_dumps version inbox).
Proof.
  unfold run_mcp_server, Logging.info, Logging.exception.
  apply stderr_only_with_bind_after;
    [apply stderr_only_log | apply returns_log | intros _].
  apply stderr_only_with_try_finally; [| apply stderr_only_log].
  apply stderr_only_with_try_except; [apply stderr_only_server_run | intros e].
  apply stderr_only_bind; [apply stderr_only_log | intros _; apply stderr_only_raise].
Qed.

(** What [main] does once the logger is configured. *)
Lemma stderr_only_main_body (inbox : list inbound) :
  stderr_only_with (heard inbox)
    (Logging.info cli_logger "Starting MCP STDIO Test Server"
       [ ("version", PStr version) ] ;;;
     try_except (run_mcp_server json_dumps version inbox ;;; ret 0)
       (fun e =>
          Logging.exception cli_logger "Fatal error in MCP server"
            [ ("error", PStr (str_of_exn e)) ] ;;;
          ret 1)).
Proof.
  unfold Logging.info, Logging.exception.
  apply stderr_only_with_bind_after;
    [apply stderr_only_log | apply returns_log | intros _].
  apply stderr_only_with_try_except.
  - apply stderr_only_with_bind_before;
      [apply stderr_only_run_mcp_server | intros _; apply stderr_only_ret].
  - intros e.
    apply stderr_only_bind; [apply stderr_only_log | intros _; apply stderr_only_ret].
Qed.

(** [main] runs its body unless [configure_logging] raises. *)
Lemma main_unfold (env_LOG_LEVEL : option string) (inbox : list inbound) (w : world) :
  main json_dumps version unicode_upper env_LOG_LEVEL inbox w
  = match configure_logging unicode_upper env_LOG_LEVEL w with
    | (Ok _, w0) =>
        (Logging.info cli_logger "Starting MCP STDIO Test Server"
           [ ("version", PStr version) ] ;;;
         try_except (run_mcp_server json_dumps version inbox ;;; ret 0)
           (fun e =>
              Logging.exception cli_logger "Fatal error in MCP server"
                [ ("error", PStr (str_of_exn e)) ] ;;;
              ret 1)) w0
    | (Raise e, w0) => (Raise e, w0)
    end.
Proof. reflexivity. Qed.

(** C2. In every run of the server, whatever the environment's
    [LOG_LEVEL], the events of the session and the handlers the root
    logger had before: the protocol output stream gains protocol frames
    and nothing else; every line the error stream gains is a log record
    written by the one JSON handler; the records the program logs that
    the level lets through are all among them, in order, and the others
    are the records the libraries have logged, in order.  When [setLevel]
    refuses what [LOG_LEVEL] names, the run ends before anything is logged
    or written. *)
Theorem C2_logs_go_to_stderr (env_LOG_LEVEL : option string)
        (inbox : list inbound) (w : world) :
  let w' := snd (main json_dumps version unicode_upper env_LOG_LEVEL inbox w) in
  let lvl := level (root_logger w') in
  let noise := match fst (configure_logging unicode_upper env_LOG_LEVEL w) with
               | Ok _ => heard inbox
               | Raise _ => []
               end in
  handlers (root_logger w') = [stderr_json_handler] /\
  exists (frames : list frame) (records : list LogRecord) (lines : list line),
    stdout w' = (stdout w ++ map ProtocolFrame frames)%list /\
    logged w' = (logged w ++ records)%list /\
    stderr w' = (stderr w ++ lines)%list /\
    merged (map (LogLine stderr_json_handler) (filter (enabled lvl) records))
           (map (LogLine stderr_json_handler) (filter (enabled lvl) noise))
           lines.
Proof.
  intros w' lvl noise. subst w' lvl noise.
  pose proof (configure_logging_configured unicode_upper env_LOG_LEVEL w) as C.
  destruct (configure_logging_quiet unicode_upper env_LOG_LEVEL w) as (O0 & E0 & L0).
  rewrite main_unfold.
  destruct (configure_logging unicode_upper env_LOG_LEVEL w) as [[[]|e] w0];
    simpl fst; simpl snd in *.
  - destruct (stderr_only_main_body inbox w0 C)
      as (R & frames & records & lines & O & L & E & M).
    split; [rewrite R; exact C |].
    exists frames, records, lines.
    rewrite R, O, L, E, O0, L0, E0. repeat split. exact M.
  - split; [exact C |].
    exists [], [], []. simpl. rewrite !app_nil_r.
    repeat split; try assumption. constructor.
Qed.

End WithEnvironment.

(** ** The theorems at work *)

(** C5 on [count = 15]: the effective count is 10. *)
Lemma C5_count_15_is_10 :
  lookup "count" [("count", PInt 15)] = Some (PInt 15) /\
  effective_count [("count", PInt 15)] = Ok (PInt 10).
Proof.
  split; [reflexivity |].
  apply (C5_count_is_clamped Sample.dumps Sample.version
           [("count", PInt 15)] [] 15 Sample.world0).
  left. reflexivity.
Defined.

(** C6 on the tool name [nope]. *)
Lemma C6_nope_is_reported :
  exists w',
    handle_call_tool Sample.dumps Sample.version "nope" None Sample.world0
    = (Ok [mkTextContent "text" "Error: Unknown tool: nope"], w').
Proof.
  destruct (C6_unknown_tool_is_reported Sample.dumps Sample.version "nope" None
              Sample.world0) as (w' & d & E & _); try discriminate.
  exists w'. exact E.
Defined.

(** C7 on [count = 5]: five records, and [count] is 5. *)
Lemma C7_five_records :
  effective_count [("count", PInt 5)] = Ok (PInt 5) /\
  exists result w' records,
    handle_call_tool Sample.dumps Sample.version "get-random-data"
      (Some [("count", PInt 5)]) Sample.world0
    = (Ok [mkTextContent "text" (Sample.dumps result)], w') /\
    result = PDict [ ("records", PList records); ("count", PInt 5) ] /\
    List.length records = 5%nat /\
    Forall is_record records.
Proof.
  split; [reflexivity |].
  destruct (C7_random_data_shape Sample.dumps Sample.version
              [("count", PInt 5)] 5 Sample.world0 eq_refl)
    as (result & w' & E & records & R & L & F).
  exists result, w', records. repeat split; try assumption.
  apply Nat2Z.inj. exact L.
Defined.

(** C8 on the message [hi]: it comes back, with length 2. *)
Lemma C8_echo_hi :
  lookup "message" [("message", PStr "hi")] = Some (PStr "hi") /\
  exists timestamp w',
    handle_call_tool Sample.dumps Sample.version "echo"
      (Some [("message", PStr "hi")]) Sample.world0
    = (Ok [mkTextContent "text"
             (Sample.dumps
                (PDict [ ("echoed_message", PStr "hi");
                         ("timestamp", PStr timestamp);
                         ("message_length", PInt 2) ]))],
       w').
Proof.
  split; [reflexivity |].
  apply (C8_echo_returns_message Sample.dumps Sample.version
           [("message", PStr "hi")] "hi" Sample.world0).
  reflexivity.
Defined.

(** C9 on the empty mapping. *)
Lemma C9_echo_of_nothing :
  lookup "message" [] = None /\
  exists timestamp w',
    handle_call_tool Sample.dumps Sample.version "echo" (Some []) Sample.world0
    = (Ok [mkTextContent "text"
             (Sample.dumps
                (PDict [ ("echoed_message", PStr "");
                         ("timestamp", PStr timestamp);
                         ("message_length", PInt 0) ]))],
       w').
Proof.
  split; [reflexivity |].
  apply (C9_echo_without_message Sample.dumps Sample.version (Some [])
           Sample.world0).
  reflexivity.
Defined.

End ServerFacts.

(* ================================================================== *)
(** * Properties of the log viewer *)
(* ================================================================== *)

Module ViewerFacts.
Import Py Viewer.

Section WithLibrary.

Variable datetime : Type.
Variable fromisoformat : string -> option datetime.
Variable strftime_HMS : datetime -> string.
Variable py_repr : value -> string.

Local Abbreviation format_timestamp := (format_timestamp datetime fromisoformat strftime_HMS).
Local Abbreviation process_log := (process_log datetime fromisoformat strftime_HMS py_repr).
Local Abbreviation view := (view datetime fromisoformat strftime_HMS py_repr).
Local Abbreviation time_of_day := (time_of_day datetime fromisoformat strftime_HMS).
Local Abbreviation args_column := (args_column py_repr).

(** ** Pieces of a line *)

Lemma format_timestamp_str (asctime : string) :
  format_timestamp (PStr asctime) = Ok (time_of_day asctime).
Proof.
  unfold Viewer.format_timestamp, Viewer.time_of_day.
  destruct (fromisoformat _); reflexivity.
Qed.

Lemma format_args_dict (arguments : dict) :
  format_args py_repr (PDict arguments) = Ok (args_column arguments).
Proof. destruct arguments; reflexivity. Qed.

(** ** Steps of the tracker *)

(** A ["MCP tool called"] event fills the pending slot, whatever it held,
    and renders nothing. *)
Lemma process_log_called (pending : tracker) (asctime tool : string)
      (arguments : dict) :
  process_log pending (called asctime tool arguments)
  = (Ok None,
     [ ("timestamp", time_of_day asctime);
       ("tool", PStr tool);
       ("args", PDict arguments) ]).
Proof.
  unfold Viewer.process_log, called, event. cbn [get lookup app String.eqb Ascii.eqb Bool.eqb].
  rewrite format_timestamp_str. reflexivity.
Qed.

(** A ["MCP tool completed"] event on a pending call renders the success
    line of the pending call and empties the slot. *)
Lemma process_log_completed (ts : value) (pending_tool : string)
      (arguments : dict) (asctime tool : string) (duration : Q) (size : Z) :
  process_log [ ("timestamp", ts); ("tool", PStr pending_tool);
                ("args", PDict arguments) ]
              (completed asctime tool duration size)
  = (Ok (Some (SuccessLine ts pending_tool (args_column arguments) duration size)),
     []).
Proof.
  unfold Viewer.process_log, completed, event.
  cbn [get lookup app String.eqb Ascii.eqb Bool.eqb].
  rewrite format_timestamp_str.
  unfold render_completed. cbn [get lookup String.eqb Ascii.eqb Bool.eqb].
  rewrite format_args_dict. reflexivity.
Qed.

(** A ["MCP tool failed"] event on a pending call renders the failure
    line of the pending call and empties the slot. *)
Lemma process_log_failed (ts : value) (pending_tool : string)
      (arguments : dict) (asctime tool error : string) (duration : Q) :
  process_log [ ("timestamp", ts); ("tool", PStr pending_tool);
                ("args", PDict arguments) ]
              (failed asctime tool error duration)
  = (Ok (Some (FailureLine ts pending_tool (PStr (str_slice_to 50 error)))),
     []).
Proof.
  unfold Viewer.process_log, failed, event.
  cbn [get lookup app String.eqb Ascii.eqb Bool.eqb].
  rewrite format_timestamp_str. reflexivity.
Qed.

(** Every rendered line is a non-empty string: the [if formatted:] of the
    main loop prints each of them. *)
Lemma render_nonempty (r : rendered) : render py_repr r <> "".
Proof. destruct r; discriminate. Qed.

(** Rewrites the step of the tracker at the head of the loop. *)
Ltac tracker_step :=
  cbn [feed];
  first [ rewrite process_log_called
        | rewrite process_log_completed
        | rewrite process_log_failed ].

(** ** Correlation *)

(** C4. Fed a call of [A], its completion with duration 12 and size 100,
    a call of [B] and its failure with error boom, the viewer prints
    exactly two lines, the success line of [A] and then the failure line
    of [B]; fed a call of [A], a call of [B] and one completion, it prints
    exactly one line, and the tool on it is [B]: the second call has
    replaced the first in the single pending slot. *)
Theorem C4_two_calls_two_lines (A B C : string) (argsA argsB : dict)
        (t1 t2 t3 t4 : string) (d d' : Q) (size : Z) :
  view [ PDict (called t1 A argsA); PDict (completed t2 A 12 100);
         PDict (called t3 B argsB); PDict (failed t4 B "boom" d) ]
  = ([ Row (SuccessLine (time_of_day t1) A (args_column argsA) 12 100);
       Row (FailureLine (time_of_day t3) B (PStr "boom")) ],
     Ok tt)
  /\
  view [ PDict (called t1 A argsA); PDict (called t2 B argsB);
         PDict (completed t3 C d' size) ]
  = ([ Row (SuccessLine (time_of_day t2) B (args_column argsB) d' size) ],
     Ok tt).
Proof.
  unfold Viewer.view, init. split; repeat tracker_step; reflexivity.
Qed.

(** ** Events without a pending call *)

(** C10. With no call pending: an event whose message is that of a
    failed tool call still renders a failure line, with the tool name of
    the event itself (["?"] when it has none) and the time of the event;
    an event whose message is that of a completed tool call renders
    nothing.  Either way no call is pending afterwards. *)
Theorem C10_failure_without_pending_call
        (failed_log completed_log : dict) (m1 m2 a1 a2 tool error : string) :
  get failed_log "message" (PStr "") = PStr m1 ->
  contains "MCP tool called" m1 = false ->
  contains "MCP tool completed" m1 = false ->
  contains "MCP tool failed" m1 = true ->
  get failed_log "asctime" (PStr "") = PStr a1 ->
  get failed_log "tool_name" (PStr "?") = PStr tool ->
  get failed_log "error" (PStr "") = PStr error ->
  get completed_log "message" (PStr "") = PStr m2 ->
  contains "MCP tool called" m2 = false ->
  contains "MCP tool completed" m2 = true ->
  get completed_log "asctime" (PStr "") = PStr a2 ->
  process_log init failed_log
  = (Ok (Some (FailureLine (time_of_day a1) tool
                           (PStr (str_slice_to 50 error)))), init)
  /\ view [PDict failed_log]
     = ([Row (FailureLine (time_of_day a1) tool
                          (PStr (str_slice_to 50 error)))], Ok tt)
  /\ process_log init completed_log = (Ok None, init)
  /\ view [PDict completed_log] = ([], Ok tt).
Proof.
  intros Hm1 Hc1 Hd1 Hf1 Ha1 Ht He Hm2 Hc2 Hd2 Ha2.
  assert (F : process_log init failed_log
              = (Ok (Some (FailureLine (time_of_day a1) tool
                                       (PStr (str_slice_to 50 error)))), init)).
  { unfold Viewer.process_log. rewrite Hm1, Ha1, format_timestamp_str.
    unfold str_in. rewrite Hc1, Hd1, Hf1.
    unfold render_failed, init. cbn [get lookup]. rewrite Ht, He. reflexivity. }
  assert (G : process_log init completed_log = (Ok None, init)).
  { unfold Viewer.process_log. rewrite Hm2, Ha2, format_timestamp_str.
    unfold str_in. rewrite Hc2, Hd2. reflexivity. }
  repeat split; try assumption.
  - unfold Viewer.view. cbn [feed]. rewrite F. reflexivity.
  - unfold Viewer.view. cbn [feed]. rewrite G. reflexivity.
Qed.

End WithLibrary.

(** ** The theorems at work *)

(** C10 on the failure of [nope] and on a completion of [echo], each
    arriving with no call pending. *)
Lemma C10_failure_of_nope :
  process_log string Sample.fromisoformat Sample.strftime_HMS Sample.dumps init
    (failed "2024-05-01T12:00:03" "nope" "Unknown tool: nope" (5 # 100))
  = (Ok (Some (FailureLine (PStr "12:00:03") "nope" (PStr "Unknown tool: nope"))),
     init)
  /\
  process_log string Sample.fromisoformat Sample.strftime_HMS Sample.dumps init
    (completed "2024-05-01T12:00:04" "echo" 12 100)
  = (Ok None, init).
Proof.
  destruct (C10_failure_without_pending_call
              string Sample.fromisoformat Sample.strftime_HMS Sample.dumps
              (failed "2024-05-01T12:00:03" "nope" "Unknown tool: nope" (5 # 100))
              (completed "2024-05-01T12:00:04" "echo" 12 100)
              "MCP tool failed" "MCP tool completed"
              "2024-05-01T12:00:03" "2024-05-01T12:00:04"
              "nope" "Unknown tool: nope")
    as (F & _ & G & _); try reflexivity.
  split; [exact F | exact G].
Defined.

End ViewerFacts.

(* ================================================================== *)
(** * Further properties of the generators *)
(* ================================================================== *)

Module GeneratorFacts.
Import Py Mcp Eff EffFacts Server Observe.
Local Open Scope eff_scope.

(** ** Strings *)

Lemma length_append (s t : string) :
  String.length (s ++ t) = (String.length s + String.length t)%nat.
Proof. induction s as [|c s IH]; simpl; [reflexivity | rewrite IH; reflexivity]. Qed.

Lemma string_forall_append (p : ascii -> bool) (s t : string) :
  string_forall p (s ++ t) = string_forall p s && string_forall p t.
Proof.
  induction s as [|c s IH]; simpl; [reflexivity |].
  rewrite IH. apply andb_assoc.
Qed.

(** On ASCII text code points and bytes are the same. *)
Lemma str_len_ascii (s : string) : all_ascii s = true -> str_len s = String.length s.
Proof.
  induction s as [|c s IH]; simpl; [reflexivity |].
  intros H. apply andb_prop in H as [Hc Hs]. rewrite (IH Hs).
  unfold is_continuation. apply Nat.ltb_lt in Hc.
  destruct (Nat.leb_spec 128 (nat_of_ascii c)); [lia | reflexivity].
Qed.

(** Beyond ASCII they are not: the text [hé] has two code points in
    three bytes, and its first code point is [h]. *)
Lemma len_of_accented_text :
  len (PStr "hé") = Ok 2 /\ String.length "hé" = 3%nat
  /\ slice_to 1 (PStr "éh") = Ok (PStr "é").
Proof. repeat split. Qed.

(** Joining one-character strings without separator. *)
Lemma join_chars (p : ascii -> bool) (cs : list string) :
  Forall (fun c => String.length c = 1%nat /\ string_forall p c = true) cs ->
  String.length (join "" cs) = List.length cs
  /\ string_forall p (join "" cs) = true.
Proof.
  induction 1 as [|c rest [Hlen Hp] _ [IHlen IHp]]; [split; reflexivity |].
  assert (E : join "" (c :: rest) = c ++ join "" rest).
  { destruct rest; simpl; [| reflexivity].
    clear. induction c; simpl; congruence. }
  rewrite E, length_append, string_forall_append, Hlen, Hp, IHlen, IHp.
  split; reflexivity.
Qed.

(** ** The random generator *)

Lemma draws_ret {A} (a : A) (P : A -> Prop) : P a -> draws (ret a) P.
Proof.
  intros H w. exists a, (randoms w). split; [| exact H].
  destruct w; reflexivity.
Qed.

Lemma draws_bind {A B} (c : M A) (k : A -> M B) (P : A -> Prop) (Q : B -> Prop) :
  draws c P -> (forall a, P a -> draws (k a) Q) -> draws (bind c k) Q.
Proof.
  intros Hc Hk w.
  destruct (Hc w) as (a & rs & E & Pa).
  destruct (Hk a Pa (set_randoms rs w)) as (b & rs' & E' & Qb).
  exists b, rs'. unfold bind. rewrite E, E'. split; [reflexivity | exact Qb].
Qed.

Lemma draws_weaken {A} (c : M A) (P Q : A -> Prop) :
  draws c P -> (forall a, P a -> Q a) -> draws c Q.
Proof.
  intros Hc HPQ w. destruct (Hc w) as (a & rs & E & Pa).
  exists a, rs. split; [exact E | apply HPQ, Pa].
Qed.

Lemma draws_mapM {A B} (f : A -> M B) (P : B -> Prop) (xs : list A) :
  (forall x, draws (f x) P) ->
  draws (mapM f xs) (fun ys => List.length ys = List.length xs /\ Forall P ys).
Proof.
  intros Hf. induction xs as [|x rest IH]; simpl.
  - apply draws_ret. split; [reflexivity | constructor].
  - eapply draws_bind; [apply Hf | intros y Py].
    eapply draws_bind; [apply IH | intros ys [Hlen Hall]].
    apply draws_ret. split; [simpl; congruence | constructor; assumption].
Qed.

Lemma draws_draw : draws draw (fun _ => True).
Proof. intros w. eexists _, _. split; [reflexivity | exact I]. Qed.

Lemma draws_randbelow (n : Z) :
  0 < n -> draws (randbelow n) (fun k => 0 <= k < n).
Proof.
  intros Hn. unfold randbelow.
  eapply draws_bind; [apply draws_draw | intros r _].
  apply draws_ret. apply Z.mod_pos_bound, Hn.
Qed.

Lemma draws_randint (a b : Z) :
  a <= b -> draws (randint a b) (fun v => a <= v <= b).
Proof.
  intros Hab. unfold randint.
  eapply draws_bind; [apply draws_randbelow; lia | intros k Hk].
  apply draws_ret. cbv beta in Hk. lia.
Qed.

(** [random.random()] lies in [[0, 1)]. *)
Lemma draws_random : draws random (fun u => (0 <= u /\ u < 1)%Q).
Proof.
  unfold random.
  eapply draws_bind; [apply draws_draw | intros r _].
  apply draws_ret.
  assert (H : 0 <= Z.of_N r mod 2 ^ 53 < 2 ^ 53) by (apply Z.mod_pos_bound; lia).
  unfold Qle, Qlt. simpl Qnum. simpl Qden.
  change (Z.pos (2 ^ 53)) with (2 ^ 53). lia.
Qed.

(** [random.uniform(a, b)] lies in [[a, b]]. *)
Lemma draws_uniform (a b : Q) :
  (a <= b)%Q -> draws (uniform a b) (fun v => (a <= v /\ v <= b)%Q).
Proof.
  intros Hab. unfold uniform.
  eapply draws_bind; [apply draws_random | intros u [H0 H1]].
  apply draws_ret. split; nra.
Qed.

Lemma draws_choice {A} (seq : list A) (d : A) :
  seq <> [] -> draws (choice seq d) (fun x => In x seq).
Proof.
  intros Hne. unfold choice.
  assert (0 < Z.of_nat (List.length seq)) by (destruct seq; [congruence | simpl; lia]).
  eapply draws_bind; [apply draws_randbelow; assumption | intros i Hi].
  apply draws_ret. cbv beta in Hi. apply nth_In. lia.
Qed.

(** The index [floor(random() * n)] falls inside a population of [n]. *)
Lemma index_in_population (u : Q) (n : nat) :
  (0 <= u /\ u < 1)%Q -> (0 < n)%nat ->
  (Z.to_nat (Qfloor (u * inject_Z (Z.of_nat n))) < n)%nat.
Proof.
  intros [H0 H1] Hn.
  set (x := (u * inject_Z (Z.of_nat n))%Q).
  assert (Hn' : (0 < inject_Z (Z.of_nat n))%Q).
  { change 0%Q with (inject_Z 0). rewrite <- Zlt_Qlt. lia. }
  assert (Hx0 : (0 <= x)%Q) by (unfold x; nra).
  assert (Hx1 : (x < inject_Z (Z.of_nat n))%Q) by (unfold x; nra).
  assert (F0 : 0 <= Qfloor x).
  { change 0 with (Qfloor 0). apply Qfloor_resp_le, Hx0. }
  assert (F1 : Qfloor x < Z.of_nat n).
  { rewrite Zlt_Qlt. eapply Qle_lt_trans; [apply Qfloor_le | exact Hx1]. }
  lia.
Qed.

(** ** Characters of a population *)

Lemma get_string_forall (p : ascii -> bool) (s : string) (i : nat) (c : ascii) :
  string_forall p s = true -> String.get i s = Some c -> p c = true.
Proof.
  revert i. induction s as [|x s IH]; intros i Hall Hget; [discriminate |].
  simpl in Hall. apply andb_prop in Hall as [Hx Hs].
  destruct i; simpl in Hget; [congruence | eapply IH; eassumption].
Qed.

Lemma get_some (s : string) (i : nat) :
  (i < String.length s)%nat -> exists c, String.get i s = Some c.
Proof.
  revert i. induction s as [|x s IH]; intros i Hi; simpl in Hi; [lia |].
  destruct i; simpl; [eauto | apply IH; lia].
Qed.

Lemma draws_choose_char (p : ascii -> bool) (population : string) :
  string_forall p population = true -> population <> "" ->
  draws (choose_char population)
        (fun s => String.length s = 1%nat /\ string_forall p s = true).
Proof.
  intros Hall Hne. unfold choose_char.
  eapply draws_bind; [apply draws_random | intros u Hu].
  apply draws_ret.
  assert (Hpos : (0 < String.length population)%nat)
    by (destruct population; [congruence | simpl; lia]).
  pose proof (index_in_population u (String.length population) Hu Hpos) as Hi.
  destruct (get_some population _ Hi) as [c Hc]. rewrite Hc. simpl.
  rewrite (get_string_forall p population _ c Hall Hc). split; reflexivity.
Qed.

Lemma draws_generate_random_string (n : nat) :
  draws (generate_random_string n) (alnum_of_length n).
Proof.
  unfold generate_random_string, choices.
  eapply draws_bind.
  - apply draws_mapM. intros _.
    apply (draws_choose_char is_alnum); [reflexivity | discriminate].
  - intros cs [Hlen Hall]. apply draws_ret.
    destruct (join_chars is_alnum cs Hall) as [L P].
    split; [| exact P]. rewrite L, Hlen. apply length_seq.
Qed.

(** ** Addresses *)

Lemma draws_generate_random_ip :
  draws generate_random_ip
    (fun s => exists a b c d,
         s = dotted a b c d
         /\ 1 <= a <= 255 /\ 0 <= b <= 255 /\ 0 <= c <= 255 /\ 1 <= d <= 254).
Proof.
  unfold generate_random_ip.
  eapply draws_bind; [apply draws_randint; lia | intros a Ha].
  eapply draws_bind; [apply draws_randint; lia | intros b Hb].
  eapply draws_bind; [apply draws_randint; lia | intros c Hc].
  eapply draws_bind; [apply draws_randint; lia | intros d Hd].
  apply draws_ret. exists a, b, c, d. repeat split; assumption || apply Ha
    || apply Hb || apply Hc || apply Hd.
Qed.

Lemma hex02_pair (v : Z) : 0 <= v <= 255 -> hex_pair (hex02 v).
Proof.
  intros Hv.
  assert (H : forallb (fun v => (String.length (hex02 v) =? 2)%nat
                                && string_forall is_hex_lower (hex02 v))
                      (map Z.of_nat (seq 0 256)) = true)
    by (vm_compute; reflexivity).
  rewrite forallb_forall in H.
  specialize (H v). destruct (andb_prop _ _ (H ltac:(
    replace v with (Z.of_nat (Z.to_nat v)) by lia;
    apply in_map, in_seq; lia))) as [L P].
  split; [apply Nat.eqb_eq, L | exact P].
Qed.

Lemma draws_generate_random_mac :
  draws generate_random_mac
    (fun s => exists p1 p2 p3 p4 p5 p6,
         s = join ":" [p1; p2; p3; p4; p5; p6]
         /\ Forall hex_pair [p1; p2; p3; p4; p5; p6]
         /\ String.length s = 17%nat).
Proof.
  unfold generate_random_mac.
  eapply draws_bind.
  - apply draws_mapM with (P := hex_pair). intros _.
    eapply draws_bind; [apply draws_randint; lia | intros v Hv].
    apply draws_ret, hex02_pair, Hv.
  - intros parts [Hlen Hall]. apply draws_ret.
    destruct parts as [|p1 [|p2 [|p3 [|p4 [|p5 [|p6 [|]]]]]]]; try discriminate.
    exists p1, p2, p3, p4, p5, p6. split; [reflexivity | split; [exact Hall |]].
    repeat match goal with
           | H : Forall _ (_ :: _) |- _ => inversion H; subst; clear H
           end.
    repeat match goal with
           | H : hex_pair _ |- _ => destruct H as [? _]
           end.
    cbn [join]. rewrite !length_append. simpl String.length. lia.
Qed.

(** X1. [generate_random_string(length)] always returns a string of
    exactly [length] characters, each an ASCII letter or digit, and
    changes nothing but the state of the random generator. *)
Theorem X1_random_string_is_alphanumeric (length : nat) (w : world) :
  exists s rs,
    generate_random_string length w = (Ok s, set_randoms rs w)
    /\ String.length s = length
    /\ string_forall is_alnum s = true.
Proof.
  destruct (draws_generate_random_string length w) as (s & rs & E & L & P).
  exists s, rs. repeat split; assumption.
Qed.

(** X2. [generate_random_ip()] always returns four decimal numbers
    joined by dots, the first in [[1, 255]], the second and third in
    [[0, 255]] and the last in [[1, 254]]. *)
Theorem X2_random_ip_is_a_dotted_quad (w : world) :
  exists a b c d rs,
    generate_random_ip w = (Ok (dotted a b c d), set_randoms rs w)
    /\ 1 <= a <= 255 /\ 0 <= b <= 255 /\ 0 <= c <= 255 /\ 1 <= d <= 254.
Proof.
  destruct (draws_generate_random_ip w)
    as (s & rs & E & a & b & c & d & -> & Ha & Hb & Hc & Hd).
  exists a, b, c, d, rs. repeat split; try exact E; lia.
Qed.

(** X3. [generate_random_mac()] always returns six groups of two
    lower-case hexadecimal digits joined by colons, 17 characters in
    all. *)
Theorem X3_random_mac_is_six_hex_pairs (w : world) :
  exists p1 p2 p3 p4 p5 p6 rs,
    generate_random_mac w
    = (Ok (join ":" [p1; p2; p3; p4; p5; p6]), set_randoms rs w)
    /\ Forall hex_pair [p1; p2; p3; p4; p5; p6]
    /\ String.length (join ":" [p1; p2; p3; p4; p5; p6]) = 17%nat.
Proof.
  destruct (draws_generate_random_mac w)
    as (s & rs & E & p1 & p2 & p3 & p4 & p5 & p6 & -> & Hall & Hlen).
  exists p1, p2, p3, p4, p5, p6, rs. repeat split; assumption.
Qed.

(** ** Rounding to hundredths *)

(** [round(q, 2)] stays between two bounds that are whole numbers of
    hundredths. *)
Lemma round2_within (lo hi : Z) (q : Q) :
  (Qmake lo 100 <= q /\ q <= Qmake hi 100)%Q ->
  exists n, round2 q = Qmake n 100 /\ lo <= n <= hi.
Proof.
  intros [Hlo Hhi]. unfold round2.
  set (y := (q * inject_Z 100)%Q).
  assert (Ylo : (inject_Z lo <= y)%Q).
  { unfold y. unfold Qle in *. simpl in *. lia. }
  assert (Yhi : (y <= inject_Z hi)%Q).
  { unfold y. unfold Qle in *. simpl in *. lia. }
  assert (Flo : lo <= Qfloor y).
  { rewrite <- (Qfloor_Z lo). apply Qfloor_resp_le, Ylo. }
  assert (Fhi : Qfloor y <= hi).
  { rewrite <- (Qfloor_Z hi). apply Qfloor_resp_le, Yhi. }
  eexists. split; [reflexivity |].
  destruct (Z.eq_dec (Qfloor y) hi) as [E | NE].
  - assert (Hfrac : (y - inject_Z (Qfloor y) < 1 # 2)%Q).
    { rewrite E. lra. }
    rewrite Qlt_alt in Hfrac. rewrite Hfrac. lia.
  - destruct (Qcompare _ _); [destruct (Z.even _) | |]; lia.
Qed.

(** ** The record *)

Lemma bind_datetime_now {A} (k : string -> M A) (w : world) :
  bind datetime_now k w = k (hd "" (nows w)) (set_nows (tl (nows w)) w).
Proof. reflexivity. Qed.

Lemma bind_uuid4 {A} (k : string -> M A) (w : world) :
  bind uuid4 k w = k (hd "" (uuids w)) (set_uuids (tl (uuids w)) w).
Proof. reflexivity. Qed.

(** One step of the record: the next field is drawn, within its range. *)
Ltac record_step :=
  eapply draws_bind;
  [ first [ apply draws_randint; lia
          | apply draws_uniform; unfold Qle; simpl; lia
          | apply draws_choice; discriminate
          | apply draws_generate_random_string
          | apply draws_generate_random_ip
          | apply draws_generate_random_mac
          | apply draws_mapM with (P := alnum_of_length 4); intros _;
            apply draws_generate_random_string ]
  | intros ? ? ].

(** Takes the instant and the identifier, and then the fields one by one,
    down to the dictionary display. *)
Ltac record_chain w :=
  unfold generate_technical_data, after_record;
  rewrite bind_datetime_now, bind_uuid4;
  change (uuids (set_nows (tl (nows w)) w)) with (uuids w);
  generalize (set_uuids (tl (uuids w)) (set_nows (tl (nows w)) w)).

Tactic Notation "record_step" "as" simple_intropattern(x) simple_intropattern(H) :=
  eapply draws_bind;
  [ first [ apply draws_randint; lia
          | apply draws_uniform; unfold Qle; simpl; lia
          | apply draws_choice; discriminate
          | apply draws_generate_random_string
          | apply draws_generate_random_ip
          | apply draws_generate_random_mac
          | apply draws_mapM with (P := alnum_of_length 4); intros _;
            apply draws_generate_random_string ]
  | intros x; let T := fresh in (intros T; cbv beta in T; revert T); intros H ].

(** A bound of the generator in hundredths. *)
Lemma hundredths (lo hi : Z) (a b q : Q) :
  (a == Qmake lo 100)%Q -> (b == Qmake hi 100)%Q -> (a <= q /\ q <= b)%Q ->
  hundredths_within a b (Some (PFloat (round2 q))).
Proof.
  intros Ea Eb [Ha Hb].
  destruct (round2_within lo hi q) as (n & E & Hn).
  { rewrite <- Ea, <- Eb. split; assumption. }
  exists n. rewrite E. split; [reflexivity |].
  rewrite Ea, Eb. unfold Qle. simpl. lia.
Qed.

(** Everything the dictionary display of [generate_technical_data] fixes
    about a record. *)
Lemma record_facts (w : world) :
  exists record rs,
    generate_technical_data w = (Ok record, after_record rs w)
    /\ (field "request_id" record = Some (PStr (hd "" (uuids w)))
        /\ field "timestamp" record = Some (PStr (hd "" (nows w))))
    /\ (int_within 3600 2592000 (sub "server_info" "uptime_seconds" record)
        /\ int_within 1000 65535 (sub "process_info" "pid" record)
        /\ int_within 1 64 (sub "process_info" "threads" record)
        /\ int_within 10 1000 (sub "process_info" "open_files" record)
        /\ int_within 0 500 (sub "process_info" "connections" record)
        /\ version_shape (field "version" record))
    /\ (hostname_shape (sub "server_info" "hostname" record)
        /\ ip_shape (sub "server_info" "ip_address" record)
        /\ mac_shape (sub "server_info" "mac_address" record)
        /\ tags_shape (field "tags" record))
    /\ (hundredths_within 5 95 (metric "cpu_usage_percent" record)
        /\ hundredths_within (1 # 10) 500 (metric "disk_io_read_mbps" record)
        /\ hundredths_within (1 # 10) 300 (metric "disk_io_write_mbps" record)
        /\ hundredths_within (1 # 100) 1000 (metric "network_rx_mbps" record)
        /\ hundredths_within (1 # 100) 500 (metric "network_tx_mbps" record)).
Proof.
  record_chain w.
  record_step as host Hhost.
  record_step as ip (a & b & c & d & -> & Hip).
  record_step as mac (p1 & p2 & p3 & p4 & p5 & p6 & -> & Hmac & _).
  record_step as uptime Huptime.
  record_step as cpu Hcpu.
  record_step as used Hused.
  record_step as dr Hdr.
  record_step as dw Hdw.
  record_step as rx Hrx.
  record_step as tx Htx.
  record_step as pid Hpid.
  record_step as threads Hthreads.
  record_step as files Hfiles.
  record_step as conns Hconns.
  record_step as status Hstatus.
  record_step as ntags Hntags.
  record_step as tags [Hlen Htags].
  record_step as major Hmajor.
  record_step as minor Hminor.
  record_step as patch Hpatch.
  apply draws_ret.
  split; [split; reflexivity |].
  split; [| split].
  - repeat split; try (eexists; split; [reflexivity | lia]).
    exists major, minor, patch. repeat split; lia.
  - split; [exists host; split; [reflexivity | exact Hhost] |].
    split; [exists a, b, c, d; split; [reflexivity | exact Hip] |].
    split; [exists p1, p2, p3, p4, p5, p6; split; [reflexivity | exact Hmac] |].
    exists tags. split; [reflexivity | split; [| exact Htags]].
    rewrite Hlen, length_seq. lia.
  - split; [apply (hundredths 500 9500); [reflexivity | reflexivity | exact Hcpu] |].
    split; [apply (hundredths 10 50000); [reflexivity | reflexivity | exact Hdr] |].
    split; [apply (hundredths 10 30000); [reflexivity | reflexivity | exact Hdw] |].
    split; [apply (hundredths 1 100000); [reflexivity | reflexivity | exact Hrx] |].
    apply (hundredths 1 50000); [reflexivity | reflexivity | exact Htx].
Qed.

(** X4. [generate_technical_data()] always returns a record; it takes
    exactly one instant, which becomes [timestamp], and one identifier,
    which becomes [request_id], and otherwise changes only the state of
    the random generator: it never logs, writes, sleeps or reads
    [time.time()]. *)
Theorem X4_record_footprint (w : world) :
  exists record rs,
    generate_technical_data w = (Ok record, after_record rs w)
    /\ field "request_id" record = Some (PStr (hd "" (uuids w)))
    /\ field "timestamp" record = Some (PStr (hd "" (nows w)))
    /\ generates w (after_record rs w)
    /\ uuids (after_record rs w) = tl (uuids w)
    /\ nows (after_record rs w) = tl (nows w).
Proof.
  destruct (record_facts w) as (record & rs & E & [Hid Hts] & _).
  exists record, rs. repeat split; assumption.
Qed.

(** X5. In every record, [uptime_seconds] lies between one hour and
    thirty days, [pid] in [[1000, 65535]], [threads] in [[1, 64]],
    [open_files] in [[10, 1000]], [connections] in [[0, 500]], and
    [version] is [major.minor.patch] with [major] in [[1, 5]], [minor] in
    [[0, 20]] and [patch] in [[0, 100]]. *)
Theorem X5_record_integer_ranges (w : world) :
  exists record w',
    generate_technical_data w = (Ok record, w')
    /\ int_within 3600 2592000 (sub "server_info" "uptime_seconds" record)
    /\ int_within 1000 65535 (sub "process_info" "pid" record)
    /\ int_within 1 64 (sub "process_info" "threads" record)
    /\ int_within 10 1000 (sub "process_info" "open_files" record)
    /\ int_within 0 500 (sub "process_info" "connections" record)
    /\ version_shape (field "version" record).
Proof.
  destruct (record_facts w) as (record & rs & E & _ & H & _).
  exists record, (after_record rs w). split; [exact E | exact H].
Qed.

(** X6. In every record, [hostname] is ["server-"] followed by six
    alphanumeric characters, [ip_address] is a dotted quad within the
    ranges of [generate_random_ip], [mac_address] is six pairs of
    hexadecimal digits, and [tags] holds two to five strings of four
    alphanumeric characters. *)
Theorem X6_record_string_shapes (w : world) :
  exists record w',
    generate_technical_data w = (Ok record, w')
    /\ hostname_shape (sub "server_info" "hostname" record)
    /\ ip_shape (sub "server_info" "ip_address" record)
    /\ mac_shape (sub "server_info" "mac_address" record)
    /\ tags_shape (field "tags" record).
Proof.
  destruct (record_facts w) as (record & rs & E & _ & _ & H & _).
  exists record, (after_record rs w). split; [exact E | exact H].
Qed.

(** X7. In every record the five float metrics are whole numbers of
    hundredths within the bounds of their [random.uniform] call:
    [cpu_usage_percent] in [[5, 95]], [disk_io_read_mbps] in
    [[0.1, 500]], [disk_io_write_mbps] in [[0.1, 300]],
    [network_rx_mbps] in [[0.01, 1000]] and [network_tx_mbps] in
    [[0.01, 500]]: rounding to two decimals never leaves the interval. *)
Theorem X7_record_float_ranges (w : world) :
  exists record w',
    generate_technical_data w = (Ok record, w')
    /\ hundredths_within 5 95 (metric "cpu_usage_percent" record)
    /\ hundredths_within (1 # 10) 500 (metric "disk_io_read_mbps" record)
    /\ hundredths_within (1 # 10) 300 (metric "disk_io_write_mbps" record)
    /\ hundredths_within (1 # 100) 1000 (metric "network_rx_mbps" record)
    /\ hundredths_within (1 # 100) 500 (metric "network_tx_mbps" record).
Proof.
  destruct (record_facts w) as (record & rs & E & _ & _ & _ & H).
  exists record, (after_record rs w). split; [exact E | exact H].
Qed.

End GeneratorFacts.

(* ================================================================== *)
(** * Relations the code keeps *)
(* ================================================================== *)

(** For a reflexive and transitive relation between states that the
    primitive effects keep, the functions of the server keep it too. *)
Module KeepFacts.
Import Py Mcp Eff Logging Server Observe.
Local Open Scope eff_scope.

Section Keeps.

Variable json_dumps : value -> string.
Variable version : string.
Variable unicode_upper : string -> string.

Variable R : world -> world -> Prop.
Hypothesis R_refl : forall w, R w w.
Hypothesis R_trans : forall w1 w2 w3, R w1 w2 -> R w2 w3 -> R w1 w3.

Lemma keeps_ret {A} (a : A) : keeps R (ret a).
Proof. intros w. apply R_refl. Qed.

Lemma keeps_raise {A} (e : exn) : keeps R (@raise A e).
Proof. intros w. apply R_refl. Qed.

Lemma keeps_lift {A} (r : res A) : keeps R (lift r).
Proof. intros w. apply R_refl. Qed.

Lemma keeps_bind {A B} (c : M A) (k : A -> M B) :
  keeps R c -> (forall a, keeps R (k a)) -> keeps R (bind c k).
Proof.
  intros Hc Hk w. unfold bind. specialize (Hc w).
  destruct (c w) as [[a|e] w1]; simpl in Hc; [| exact Hc].
  eapply R_trans; [exact Hc | apply Hk].
Qed.

Lemma keeps_try_except {A} (body : M A) (handler : exn -> M A) :
  keeps R body -> (forall e, keeps R (handler e)) ->
  keeps R (try_except body handler).
Proof.
  intros Hb Hh w. unfold try_except. specialize (Hb w).
  destruct (body w) as [[a|e] w1]; simpl in Hb; [exact Hb |].
  eapply R_trans; [exact Hb | apply Hh].
Qed.

Lemma keeps_try_finally {A} (body : M A) (cleanup : M unit) :
  keeps R body -> keeps R cleanup -> keeps R (try_finally body cleanup).
Proof.
  intros Hb Hc w. unfold try_finally. specialize (Hb w).
  destruct (body w) as [r w1]; simpl in Hb. specialize (Hc w1).
  destruct (cleanup w1) as [[u|e] w2]; simpl in Hc |- *;
    eapply R_trans; eassumption.
Qed.

Lemma keeps_mapM {A B} (f : A -> M B) (xs : list A) :
  (forall x, keeps R (f x)) -> keeps R (mapM f xs).
Proof.
  intros Hf. induction xs as [|x rest IH]; simpl.
  - apply keeps_ret.
  - apply keeps_bind; [apply Hf | intros y].
    apply keeps_bind; [apply IH | intros ys]. apply keeps_ret.
Qed.

(** ** The generators *)

Hypothesis R_draw : keeps R draw.
Hypothesis R_now : keeps R datetime_now.
Hypothesis R_uuid : keeps R uuid4.

(** One step into a sequence, by the shape of its head. *)
Ltac keeps_step :=
  lazymatch goal with
  | |- keeps _ (bind _ _) => apply keeps_bind; [| intros ?]
  | |- keeps _ (mapM _ _) => apply keeps_mapM; intros ?
  | |- keeps _ (try_except _ _) => apply keeps_try_except; [| intros ?]
  | |- keeps _ (try_finally _ _) => apply keeps_try_finally
  | |- keeps _ (ret _) => apply keeps_ret
  | |- keeps _ (raise _) => apply keeps_raise
  | |- keeps _ (lift _) => apply keeps_lift
  | |- keeps _ draw => exact R_draw
  | |- keeps _ datetime_now => exact R_now
  | |- keeps _ uuid4 => exact R_uuid
  | |- keeps _ (if ?b then _ else _) => destruct b
  | |- keeps _ (match ?x with _ => _ end) => destruct x
  end.

Lemma keeps_randint (a b : Z) : keeps R (randint a b).
Proof. unfold randint, randbelow. repeat keeps_step. Qed.

Lemma keeps_uniform (a b : Q) : keeps R (uniform a b).
Proof. unfold uniform, random. repeat keeps_step. Qed.

Lemma keeps_choice {A} (seq : list A) (d : A) : keeps R (choice seq d).
Proof. unfold choice, randbelow. repeat keeps_step. Qed.

Lemma keeps_generate_random_string (n : nat) : keeps R (generate_random_string n).
Proof.
  unfold generate_random_string, choices. keeps_step; [| keeps_step].
  keeps_step. unfold choose_char, random. repeat keeps_step.
Qed.

Lemma keeps_generate_random_ip : keeps R generate_random_ip.
Proof.
  unfold generate_random_ip.
  repeat first [apply keeps_randint | keeps_step].
Qed.

Lemma keeps_generate_random_mac : keeps R generate_random_mac.
Proof.
  unfold generate_random_mac.
  repeat first [apply keeps_randint | keeps_step].
Qed.

(** One step into the code of the server. *)
Ltac keeps_server_step :=
  lazymatch goal with
  | |- keeps _ (randint _ _) => apply keeps_randint
  | |- keeps _ (uniform _ _) => apply keeps_uniform
  | |- keeps _ (choice _ _) => apply keeps_choice
  | |- keeps _ (generate_random_string _) => apply keeps_generate_random_string
  | |- keeps _ generate_random_ip => apply keeps_generate_random_ip
  | |- keeps _ generate_random_mac => apply keeps_generate_random_mac
  | |- _ => keeps_step
  end.

Lemma keeps_generate_technical_data : keeps R generate_technical_data.
Proof. unfold generate_technical_data. repeat keeps_server_step. Qed.

(** ** The tool-call handler *)

Hypothesis R_sleep : forall d, keeps R (sleep d).

Lemma keeps_tool_result (name : string) (args : dict) :
  keeps R (tool_result version name args).
Proof.
  unfold tool_result.
  repeat lazymatch goal with
         | |- keeps _ generate_technical_data => apply keeps_generate_technical_data
         | |- keeps _ (sleep _) => apply R_sleep
         | |- _ => keeps_server_step
         end.
Qed.

Hypothesis R_time : keeps R time_time.
Hypothesis R_info : forall name msg extra, keeps R (Logging.info name msg extra).
Hypothesis R_exception :
  forall name msg extra, keeps R (Logging.exception name msg extra).

(** One step into the logging code around a call. *)
Ltac keeps_logging_step :=
  lazymatch goal with
  | |- keeps _ time_time => exact R_time
  | |- keeps _ (elapsed_ms _) => unfold elapsed_ms
  | |- keeps _ (Logging.info _ _ _) => apply R_info
  | |- keeps _ (Logging.exception _ _ _) => apply R_exception
  | |- _ => keeps_step
  end.

(** Whatever the tool's branch keeps, the logging around it keeps. *)
Lemma keeps_handle_call_tool_around (name : string) (arguments : option dict) :
  (forall args, keeps R (tool_result version name args)) ->
  keeps R (handle_call_tool json_dumps version name arguments).
Proof.
  intros Hres.
  unfold handle_call_tool, call_tool_try, call_tool_except.
  repeat lazymatch goal with
         | |- keeps _ (tool_result _ _ _) => apply Hres
         | |- _ => keeps_logging_step
         end.
Qed.

Lemma keeps_handle_call_tool (name : string) (arguments : option dict) :
  keeps R (handle_call_tool json_dumps version name arguments).
Proof. apply keeps_handle_call_tool_around. intros args. apply keeps_tool_result. Qed.

Lemma keeps_dispatch (r : request) : keeps R (dispatch json_dumps version r).
Proof.
  destruct r; unfold dispatch, handle_list_resources, handle_read_resource,
    handle_list_prompts, handle_get_prompt, handle_list_tools;
    repeat lazymatch goal with
           | |- keeps _ (handle_call_tool _ _ _ _) => apply keeps_handle_call_tool
           | |- _ => keeps_step
           end.
Qed.

(** ** The session *)

Hypothesis R_frame : forall f, keeps R (write_frame f).
Hypothesis R_library : forall r, keeps R (library_log r).

Lemma keeps_server_run (inbox : list inbound) :
  keeps R (server_run json_dumps version inbox).
Proof.
  induction inbox as [|[id r|f|r|e] rest IH]; simpl.
  - apply keeps_ret.
  - apply keeps_bind; [| intros f].
    + apply keeps_try_except; [| intros e; apply keeps_ret].
      apply keeps_bind; [apply keeps_dispatch | intros x]. apply keeps_ret.
    + apply keeps_bind; [apply R_frame | intros _; exact IH].
  - apply keeps_bind; [apply R_frame | intros _; exact IH].
  - apply keeps_bind; [apply R_library | intros _; exact IH].
  - apply keeps_raise.
Qed.

Lemma keeps_run_mcp_server (inbox : list inbound) :
  keeps R (run_mcp_server json_dumps version inbox).
Proof.
  unfold run_mcp_server.
  repeat lazymatch goal with
         | |- keeps _ (server_run _ _ _) => apply keeps_server_run
         | |- _ => keeps_logging_step
         end.
Qed.

(** ** The process *)

Hypothesis R_configure : forall env, keeps R (configure_logging unicode_upper env).

Lemma keeps_main (env_LOG_LEVEL : option string) (inbox : list inbound) :
  keeps R (main json_dumps version unicode_upper env_LOG_LEVEL inbox).
Proof.
  unfold main.
  repeat lazymatch goal with
         | |- keeps _ (run_mcp_server _ _ _) => apply keeps_run_mcp_server
         | |- keeps _ (configure_logging _ _) => apply R_configure
         | |- _ => keeps_logging_step
         end.
Qed.

End Keeps.

(** ** Nothing logged or written *)

Lemma unlogged_refl (w : world) : unlogged w w.
Proof. repeat split. Qed.

Lemma unlogged_trans (w1 w2 w3 : world) :
  unlogged w1 w2 -> unlogged w2 w3 -> unlogged w1 w3.
Proof.
  intros (A1 & A2 & A3 & A4) (B1 & B2 & B3 & B4). repeat split; congruence.
Qed.

Lemma generates_refl (w : world) : generates w w.
Proof. repeat split. Qed.

Lemma generates_trans (w1 w2 w3 : world) :
  generates w1 w2 -> generates w2 w3 -> generates w1 w3.
Proof.
  intros (A & A1 & A2) (B & B1 & B2).
  split; [eapply unlogged_trans; eassumption | split; congruence].
Qed.

(** The branch of a tool never logs, writes or touches the logger. *)
Lemma unlogged_tool_result (version name : string) (args : dict) :
  keeps unlogged (tool_result version name args).
Proof.
  apply keeps_tool_result;
    first [ exact unlogged_refl | exact unlogged_trans
          | intros ? ?; repeat split | intros ?; repeat split ].
Qed.

(** Generating records neither sleeps nor reads the clock. *)
Lemma generates_records (idx : list Z) :
  keeps generates (mapM (fun _ => generate_technical_data) idx).
Proof.
  apply keeps_mapM; [exact generates_refl | exact generates_trans | intros _].
  apply keeps_generate_technical_data;
    first [ exact generates_refl | exact generates_trans
          | intros ?; repeat split ].
Qed.

(** ** Levels of the records *)

Lemma submits_refl (w : world) : submits w w.
Proof. exists []. split; [symmetry; apply app_nil_r | constructor]. Qed.

Lemma submits_trans (w1 w2 w3 : world) :
  submits w1 w2 -> submits w2 w3 -> submits w1 w3.
Proof.
  intros (r1 & L1 & F1) (r2 & L2 & F2). exists (r1 ++ r2)%list.
  split; [rewrite L2, L1, app_assoc; reflexivity | apply Forall_app; split; assumption].
Qed.

Lemma submits_log (lvl : Z) (name msg : string) (extra : dict) (exc : bool) :
  lvl = INFO \/ lvl = ERROR -> keeps submits (log lvl name msg extra exc).
Proof.
  intros Hlvl w. exists [mkRecord lvl name msg extra exc].
  split; [apply LoggingFacts.log_logged | constructor; [exact Hlvl | constructor]].
Qed.

Lemma submits_quiet (w w' : world) : logged w' = logged w -> submits w w'.
Proof.
  intros E. exists []. split; [rewrite E; symmetry; apply app_nil_r | constructor].
Qed.

(** Every record a run of the process submits comes from [logger.info]
    or [logger.exception]. *)
Lemma submits_main (json_dumps : value -> string) (version : string)
      (unicode_upper : string -> string)
      (env_LOG_LEVEL : option string) (inbox : list inbound) :
  keeps submits (main json_dumps version unicode_upper env_LOG_LEVEL inbox).
Proof.
  apply keeps_main;
    first [ exact submits_refl | exact submits_trans
          | solve [intros ? ? ?; apply submits_log; auto]
          | solve [intros ? ?; apply submits_quiet; reflexivity]
          | solve [intros ?; apply submits_quiet; reflexivity]
          | solve [intros ? ?; apply submits_quiet;
                   apply LoggingFacts.library_log_untouched]
          | solve [intros ? ?; apply submits_quiet;
                   apply LoggingFacts.configure_logging_quiet] ].
Qed.

(** ** The protocol output stream *)

Lemma stdout_kept_refl (w : world) : stdout_kept w w.
Proof. intros _. split; reflexivity. Qed.

Lemma stdout_kept_trans (w1 w2 w3 : world) :
  stdout_kept w1 w2 -> stdout_kept w2 w3 -> stdout_kept w1 w3.
Proof.
  intros H1 H2 C. destruct (H1 C) as [R1 O1].
  assert (C2 : configured w2) by (unfold configured in *; congruence).
  destruct (H2 C2) as [R2 O2]. split; congruence.
Qed.

Lemma stdout_kept_log (lvl : Z) (name msg : string) (extra : dict) (exc : bool) :
  keeps stdout_kept (log lvl name msg extra exc).
Proof.
  intros w C. unfold log. simpl.
  destruct (level (root_logger w) <=? lvl); [| split; reflexivity].
  rewrite LoggingFacts.callHandlers_configured by exact C. split; reflexivity.
Qed.

Lemma stdout_kept_library_log (r : LibraryRecord) :
  keeps stdout_kept (library_log r).
Proof.
  intros w C. unfold library_log. simpl.
  destruct (level (root_logger w) <=? levelno_of (lib_level r));
    [| split; reflexivity].
  rewrite LoggingFacts.callHandlers_configured by exact C. split; reflexivity.
Qed.

(** Under a configured logger, no handler of a request writes on the
    protocol output stream. *)
Lemma stdout_kept_dispatch (json_dumps : value -> string) (version : string)
      (r : request) :
  keeps stdout_kept (dispatch json_dumps version r).
Proof.
  apply keeps_dispatch;
    first [ exact stdout_kept_refl | exact stdout_kept_trans
          | intros ? ? ?; apply stdout_kept_log
          | intros ? ? ?; split; reflexivity
          | intros ? ?; split; reflexivity ].
Qed.

End KeepFacts.

(* ================================================================== *)
(** * Further properties of the tool-call handler *)
(* ================================================================== *)

Module HandlerFacts.
Import Py Mcp Eff EffFacts Logging Server Observe ServerFacts KeepFacts.
Local Open Scope eff_scope.

Section WithEnvironment.

Variable json_dumps : value -> string.
Variable version : string.

(** ** The records of the [try] block *)

(** The [try] block after a result: the two records, with the length and
    the text of what is returned. *)
Lemma call_tool_try_logged (name : string) (args : dict) (start : Q)
      (w1 w2 : world) (result : value) :
  tool_result version name args w1 = (Ok result, w2) ->
  exists d ts w3,
    call_tool_try json_dumps version name args start w1
    = (Ok [mkTextContent "text" (json_dumps result)], w3)
    /\ logged w3
       = (logged w2 ++ [ completed_record name d (json_dumps result);
                         outbound_record name d (json_dumps result) ts ])%list
    /\ same_inputs (set_nows (tl (nows w2)) (set_clock (tl (clock w2)) w2)) w3.
Proof.
  intros E. unfold call_tool_try. unfold bind at 1. rewrite E.
  unfold elapsed_ms, Logging.info, bind, time_time, datetime_now, ret.
  match goal with
  | |- context [log ?l ?n ?m ?x ?b ?w0] =>
      pose proof (LoggingFacts.log_logged l n m x b w0) as L1;
      pose proof (LoggingFacts.log_same_inputs l n m x b w0) as S1;
      destruct (log l n m x b w0) as [[[]|?] w3] eqn:E1;
      [| unfold log in E1; discriminate]
  end.
  match goal with
  | |- context [log ?l ?n ?m ?x ?b ?w0] =>
      pose proof (LoggingFacts.log_logged l n m x b w0) as L2;
      pose proof (LoggingFacts.log_same_inputs l n m x b w0) as S2;
      destruct (log l n m x b w0) as [[[]|?] w4] eqn:E2;
      [| unfold log in E2; discriminate]
  end.
  simpl in L1, L2, S1, S2.
  eexists _, _, w4. split; [reflexivity |]. split.
  - rewrite L2, L1, <- app_assoc. reflexivity.
  - destruct S1 as (A1 & A2 & A3 & A4 & A5), S2 as (B1 & B2 & B3 & B4 & B5).
    simpl in *. repeat split; simpl; congruence.
Qed.

(** ** The records of a call *)

(** The response of a call and the records it has submitted by then. *)
Lemma call_records (name : string) (arguments : option dict) (w : world) :
  let args := match arguments with None => [] | Some d => d end in
  let w' := snd (handle_call_tool json_dumps version name arguments w) in
  let called := called_record name args (hd "" (nows w)) in
  match fst (tool_result version name args (snd (enter_call name args w))) with
  | Ok result =>
      exists d ts,
        fst (handle_call_tool json_dumps version name arguments w)
        = Ok [mkTextContent "text" (json_dumps result)]
        /\ logged w'
           = (logged w ++ [ called;
                            completed_record name d (json_dumps result);
                            outbound_record name d (json_dumps result) ts ])%list
  | Raise e =>
      exists d,
        fst (handle_call_tool json_dumps version name arguments w)
        = Ok [mkTextContent "text" ("Error: " ++ str_of_exn e)]
        /\ logged w' = (logged w ++ [ called; failed_record name e d ])%list
  end.
Proof.
  intros args w' called. subst w'.
  pose proof (enter_call_logged name args w) as Lcalled.
  rewrite handle_call_tool_unfold. fold args. cbv zeta.
  destruct (enter_call name args w) as [start w1]. simpl fst in *. simpl snd in *.
  unfold try_except.
  pose proof (unlogged_tool_result version name args w1) as (L2 & _).
  destruct (tool_result version name args w1) as [[result|e] w2] eqn:E;
    simpl fst; simpl snd in L2.
  - destruct (call_tool_try_logged name args start w1 w2 result E)
      as (d & ts & w3 & E3 & L3 & _).
    rewrite E3. exists d, ts. split; [reflexivity |].
    simpl snd. rewrite L3, L2, Lcalled, <- app_assoc. reflexivity.
  - rewrite (call_tool_try_raise json_dumps version name args start w1 w2 e E).
    destruct (call_tool_except_ok name start e w2) as (w3 & d & E3 & L3).
    rewrite E3. exists d. split; [reflexivity |].
    simpl snd. rewrite L3, L2, Lcalled, <- app_assoc. reflexivity.
Qed.

(** X8. Every tool call submits its records in a fixed order and nothing
    else: ["MCP tool called"] first; then, when the tool returns a result,
    ["MCP tool completed"] and ["OUTBOUND JSON-RPC RESPONSE"], whose
    [response_length] is the length of the text returned and whose
    [response_payload] is that very text; or, when the tool raises, the
    single ["MCP tool failed"] with the message of the exception, which
    is the text returned without its ["Error: "]. *)
Theorem X8_records_of_a_call (name : string) (arguments : option dict) (w : world) :
  let args := match arguments with None => [] | Some d => d end in
  let w' := snd (handle_call_tool json_dumps version name arguments w) in
  let called := called_record name args (hd "" (nows w)) in
  match fst (tool_result version name args (snd (enter_call name args w))) with
  | Ok result =>
      exists d ts,
        fst (handle_call_tool json_dumps version name arguments w)
        = Ok [mkTextContent "text" (json_dumps result)]
        /\ logged w'
           = (logged w ++ [ called;
                            completed_record name d (json_dumps result);
                            outbound_record name d (json_dumps result) ts ])%list
  | Raise e =>
      exists d,
        fst (handle_call_tool json_dumps version name arguments w)
        = Ok [mkTextContent "text" ("Error: " ++ str_of_exn e)]
        /\ logged w' = (logged w ++ [ called; failed_record name e d ])%list
  end.
Proof.
  intros args w' called.
  pose proof (call_records name arguments w) as H. cbv zeta in H. fold args in H.
  destruct (fst (tool_result version name args (snd (enter_call name args w)))).
  - destruct H as (d & ts & E & L). exists d, ts. split; assumption.
  - destruct H as (d & E & L). exists d. split; assumption.
Qed.

(** ** Calls that fail *)

(** When the branch of the tool raises, the response is the error text
    and, besides the clock and the log, the state is as the branch left
    it. *)
Lemma handle_call_tool_error (name : string) (arguments : option dict)
      (w w2 : world) (e : exn) :
  let args := match arguments with None => [] | Some d => d end in
  tool_result version name args (snd (enter_call name args w)) = (Raise e, w2) ->
  exists w',
    handle_call_tool json_dumps version name arguments w
    = (Ok [mkTextContent "text" ("Error: " ++ str_of_exn e)], w')
    /\ same_inputs (set_clock (tl (clock w2)) w2) w'.
Proof.
  intros args E. rewrite handle_call_tool_unfold. fold args. cbv zeta.
  destruct (enter_call name args w) as [start w1]. simpl fst in *. simpl snd in *.
  unfold try_except.
  rewrite (call_tool_try_raise json_dumps version name args start w1 w2 e E).
  unfold call_tool_except, elapsed_ms, Logging.exception, bind, time_time, ret.
  match goal with
  | |- context [log ?l ?n ?m ?x ?b ?w0] =>
      pose proof (LoggingFacts.log_same_inputs l n m x b w0) as S;
      destruct (log l n m x b w0) as [[[]|?] w3] eqn:E1;
      [| unfold log in E1; discriminate]
  end.
  exists w3. split; [reflexivity | exact S].
Qed.

(** Entering a call consults neither the random generator nor the
    identifiers, and does not sleep. *)
Lemma enter_call_undrawn (name : string) (args : dict) (w : world) :
  undrawn w (snd (enter_call name args w)).
Proof.
  destruct (enter_call_inputs name args w) as [_ (S1 & _ & _ & S4 & S5)].
  repeat split; [rewrite <- S1 | rewrite <- S4 | rewrite <- S5]; reflexivity.
Qed.

(** X9. [get-random-data] called with a [count] that is not a number (a
    string, [None], a list, a dictionary) answers with the interpreter's
    comparison error, which names the type of the value; nothing is
    generated: the random generator and the identifiers are untouched and
    no delay is taken, even when [include_delay] is set; the only instant
    taken is the one of the ["MCP tool called"] record, and [time.time()]
    is read twice, at the start and in the [except] block. *)
Theorem X9_count_of_wrong_type (arguments : dict) (v : value) (w : world) :
  lookup "count" arguments = Some v ->
  as_number v = None ->
  exists w',
    handle_call_tool json_dumps version "get-random-data" (Some arguments) w
    = (Ok [mkTextContent "text"
             ("Error: '>' not supported between instances of 'int' and '"
              ++ type_name v ++ "'")], w')
    /\ undrawn w w'
    /\ nows w' = tl (nows w)
    /\ clock w' = tl (tl (clock w)).
Proof.
  intros Hv Hnum.
  set (w1 := snd (enter_call "get-random-data" arguments w)).
  assert (E : tool_result version "get-random-data" arguments w1
              = (Raise (TypeError ("'>' not supported between instances of 'int' and '"
                                   ++ type_name v ++ "'")), w1)).
  { unfold tool_result. simpl String.eqb. cbv iota.
    unfold effective_count, get. rewrite Hv. unfold max2, int_gt. rewrite Hnum.
    reflexivity. }
  destruct (handle_call_tool_error "get-random-data" (Some arguments) w w1 _ E)
    as (w' & E' & (S1 & S2 & S3 & S4 & S5)).
  exists w'. split; [exact E' |].
  destruct (enter_call_undrawn "get-random-data" arguments w) as (U1 & U2 & U3).
  destruct (enter_call_inputs "get-random-data" arguments w)
    as (_ & (_ & I2 & I3 & _ & _)).
  fold w1 in U1, U2, U3, I2, I3. simpl in S1, S2, S3, S4, S5, I2, I3.
  split; [| split].
  - repeat split; [rewrite <- S1 | rewrite <- S4 | rewrite <- S5]; assumption.
  - rewrite <- S3, <- I3. reflexivity.
  - rewrite <- S2, <- I2. reflexivity.
Qed.

(** X10. [get-random-data] called with a [count] that is a [float]
    strictly above 1 and at most 10 (2.5, but also 10.0) does not return
    records: the clamped count stays a [float], [range] refuses it, and
    the answer is the interpreter's error. *)
Theorem X10_float_count_is_refused (arguments : dict) (q : Q) (w : world) :
  lookup "count" arguments = Some (PFloat q) ->
  (1 < q /\ q <= 10)%Q ->
  exists w',
    handle_call_tool json_dumps version "get-random-data" (Some arguments) w
    = (Ok [mkTextContent "text"
             "Error: 'float' object cannot be interpreted as an integer"], w').
Proof.
  intros Hv [H1 H10].
  assert (C : effective_count arguments = Ok (PFloat q)).
  { assert (A : Qle_bool (inject_Z 1) q = true)
      by (apply Qle_bool_iff, Qlt_le_weak, H1).
    assert (B : Qle_bool q (inject_Z 10) = true) by (apply Qle_bool_iff, H10).
    unfold effective_count, get. rewrite Hv.
    unfold max2, int_gt, res_bind, as_number, Qlt_bool. rewrite A. simpl.
    unfold min2, int_lt, res_bind, as_number, Qlt_bool. rewrite B. reflexivity. }
  assert (N : eq_int (PFloat q) 1 = false).
  { unfold eq_int, as_number. destruct (Qeq_bool q (inject_Z 1)) eqn:A; [| reflexivity].
    apply Qeq_bool_eq in A. rewrite A in H1. exfalso. revert H1. apply Qlt_irrefl. }
  set (w1 := snd (enter_call "get-random-data" arguments w)).
  assert (E : exists w2,
             tool_result version "get-random-data" arguments w1
             = (Raise (TypeError "'float' object cannot be interpreted as an integer"),
                w2)).
  { unfold tool_result. simpl String.eqb. cbv iota. rewrite C.
    unfold bind at 1. unfold lift at 1.
    destruct (truthy (get arguments "include_delay" (PBool false)));
      unfold bind, uniform, random, draw, sleep, ret, lift; simpl;
      rewrite N; eexists; reflexivity. }
  destruct E as (w2 & E).
  destruct (handle_call_tool_error "get-random-data" (Some arguments) w w2 _ E)
    as (w' & E' & _).
  exists w'. exact E'.
Qed.

(** X11. [get-random-data] called with a [count] that is a [float] below
    1 or above 10 is served all the same: the clamp replaces it by the
    integer bound, and the call answers as the call with [count] 1, or
    10, written in. *)
Theorem X11_float_count_out_of_range (arguments : dict) (q : Q) (w : world) :
  lookup "count" arguments = Some (PFloat q) ->
  (q < 1 \/ 10 < q)%Q ->
  let n := if Qlt_bool q 1 then 1 else 10 in
  effective_count arguments = Ok (PInt n) /\
  fst (handle_call_tool json_dumps version "get-random-data" (Some arguments) w)
  = fst (handle_call_tool json_dumps version "get-random-data"
           (Some (("count", PInt n) :: arguments)) w).
Proof.
  intros Hv Hq n.
  assert (C : effective_count arguments = Ok (PInt n)).
  { unfold effective_count, get. rewrite Hv.
    unfold max2, int_gt, res_bind, as_number. fold (Qlt_bool q 1) in n.
    change (inject_Z 1) with 1%Q. subst n.
    destruct (Qlt_bool q 1) eqn:A; [reflexivity |].
    unfold min2, int_lt, res_bind, as_number, Qlt_bool.
    destruct Hq as [Hq | Hq].
    - exfalso. unfold Qlt_bool in A. apply negb_false_iff, Qle_bool_iff in A.
      apply (Qlt_irrefl q). eapply Qlt_le_trans; eassumption.
    - assert (B : Qle_bool q (inject_Z 10) = false).
      { destruct (Qle_bool q (inject_Z 10)) eqn:B; [| reflexivity].
        apply Qle_bool_iff in B. exfalso.
        apply (Qlt_irrefl q). eapply Qle_lt_trans; eassumption. }
      rewrite B. reflexivity. }
  split; [exact C |].
  apply same_count_same_response; [| reflexivity].
  rewrite C. symmetry.
  rewrite (effective_count_int (("count", PInt n) :: arguments) n eq_refl).
  subst n. destruct (Qlt_bool q 1); reflexivity.
Qed.

(** ** [echo] on other values than strings *)

(** X12. [echo] returns whatever has a length, not only strings: a list
    comes back with the number of its items as [message_length], a
    dictionary with the number of its keys. *)
Theorem X12_echo_of_a_sized_value (arguments : dict) (v : value) (w : world) :
  lookup "message" arguments = Some v ->
  is_sized v = true ->
  exists n timestamp w',
    len v = Ok n /\
    handle_call_tool json_dumps version "echo" (Some arguments) w
    = (Ok [mkTextContent "text"
             (json_dumps
                (PDict [ ("echoed_message", v);
                         ("timestamp", PStr timestamp);
                         ("message_length", PInt n) ]))],
       w').
Proof.
  intros Hv Hs.
  destruct (returns_echo version arguments) as [R | [e E]];
    unfold get in *; rewrite Hv in *.
  - destruct (handle_call_tool_returns json_dumps version "echo"
                (Some arguments) _ w R)
      as (result & w' & E & timestamp & n & Hn & ->).
    exists n, timestamp, w'. split; assumption.
  - destruct v; discriminate.
Qed.

(** X13. [echo] called with a [message] that has no length ([None], a
    boolean, a number) answers with the interpreter's error, which names
    the type of the value. *)
Theorem X13_echo_of_a_scalar (arguments : dict) (v : value) (w : world) :
  lookup "message" arguments = Some v ->
  is_sized v = false ->
  exists w',
    handle_call_tool json_dumps version "echo" (Some arguments) w
    = (Ok [mkTextContent "text"
             ("Error: object of type '" ++ type_name v ++ "' has no len()")], w').
Proof.
  intros Hv Hs.
  set (w1 := snd (enter_call "echo" arguments w)).
  assert (E : tool_result version "echo" arguments w1
              = (Raise (TypeError ("object of type '" ++ type_name v
                                   ++ "' has no len()")),
                 set_nows (tl (nows w1)) w1)).
  { unfold tool_result. simpl String.eqb. cbv iota.
    unfold get. rewrite Hv. destruct v; try discriminate; reflexivity. }
  destruct (handle_call_tool_error "echo" (Some arguments) w _ _ E) as (w' & E' & _).
  exists w'. exact E'.
Qed.

(** ** The simulated delay *)

(** When the branch of the tool returns, the response is the serialised
    result and, besides the clocks and the log, the state is as the branch
    left it. *)
Lemma handle_call_tool_result (name : string) (arguments : option dict)
      (w w2 : world) (result : value) :
  let args := match arguments with None => [] | Some d => d end in
  tool_result version name args (snd (enter_call name args w)) = (Ok result, w2) ->
  exists w',
    handle_call_tool json_dumps version name arguments w
    = (Ok [mkTextContent "text" (json_dumps result)], w')
    /\ same_inputs (set_nows (tl (nows w2)) (set_clock (tl (clock w2)) w2)) w'.
Proof.
  intros args E. rewrite handle_call_tool_unfold. fold args. cbv zeta.
  destruct (enter_call name args w) as [start w1]. simpl fst in *. simpl snd in *.
  unfold try_except.
  destruct (call_tool_try_logged name args start w1 w2 result E)
    as (d & ts & w3 & E3 & _ & S).
  rewrite E3. exists w3. split; [reflexivity | exact S].
Qed.

(** The records of [get-random-data] are generated without sleeping. *)
Lemma generation_generates (count : value) :
  keeps generates
    (if eq_int count 1 then generate_technical_data
     else idx <- lift (range count) ;;
          records <- mapM (fun _ => generate_technical_data) idx ;;
          ret (PDict [ ("records", PList records); ("count", count) ])).
Proof.
  destruct (eq_int count 1).
  - apply keeps_generate_technical_data;
      first [ exact generates_refl | exact generates_trans
            | intros ?; repeat split ].
  - apply (keeps_bind generates generates_trans);
      [apply keeps_lift, generates_refl | intros idx].
    apply (keeps_bind generates generates_trans);
      [apply generates_records | intros records].
    apply keeps_ret, generates_refl.
Qed.

(** X14. A call of [get-random-data] with a valid count sleeps exactly
    once when [include_delay] is true in Python's sense, for a delay
    between 0.05 and 0.5 seconds, and does not sleep at all otherwise. *)
Theorem X14_delay_is_taken_once (arguments : dict) (n : Z) (w : world) :
  effective_count arguments = Ok (PInt n) ->
  let w' := snd (handle_call_tool json_dumps version "get-random-data"
                   (Some arguments) w) in
  if truthy (get arguments "include_delay" (PBool false))
  then exists d, slept w' = (slept w ++ [d])%list /\ (5 # 100 <= d /\ d <= 1 # 2)%Q
  else slept w' = slept w.
Proof.
  intros Hn w'. subst w'.
  set (w1 := snd (enter_call "get-random-data" arguments w)).
  destruct (enter_call_undrawn "get-random-data" arguments w) as (_ & _ & U).
  fold w1 in U.
  destruct (returns_get_random_data version arguments n Hn w1)
    as (result & w2 & E & _).
  destruct (handle_call_tool_result "get-random-data" (Some arguments) w w2 result E)
    as (w' & E' & (_ & _ & _ & _ & S)).
  rewrite E'. simpl snd. rewrite <- S. simpl slept.
  assert (T : tool_result version "get-random-data" arguments w1
              = bind (if truthy (get arguments "include_delay" (PBool false))
                      then delay <- uniform (5 # 100) (1 # 2) ;; sleep delay
                      else ret tt)
                     (fun _ =>
                        if eq_int (PInt n) 1 then generate_technical_data
                        else idx <- lift (range (PInt n)) ;;
                             records <- mapM (fun _ => generate_technical_data) idx ;;
                             ret (PDict [ ("records", PList records);
                                          ("count", PInt n) ])) w1).
  { unfold tool_result. simpl String.eqb. cbv iota. rewrite Hn. reflexivity. }
  rewrite T in E. clear T. unfold bind at 1 in E.
  destruct (truthy (get arguments "include_delay" (PBool false))).
  - destruct (GeneratorFacts.draws_uniform (5 # 100) (1 # 2)
                ltac:(unfold Qle; simpl; lia) w1) as (d & rs & Eu & Hd).
    unfold bind at 1 in E. rewrite Eu in E. unfold sleep at 1 in E.
    pose proof (generation_generates (PInt n)
                  (set_slept (slept (set_randoms rs w1) ++ [d]) (set_randoms rs w1)))
      as (_ & _ & G).
    rewrite E in G. simpl in G.
    exists d. split; [rewrite G, U; reflexivity | exact Hd].
  - unfold ret at 1 in E.
    pose proof (generation_generates (PInt n) w1) as (_ & _ & G).
    rewrite E in G. simpl in G. rewrite G, U. reflexivity.
Qed.

(** ** [server-status] *)

(** X15. [server-status] never fails and ignores its arguments: whatever
    they are, it answers with the fixed server name, the version of the
    package, the status running, the instant of the call and the fixed
    uptime text, and consults neither the random generator nor the
    identifiers, nor sleeps. *)
Theorem X15_server_status_is_constant (arguments : option dict) (w : world) :
  exists timestamp w',
    handle_call_tool json_dumps version "server-status" arguments w
    = (Ok [mkTextContent "text"
             (json_dumps
                (PDict [ ("server_name", PStr "mcp-stdio-docker-test");
                         ("version", PStr version);
                         ("status", PStr "running");
                         ("timestamp", PStr timestamp);
                         ("uptime_info", PStr "Server is operational") ]))],
       w')
    /\ undrawn w w'.
Proof.
  set (args := match arguments with None => [] | Some d => d end).
  set (w1 := snd (enter_call "server-status" args w)).
  destruct (handle_call_tool_result "server-status" arguments w
              (set_nows (tl (nows w1)) w1) _ eq_refl)
    as (w' & E & (S1 & _ & _ & S4 & S5)).
  exists (hd "" (nows w1)), w'. split; [exact E |].
  destruct (enter_call_undrawn "server-status" args w) as (U1 & U2 & U3).
  fold w1 in U1, U2, U3.
  repeat split; [rewrite <- S1 | rewrite <- S4 | rewrite <- S5]; assumption.
Qed.

(** ** The handler and the streams *)

Lemma stdout_kept_handle_call_tool (name : string) (arguments : option dict) :
  keeps stdout_kept (handle_call_tool json_dumps version name arguments).
Proof.
  apply keeps_handle_call_tool;
    first [ exact stdout_kept_refl | exact stdout_kept_trans
          | intros ? ? ?; apply stdout_kept_log
          | intros ? ? ?; split; reflexivity
          | intros ? ?; split; reflexivity ].
Qed.

(** X16. Under the logger [configure_logging] sets up, a tool call writes
    nothing on the protocol output stream and leaves the logger as it is;
    what it adds to the error stream is exactly the records it submits
    that the level lets through, in order. *)
Theorem X16_tool_call_keeps_stdout_clean (name : string) (arguments : option dict)
        (w : world) :
  configured w ->
  let w' := snd (handle_call_tool json_dumps version name arguments w) in
  stdout w' = stdout w /\ root_logger w' = root_logger w /\
  exists records,
    logged w' = (logged w ++ records)%list /\
    stderr w' = (stderr w
                 ++ map (LogLine stderr_json_handler)
                        (filter (enabled (level (root_logger w))) records))%list.
Proof.
  intros C w'.
  destruct (stdout_kept_handle_call_tool name arguments w C) as [Hroot Hout].
  destruct (stderr_only_handle_call_tool json_dumps version name arguments w C)
    as (_ & frames & records & _ & L & E).
  split; [exact Hout | split; [exact Hroot |]].
  exists records. split; assumption.
Qed.

End WithEnvironment.

(** ** The theorems at work *)

(** X9 on [count = "many"]. *)
Lemma X9_count_many :
  lookup "count" [("count", PStr "many")] = Some (PStr "many") /\
  as_number (PStr "many") = None /\
  exists w',
    handle_call_tool Sample.dumps Sample.version "get-random-data"
      (Some [("count", PStr "many")]) Sample.world0
    = (Ok [mkTextContent "text"
             "Error: '>' not supported between instances of 'int' and 'str'"], w').
Proof.
  split; [reflexivity | split; [reflexivity |]].
  destruct (X9_count_of_wrong_type Sample.dumps Sample.version
              [("count", PStr "many")] (PStr "many") Sample.world0 eq_refl eq_refl)
    as (w' & E & _).
  exists w'. exact E.
Defined.

(** X10 on [count = 2.5]. *)
Lemma X10_count_two_and_a_half :
  (1 < 5 # 2 /\ 5 # 2 <= 10)%Q /\
  exists w',
    handle_call_tool Sample.dumps Sample.version "get-random-data"
      (Some [("count", PFloat (5 # 2))]) Sample.world0
    = (Ok [mkTextContent "text"
             "Error: 'float' object cannot be interpreted as an integer"], w').
Proof.
  assert (H : (1 < 5 # 2 /\ 5 # 2 <= 10)%Q) by (split; [reflexivity | discriminate]).
  split; [exact H |].
  exact (X10_float_count_is_refused Sample.dumps Sample.version
           [("count", PFloat (5 # 2))] (5 # 2) Sample.world0 eq_refl H).
Defined.

(** X11 on [count = 12.5]: served as 10. *)
Lemma X11_count_twelve_and_a_half :
  (25 # 2 < 1 \/ 10 < 25 # 2)%Q /\
  effective_count [("count", PFloat (25 # 2))] = Ok (PInt 10).
Proof.
  assert (H : (25 # 2 < 1 \/ 10 < 25 # 2)%Q) by (right; reflexivity).
  split; [exact H |].
  exact (proj1 (X11_float_count_out_of_range Sample.dumps Sample.version
                  [("count", PFloat (25 # 2))] (25 # 2) Sample.world0 eq_refl H)).
Defined.

(** X12 on a list of three items. *)
Lemma X12_echo_of_three_items :
  is_sized (PList [PInt 1; PInt 2; PInt 3]) = true /\
  exists n timestamp w',
    len (PList [PInt 1; PInt 2; PInt 3]) = Ok n /\
    handle_call_tool Sample.dumps Sample.version "echo"
      (Some [("message", PList [PInt 1; PInt 2; PInt 3])]) Sample.world0
    = (Ok [mkTextContent "text"
             (Sample.dumps
                (PDict [ ("echoed_message", PList [PInt 1; PInt 2; PInt 3]);
                         ("timestamp", PStr timestamp);
                         ("message_length", PInt n) ]))],
       w').
Proof.
  split; [reflexivity |].
  exact (X12_echo_of_a_sized_value Sample.dumps Sample.version
           [("message", PList [PInt 1; PInt 2; PInt 3])]
           (PList [PInt 1; PInt 2; PInt 3]) Sample.world0 eq_refl eq_refl).
Defined.

(** X13 on the number 7. *)
Lemma X13_echo_of_seven :
  is_sized (PInt 7) = false /\
  exists w',
    handle_call_tool Sample.dumps Sample.version "echo"
      (Some [("message", PInt 7)]) Sample.world0
    = (Ok [mkTextContent "text" "Error: object of type 'int' has no len()"], w').
Proof.
  split; [reflexivity |].
  exact (X13_echo_of_a_scalar Sample.dumps Sample.version
           [("message", PInt 7)] (PInt 7) Sample.world0 eq_refl eq_refl).
Defined.

(** X14 on a call with [include_delay] set. *)
Lemma X14_one_delay :
  effective_count [("include_delay", PBool true)] = Ok (PInt 1) /\
  exists d,
    slept (snd (handle_call_tool Sample.dumps Sample.version "get-random-data"
                  (Some [("include_delay", PBool true)]) Sample.world0))
    = [d] /\ (5 # 100 <= d /\ d <= 1 # 2)%Q.
Proof.
  split; [reflexivity |].
  exact (X14_delay_is_taken_once Sample.dumps Sample.version
           [("include_delay", PBool true)] 1 Sample.world0 eq_refl).
Defined.

(** X16 on a call of [echo] after [configure_logging]. *)
Lemma X16_echo_keeps_stdout_clean :
  configured Sample.configured_world /\
  stdout (snd (handle_call_tool Sample.dumps Sample.version "echo" None
                 Sample.configured_world))
  = stdout Sample.configured_world.
Proof.
  split; [reflexivity |].
  exact (proj1 (X16_tool_call_keeps_stdout_clean Sample.dumps Sample.version
                  "echo" None Sample.configured_world eq_refl)).
Defined.

End HandlerFacts.

(* ================================================================== *)
(** * Further properties of the session and of the process *)
(* ================================================================== *)

Module SessionFacts.
Import Py Mcp Eff EffFacts Logging LoggingFacts Server Observe ServerFacts KeepFacts.
Local Open Scope eff_scope.

Section WithEnvironment.

Variable json_dumps : value -> string.
Variable version : string.
Variable unicode_upper : string -> string.

(** ** One message *)

(** A message is answered by one frame with its id, written after the
    handler has run, and the session goes on with the next one. *)
Lemma server_run_step (id : Z) (r : request) (rest : list inbound) (w : world) :
  exists f,
    frame_id f = id /\
    server_run json_dumps version (Message id r :: rest) w
    = server_run json_dumps version rest
        (write Stdout (ProtocolFrame f) (snd (dispatch json_dumps version r w))).
Proof.
  simpl. unfold bind at 1. unfold try_except. unfold bind at 1.
  destruct (dispatch json_dumps version r w) as [[x|e] w1]; simpl snd.
  - exists (ResultFrame id x). split; reflexivity.
  - exists (ErrorFrame id (str_of_exn e)). split; reflexivity.
Qed.

(** What the library answers itself is written as it is. *)
Lemma server_run_answer (f : frame) (rest : list inbound) (w : world) :
  server_run json_dumps version (LibraryAnswers f :: rest) w
  = server_run json_dumps version rest (write Stdout (ProtocolFrame f) w).
Proof. reflexivity. Qed.

(** What the library logs is handled, and the session goes on. *)
Lemma server_run_library_log (r : LibraryRecord) (rest : list inbound) (w : world) :
  server_run json_dumps version (LibraryLogs r :: rest) w
  = server_run json_dumps version rest (snd (library_log r w)).
Proof. reflexivity. Qed.

(** The session ends normally unless the transport fails. *)
Lemma server_run_outcome (inbox : list inbound) (w : world) :
  fst (server_run json_dumps version inbox w)
  = match first_failure inbox with
    | None => Ok tt
    | Some e => Raise e
    end.
Proof.
  revert w. induction inbox as [|[id r|f|r|e] rest IH]; intros w.
  - reflexivity.
  - destruct (server_run_step id r rest w) as (f & _ & E). rewrite E. apply IH.
  - rewrite server_run_answer. apply IH.
  - rewrite server_run_library_log. apply IH.
  - reflexivity.
Qed.

(** X17. Under a configured logger the session answers every message
    that arrives before the transport fails with exactly one frame, in the
    order of arrival and with the id of the message, whatever the
    handlers do (raise, log, fail); it ends normally at the end of the
    input and with the transport's exception otherwise. *)
Theorem X17_one_frame_per_message (inbox : list inbound) (w : world) :
  configured w ->
  fst (server_run json_dumps version inbox w)
  = match first_failure inbox with
    | None => Ok tt
    | Some e => Raise e
    end
  /\ exists frames,
      stdout (snd (server_run json_dumps version inbox w))
      = (stdout w ++ map ProtocolFrame frames)%list
      /\ map frame_id frames = ids_served inbox.
Proof.
  intros C. split; [apply server_run_outcome |].
  revert w C. induction inbox as [|[id r|f|r|e] rest IH]; intros w C.
  - exists []. simpl. rewrite app_nil_r. split; reflexivity.
  - destruct (server_run_step id r rest w) as (f & Hid & E). rewrite E.
    destruct (stdout_kept_dispatch json_dumps version r w C) as [Hroot Hout].
    set (w1 := snd (dispatch json_dumps version r w)) in *.
    assert (C1 : configured (write Stdout (ProtocolFrame f) w1)).
    { unfold configured in *. simpl. rewrite Hroot. exact C. }
    destruct (IH _ C1) as (frames & O & I).
    exists (f :: frames). split.
    + rewrite O. simpl. rewrite Hout, <- app_assoc. reflexivity.
    + simpl. rewrite Hid, I. reflexivity.
  - rewrite server_run_answer.
    destruct (IH (write Stdout (ProtocolFrame f) w) C) as (frames & O & I).
    exists (f :: frames). split.
    + rewrite O. simpl. rewrite <- app_assoc. reflexivity.
    + simpl. rewrite I. reflexivity.
  - rewrite server_run_library_log.
    destruct (stdout_kept_library_log r w C) as [Hroot Hout].
    assert (C1 : configured (snd (library_log r w))).
    { unfold configured in *. rewrite Hroot. exact C. }
    destruct (IH _ C1) as (frames & O & I).
    exists frames. split; [rewrite O, Hout; reflexivity | exact I].
  - exists []. simpl. rewrite app_nil_r. split; reflexivity.
Qed.

(** ** Start, crash and stop *)

Lemma submits_server_run (inbox : list inbound) :
  keeps submits (server_run json_dumps version inbox).
Proof.
  apply keeps_server_run;
    first [ exact submits_refl | exact submits_trans
          | solve [intros ? ? ?; apply submits_log; auto]
          | solve [intros ? ?; apply submits_quiet; reflexivity]
          | solve [intros ?; apply submits_quiet; reflexivity]
          | solve [intros ? ?; apply submits_quiet; apply library_log_untouched] ].
Qed.

(** Names the state a logger call leaves and what it has logged. *)
Ltac log_step L :=
  match goal with
  | |- context [log ?l ?n ?m ?x ?b ?w0] =>
      pose proof (log_logged l n m x b w0) as L;
      let E := fresh "E" in
      destruct (log l n m x b w0) as [[[]|?] ?w] eqn:E;
      [| unfold log in E; discriminate];
      clear E; simpl snd in L
  end.

(** What [run_mcp_server] returns and what it has logged by then. *)
Lemma run_mcp_server_trace (inbox : list inbound) (w : world) :
  exists w' session,
    run_mcp_server json_dumps version inbox w
    = (match first_failure inbox with
       | None => Ok tt
       | Some e => Raise e
       end, w')
    /\ logged w'
       = (logged w ++ [starting_record version] ++ session
          ++ match first_failure inbox with
             | None => [stopped_record]
             | Some e => [crashed_record e; stopped_record]
             end)%list.
Proof.
  unfold run_mcp_server, Logging.info, Logging.exception.
  unfold bind at 1. log_step L1.
  unfold try_finally, try_except.
  pose proof (server_run_outcome inbox w0) as O.
  pose proof (submits_server_run inbox w0) as (session & Ls & _).
  destruct (server_run json_dumps version inbox w0) as [o w1].
  simpl in O, Ls. subst o.
  destruct (first_failure inbox) as [e|].
  - unfold bind at 1. log_step L2. unfold raise. log_step L3.
    eexists _, session. split; [reflexivity |].
    rewrite L3, L2, Ls, L1, <- !app_assoc. reflexivity.
  - log_step L2. eexists _, session. split; [reflexivity |].
    rewrite L2, Ls, L1, <- !app_assoc. reflexivity.
Qed.

(** X18. [run_mcp_server] logs ["MCP server starting"] before anything
    else and ["MCP server stopped"] after everything else, on every path;
    when the session raises, ["MCP server crashed"] with the message of
    the exception comes just before the stop record and the exception
    goes on to the caller. *)
Theorem X18_start_and_stop_bracket_the_session (inbox : list inbound) (w : world) :
  let r := run_mcp_server json_dumps version inbox w in
  fst r = match first_failure inbox with
          | None => Ok tt
          | Some e => Raise e
          end
  /\ exists session,
      logged (snd r)
      = (logged w ++ [starting_record version] ++ session
         ++ match first_failure inbox with
            | None => [stopped_record]
            | Some e => [crashed_record e; stopped_record]
            end)%list.
Proof.
  intros r. subst r.
  destruct (run_mcp_server_trace inbox w) as (w' & session & E & L).
  rewrite E. split; [reflexivity |]. exists session. exact L.
Qed.

(** ** The level of the root logger *)

(** When [setLevel] accepts what [LOG_LEVEL] names, the root logger has
    the one handler and that level afterwards. *)
Lemma configure_logging_ok (env_LOG_LEVEL : option string) (lvl : Z) (w : world) :
  configured_level unicode_upper env_LOG_LEVEL = Ok lvl ->
  configure_logging unicode_upper env_LOG_LEVEL w
  = (Ok tt, set_root_logger (mkRoot lvl [stderr_json_handler]) w).
Proof.
  unfold configured_level, level_name_of, configure_logging. intros ->. reflexivity.
Qed.

(** A name of a level is accepted. *)
Lemma names_a_level_ok (env_LOG_LEVEL : option string) :
  names_a_level unicode_upper env_LOG_LEVEL ->
  exists lvl, configured_level unicode_upper env_LOG_LEVEL = Ok lvl.
Proof.
  unfold names_a_level, configured_level. intros H.
  repeat (destruct H as [<- | H]; [eexists; reflexivity |]).
  destruct H.
Qed.

(** X19. With [LOG_LEVEL] unset or naming a level, [main] lets no
    exception of the session escape: the process ends with the exit
    status 0 when the session ends normally and 1 when it fails.  It logs
    ["Starting MCP STDIO Test Server"] and ["MCP server starting"] first;
    the last record is ["MCP server stopped"] on a normal end, and on a
    failure the last three are the crash, the stop and
    ["Fatal error in MCP server"], in this order. *)
Theorem X19_exit_status (env_LOG_LEVEL : option string) (inbox : list inbound)
        (w : world) :
  names_a_level unicode_upper env_LOG_LEVEL ->
  exists w' session,
    main json_dumps version unicode_upper env_LOG_LEVEL inbox w
    = (Ok (match first_failure inbox with None => 0 | Some _ => 1 end), w')
    /\ logged w'
       = (logged w ++ [cli_starting_record version; starting_record version]
          ++ session
          ++ match first_failure inbox with
             | None => [stopped_record]
             | Some e => [crashed_record e; stopped_record; fatal_record e]
             end)%list.
Proof.
  intros Hname. destruct (names_a_level_ok env_LOG_LEVEL Hname) as (lvl & Hlvl).
  rewrite main_unfold, (configure_logging_ok env_LOG_LEVEL lvl w Hlvl).
  unfold Logging.info, Logging.exception.
  unfold bind at 1. log_step L1.
  unfold try_except. unfold bind at 1.
  destruct (run_mcp_server_trace inbox w0) as (w1 & session & E & Ls).
  rewrite E.
  destruct (first_failure inbox) as [e|].
  - unfold bind at 1. log_step L2. unfold ret.
    eexists _, session. split; [reflexivity |].
    rewrite L2, Ls, L1. simpl logged. rewrite <- !app_assoc. reflexivity.
  - unfold ret. eexists _, session. split; [reflexivity |].
    rewrite Ls, L1. simpl logged. rewrite <- !app_assoc. reflexivity.
Qed.

(** ** Verbosity *)

(** What a run of the process submits and what reaches stderr, once
    [setLevel] has accepted the level. *)
Lemma main_streams (env_LOG_LEVEL : option string) (lvl : Z)
      (inbox : list inbound) (w : world) :
  configured_level unicode_upper env_LOG_LEVEL = Ok lvl ->
  let w' := snd (main json_dumps version unicode_upper env_LOG_LEVEL inbox w) in
  level (root_logger w') = lvl
  /\ exists records lines,
      logged w' = (logged w ++ records)%list
      /\ Forall info_or_error records
      /\ stderr w' = (stderr w ++ lines)%list
      /\ merged (map (LogLine stderr_json_handler) (filter (enabled lvl) records))
                (map (LogLine stderr_json_handler)
                     (filter (enabled lvl) (heard inbox)))
                lines.
Proof.
  intros Hlvl w'.
  destruct (submits_main json_dumps version unicode_upper env_LOG_LEVEL inbox w)
    as (records & L & F).
  fold w' in L. subst w'.
  rewrite main_unfold, (configure_logging_ok env_LOG_LEVEL lvl w Hlvl) in *.
  destruct (stderr_only_main_body json_dumps version inbox
              (set_root_logger (mkRoot lvl [stderr_json_handler]) w) eq_refl)
    as (R & frames & records' & lines & _ & L' & E' & M').
  simpl logged in L'. simpl stderr in E'. simpl root_logger in R, M'.
  simpl level in M'.
  split; [rewrite R; reflexivity |].
  assert (records' = records) by (eapply app_inv_head; rewrite <- L, <- L'; reflexivity).
  subst records'. exists records, lines. repeat split; assumption.
Qed.

Lemma filter_enabled_all (lvl : Z) (records : list LogRecord) :
  lvl <= INFO -> Forall info_or_error records ->
  filter (enabled lvl) records = records.
Proof.
  intros Hl. induction 1 as [|r rest Hr _ IH]; [reflexivity |].
  simpl. rewrite IH. unfold enabled.
  destruct (Z.leb_spec lvl (levelno r)); [reflexivity |].
  unfold info_or_error, INFO, ERROR in *. destruct Hr; lia.
Qed.

Lemma filter_enabled_errors (lvl : Z) (records : list LogRecord) :
  INFO < lvl <= ERROR -> Forall info_or_error records ->
  filter (enabled lvl) records = filter is_error records.
Proof.
  intros Hl. induction 1 as [|r rest Hr _ IH]; [reflexivity |].
  simpl. rewrite IH. unfold enabled, is_error.
  unfold info_or_error, INFO, ERROR in *.
  destruct (Z.leb_spec lvl (levelno r)), (Z.eqb_spec (levelno r) 40);
    try reflexivity; destruct Hr; lia.
Qed.

Lemma filter_enabled_none (lvl : Z) (records : list LogRecord) :
  ERROR < lvl -> Forall (fun r => levelno r <= ERROR) records ->
  filter (enabled lvl) records = [].
Proof.
  intros Hl. induction 1 as [|r rest Hr _ IH]; [reflexivity |].
  simpl. rewrite IH. unfold enabled.
  destruct (Z.leb_spec lvl (levelno r)); [lia | reflexivity].
Qed.

(** The program logs at the levels of [info] and [exception] only. *)
Lemma info_or_error_below (records : list LogRecord) :
  Forall info_or_error records -> Forall (fun r => levelno r <= ERROR) records.
Proof.
  apply Forall_impl. intros r [H | H]; rewrite H; unfold INFO, ERROR; lia.
Qed.

(** The libraries log below [CRITICAL]. *)
Lemma heard_below (inbox : list inbound) :
  Forall (fun r => levelno r <= ERROR) (heard inbox).
Proof.
  induction inbox as [|[id r|f|r|e] rest IH]; simpl; try assumption;
    try constructor; try assumption.
  destruct r as [[] ? ? ?]; simpl; unfold DEBUG, INFO, WARNING, ERROR; lia.
Qed.

(** X20. When [LOG_LEVEL] is unset, or names [INFO], [DEBUG] or
    [NOTSET] in any case, no record of the program is dropped: the error
    stream gains every record the program submits, in order; what else it
    gains are the records of the libraries that the level lets through. *)
Theorem X20_default_level_drops_nothing (env_LOG_LEVEL : option string)
        (inbox : list inbound) (w : world) :
  In (level_name_of unicode_upper env_LOG_LEVEL) ["INFO"; "DEBUG"; "NOTSET"] ->
  let w' := snd (main json_dumps version unicode_upper env_LOG_LEVEL inbox w) in
  exists records lines,
    logged w' = (logged w ++ records)%list
    /\ stderr w' = (stderr w ++ lines)%list
    /\ merged (map (LogLine stderr_json_handler) records)
              (map (LogLine stderr_json_handler)
                   (filter (enabled (level (root_logger w'))) (heard inbox)))
              lines.
Proof.
  intros Hname w'.
  assert (Hl : exists lvl,
             configured_level unicode_upper env_LOG_LEVEL = Ok lvl /\ lvl <= INFO).
  { unfold configured_level.
    destruct Hname as [<- | [<- | [<- | []]]]; eexists; (split; [reflexivity |]);
      discriminate. }
  destruct Hl as (lvl & Hlvl & Hle).
  destruct (main_streams env_LOG_LEVEL lvl inbox w Hlvl)
    as (R & records & lines & L & F & E & M).
  fold w' in R, L, E. exists records, lines.
  rewrite R. rewrite (filter_enabled_all lvl records Hle F) in M.
  repeat split; assumption.
Qed.

(** X21. When [LOG_LEVEL] names [CRITICAL] (or [FATAL]), a run writes
    nothing at all on the error stream, not even the crash of the session:
    every record of the program is below that level. *)
Theorem X21_critical_level_is_silent (env_LOG_LEVEL : option string)
        (inbox : list inbound) (w : world) :
  configured_level unicode_upper env_LOG_LEVEL = Ok CRITICAL ->
  stderr (snd (main json_dumps version unicode_upper env_LOG_LEVEL inbox w))
  = stderr w.
Proof.
  intros Hl.
  destruct (main_streams env_LOG_LEVEL CRITICAL inbox w Hl)
    as (_ & records & lines & L & F & E & M).
  rewrite (filter_enabled_none CRITICAL records) in M
    by (try apply info_or_error_below; easy).
  rewrite (filter_enabled_none CRITICAL (heard inbox)) in M
    by (try apply heard_below; easy).
  apply merged_nil_inv in M. subst lines. rewrite E. apply app_nil_r.
Qed.

(** X22. When [LOG_LEVEL] names [WARNING] (or [WARN]) or [ERROR], the
    error stream gains, of the records of the program, exactly those of
    [logger.exception] (failed tool calls, the crash of the session, the
    fatal error), in order, and none of the [logger.info] ones; what else
    it gains are the records of the libraries that the level lets
    through. *)
Theorem X22_warning_level_keeps_errors (env_LOG_LEVEL : option string)
        (inbox : list inbound) (w : world) :
  In (level_name_of unicode_upper env_LOG_LEVEL) ["WARNING"; "WARN"; "ERROR"] ->
  let w' := snd (main json_dumps version unicode_upper env_LOG_LEVEL inbox w) in
  exists records lines,
    logged w' = (logged w ++ records)%list
    /\ stderr w' = (stderr w ++ lines)%list
    /\ merged (map (LogLine stderr_json_handler) (filter is_error records))
              (map (LogLine stderr_json_handler)
                   (filter (enabled (level (root_logger w'))) (heard inbox)))
              lines.
Proof.
  intros Hname w'.
  assert (Hl : exists lvl,
             configured_level unicode_upper env_LOG_LEVEL = Ok lvl
             /\ INFO < lvl <= ERROR).
  { unfold configured_level.
    destruct Hname as [<- | [<- | [<- | []]]]; eexists; (split; [reflexivity |]);
      (split; [reflexivity | discriminate]). }
  destruct Hl as (lvl & Hlvl & Hle).
  destruct (main_streams env_LOG_LEVEL lvl inbox w Hlvl)
    as (R & records & lines & L & F & E & M).
  fold w' in R, L, E. exists records, lines.
  rewrite R. rewrite (filter_enabled_errors lvl records Hle F) in M.
  repeat split; assumption.
Qed.

End WithEnvironment.

(** ** The theorems at work *)

(** X17 on three messages, the second of which fails in its handler. *)
Lemma X17_three_messages :
  configured Sample.configured_world /\
  exists frames,
    stdout (snd (server_run Sample.dumps Sample.version
                   [ Message 1 ListTools; Message 2 (ReadResource "x");
                     Message 3 (CallTool "echo" None) ]
                   Sample.configured_world))
    = (stdout Sample.configured_world ++ map ProtocolFrame frames)%list
    /\ map frame_id frames = [1; 2; 3].
Proof.
  split; [reflexivity |].
  exact (proj2 (X17_one_frame_per_message Sample.dumps Sample.version
                  [ Message 1 ListTools; Message 2 (ReadResource "x");
                    Message 3 (CallTool "echo" None) ]
                  Sample.configured_world eq_refl)).
Defined.

(** X19 with [LOG_LEVEL=debug] and a transport that fails. *)
Lemma X19_exit_status_one :
  names_a_level Sample.unicode_upper (Some "debug") /\
  exists w',
    main Sample.dumps Sample.version Sample.unicode_upper (Some "debug")
      [TransportFailure (ValueError "broken pipe")] Sample.world0
    = (Ok 1, w').
Proof.
  assert (H : names_a_level Sample.unicode_upper (Some "debug"))
    by (do 6 right; left; reflexivity).
  split; [exact H |].
  destruct (X19_exit_status Sample.dumps Sample.version Sample.unicode_upper
              (Some "debug")
              [TransportFailure (ValueError "broken pipe")] Sample.world0 H)
    as (w' & _ & E & _).
  exists w'. exact E.
Defined.

(** X20 with [LOG_LEVEL] unset, a call of an unknown tool and the warning
    of the library about it. *)
Lemma X20_unset_level :
  In (level_name_of Sample.unicode_upper None) ["INFO"; "DEBUG"; "NOTSET"] /\
  let w' := snd (main Sample.dumps Sample.version Sample.unicode_upper None
                      Sample.unlisted_tool_call Sample.world0) in
  exists records lines,
    logged w' = (logged Sample.world0 ++ records)%list
    /\ stderr w' = (stderr Sample.world0 ++ lines)%list
    /\ merged (map (LogLine stderr_json_handler) records)
              (map (LogLine stderr_json_handler)
                   (filter (enabled (level (root_logger w')))
                           (heard Sample.unlisted_tool_call)))
              lines.
Proof.
  assert (H : In (level_name_of Sample.unicode_upper None)
                 ["INFO"; "DEBUG"; "NOTSET"])
    by (left; reflexivity).
  split; [exact H |].
  exact (X20_default_level_drops_nothing Sample.dumps Sample.version
           Sample.unicode_upper None Sample.unlisted_tool_call Sample.world0 H).
Defined.

(** X21 with [LOG_LEVEL=critical] and a transport that fails. *)
Lemma X21_critical_level :
  configured_level Sample.unicode_upper (Some "critical") = Ok CRITICAL /\
  stderr (snd (main Sample.dumps Sample.version Sample.unicode_upper
                 (Some "critical")
                 [TransportFailure (ValueError "broken pipe")] Sample.world0))
  = stderr Sample.world0.
Proof.
  split; [reflexivity |].
  exact (X21_critical_level_is_silent Sample.dumps Sample.version
           Sample.unicode_upper (Some "critical")
           [TransportFailure (ValueError "broken pipe")] Sample.world0 eq_refl).
Defined.

(** X22 with [LOG_LEVEL=warning], a call of an unknown tool and the
    warning of the library about it. *)
Lemma X22_warning_level :
  In (level_name_of Sample.unicode_upper (Some "warning"))
     ["WARNING"; "WARN"; "ERROR"] /\
  let w' := snd (main Sample.dumps Sample.version Sample.unicode_upper
                      (Some "warning") Sample.unlisted_tool_call Sample.world0) in
  exists records lines,
    logged w' = (logged Sample.world0 ++ records)%list
    /\ stderr w' = (stderr Sample.world0 ++ lines)%list
    /\ merged (map (LogLine stderr_json_handler) (filter is_error records))
              (map (LogLine stderr_json_handler)
                   (filter (enabled (level (root_logger w')))
                           (heard Sample.unlisted_tool_call)))
              lines.
Proof.
  assert (H : In (level_name_of Sample.unicode_upper (Some "warning"))
                 ["WARNING"; "WARN"; "ERROR"])
    by (left; reflexivity).
  split; [exact H |].
  exact (X22_warning_level_keeps_errors Sample.dumps Sample.version
           Sample.unicode_upper (Some "warning") Sample.unlisted_tool_call
           Sample.world0 H).
Defined.

End SessionFacts.

(* ================================================================== *)
(** * Further properties of the logging configuration *)
(* ================================================================== *)

Module ConfigFacts.
Import Py Mcp Eff Logging Observe.

Lemma upper_ascii_idempotent (c : ascii) : upper_ascii (upper_ascii c) = upper_ascii c.
Proof. destruct c as [[] [] [] [] [] [] [] []]; reflexivity. Qed.

Lemma ascii_upper_idempotent (s : string) : ascii_upper (ascii_upper s) = ascii_upper s.
Proof.
  induction s as [|c s IH]; simpl; [reflexivity |].
  rewrite upper_ascii_idempotent, IH. reflexivity.
Qed.

(** Upper case of an ASCII character is an ASCII character. *)
Lemma upper_ascii_is_ascii (c : ascii) :
  (nat_of_ascii c <? 128)%nat = true -> (nat_of_ascii (upper_ascii c) <? 128)%nat = true.
Proof. destruct c as [[] [] [] [] [] [] [] []]; intros H; try discriminate; reflexivity. Qed.

Lemma ascii_upper_all_ascii (s : string) :
  all_ascii s = true -> all_ascii (ascii_upper s) = true.
Proof.
  induction s as [|c s IH]; simpl; [reflexivity |].
  intros H. apply andb_prop in H as [Hc Hs].
  rewrite (upper_ascii_is_ascii c Hc), (IH Hs). reflexivity.
Qed.

(** X23. An ASCII [LOG_LEVEL] is read without regard to case: two
    spellings that differ in the case of their letters only, and so a
    name and its upper-case form, make [configure_logging] end alike (the
    same outcome, the same root logger), from every state. *)
Theorem X23_log_level_ignores_case (unicode_upper : string -> string)
        (a b : string) (w : world) :
  all_ascii a = true -> all_ascii b = true ->
  ascii_upper a = ascii_upper b ->
  configure_logging unicode_upper (Some a) w
  = configure_logging unicode_upper (Some b) w
  /\ configure_logging unicode_upper (Some (ascii_upper a)) w
     = configure_logging unicode_upper (Some a) w.
Proof.
  intros Ha Hb H. unfold configure_logging, upper.
  rewrite Ha, Hb, (ascii_upper_all_ascii a Ha), ascii_upper_idempotent, H.
  split; reflexivity.
Qed.

(** X23 on two spellings of [debug]. *)
Lemma X23_debug_in_two_spellings :
  all_ascii "debug" = true /\ all_ascii "DeBuG" = true /\
  configure_logging Sample.unicode_upper (Some "debug") Sample.world0
  = configure_logging Sample.unicode_upper (Some "DeBuG") Sample.world0.
Proof.
  split; [reflexivity | split; [reflexivity |]].
  exact (proj1 (X23_log_level_ignores_case Sample.unicode_upper "debug" "DeBuG"
                  Sample.world0 eq_refl eq_refl eq_refl)).
Defined.

End ConfigFacts.

(* ================================================================== *)
(** * Further properties of the log viewer *)
(* ================================================================== *)

Module ViewerMore.
Import Py Mcp Eff Logging Server Viewer Observe ViewerFacts.

Section WithLibrary.

Variable datetime : Type.
Variable fromisoformat : string -> option datetime.
Variable strftime_HMS : datetime -> string.
Variable py_repr : value -> string.

Local Abbreviation format_timestamp :=
  (format_timestamp datetime fromisoformat strftime_HMS).
Local Abbreviation process_log :=
  (process_log datetime fromisoformat strftime_HMS py_repr).
Local Abbreviation feed := (feed datetime fromisoformat strftime_HMS py_repr).
Local Abbreviation view := (view datetime fromisoformat strftime_HMS py_repr).
Local Abbreviation time_of_day := (time_of_day datetime fromisoformat strftime_HMS).
Local Abbreviation args_column := (args_column py_repr).

(** ** Events the viewer does not know *)

(** X24. An event whose message holds none of the six phrases the viewer
    looks for is ignored: nothing is rendered and a pending call stays
    pending, so the other records of the server (the outbound payload,
    the start of the command line) do not disturb the correlation. *)
Theorem X24_unknown_events_are_ignored (pending : tracker) (log : dict)
        (msg asctime : string) :
  get log "message" (PStr "") = PStr msg ->
  get log "asctime" (PStr "") = PStr asctime ->
  contains "MCP tool called" msg = false ->
  contains "MCP tool completed" msg = false ->
  contains "MCP tool failed" msg = false ->
  contains "Server Starting" msg = false ->
  contains "MCP server starting" msg = false ->
  contains "MCP server stopped" msg = false ->
  process_log pending log = (Ok None, pending).
Proof.
  intros Hm Ha H1 H2 H3 H4 H5 H6.
  unfold Viewer.process_log. rewrite Hm, Ha, (format_timestamp_str datetime).
  unfold str_in, res_bind. rewrite H1, H2, H3, H4, H5, H6. reflexivity.
Qed.

(** ** The error column *)

(** A slice holds as many code points as asked for, or all there are. *)
Lemma str_slice_to_len (n : nat) (s : string) :
  str_len (str_slice_to n s) = Nat.min n (str_len s).
Proof.
  revert n. induction s as [|c s IH]; intros n; simpl;
    [symmetry; apply Nat.min_0_r |].
  destruct (is_continuation c) eqn:E; simpl; rewrite ?E; [apply IH |].
  destruct n as [|n]; simpl; [reflexivity | rewrite E, IH; reflexivity].
Qed.

(** A slice is the text up to some point. *)
Lemma str_slice_to_prefix (n : nat) (s : string) :
  String.prefix (str_slice_to n s) s = true.
Proof.
  revert n. induction s as [|c s IH]; intros n; simpl; [reflexivity |].
  destruct (is_continuation c); simpl.
  - destruct (ascii_dec c c) as [_|N]; [apply IH | congruence].
  - destruct n as [|n]; simpl; [reflexivity |].
    destruct (ascii_dec c c) as [_|N]; [apply IH | congruence].
Qed.

(** X25. The failure line of a pending call shows the first 50 characters
    (code points) of the error and no more: what is shown is a prefix of
    the error, of length 50 or the length of the error if that is less;
    the tool shown is the one of the pending call, not the one of the
    failure event. *)
Theorem X25_error_is_cut_at_50 (ts : value) (pending_tool : string)
        (arguments : dict) (asctime tool error : string) (duration : Q) :
  exists shown,
    process_log [ ("timestamp", ts); ("tool", PStr pending_tool);
                  ("args", PDict arguments) ]
                (failed asctime tool error duration)
    = (Ok (Some (FailureLine ts pending_tool (PStr shown))), [])
    /\ str_len shown = Nat.min 50 (str_len error)
    /\ String.prefix shown error = true.
Proof.
  exists (str_slice_to 50 error).
  split; [apply process_log_failed |].
  split; [apply str_slice_to_len | apply str_slice_to_prefix].
Qed.

(** ** The pending slot *)

(** X26. The pending slot is always empty or holds exactly the three
    fields of a call: [process_log] keeps that shape on every event.  It
    empties the slot when it renders a success or a failure line, and
    leaves it as it was when it renders the banner or the stop line and
    when it raises. *)
Theorem X26_slot_keeps_its_shape (pending : tracker) (log : dict) :
  slot_shape pending ->
  let r := process_log pending log in
  slot_shape (snd r)
  /\ match fst r with
     | Ok (Some (SuccessLine _ _ _ _ _)) | Ok (Some (FailureLine _ _ _)) =>
         snd r = []
     | Ok (Some _) | Raise _ => snd r = pending
     | Ok None => True
     end.
Proof.
  intros Hshape r. subst r. unfold Viewer.process_log.
  destruct (format_timestamp _) as [timestamp|e]; [| split; [assumption | reflexivity]].
  destruct (str_in "MCP tool called" _) as [[|]|e];
    [ | | split; [assumption | reflexivity]].
  { split; [right; eexists _, _, _; reflexivity | exact I]. }
  destruct (str_in "MCP tool completed" _) as [[|]|e];
    [ | | split; [assumption | reflexivity]].
  { destruct (negb _); [split; [assumption | exact I] |].
    destruct (render_completed _ _ _ _) as [result|e] eqn:E;
      [| split; [assumption | reflexivity]].
    split; [left; reflexivity |].
    unfold render_completed, res_bind in E.
    repeat match type of E with
           | match ?x with _ => _ end = _ => destruct x; try discriminate
           end.
    injection E as <-. reflexivity. }
  destruct (str_in "MCP tool failed" _) as [[|]|e];
    [ | | split; [assumption | reflexivity]].
  { destruct (render_failed _ _ _) as [result|e] eqn:E;
      [| split; [assumption | reflexivity]].
    split; [left; reflexivity |].
    unfold render_failed, res_bind in E.
    repeat match type of E with
           | match ?x with _ => _ end = _ => destruct x; try discriminate
           end.
    injection E as <-. reflexivity. }
  destruct (res_bind _ _) as [[|]|e]; try (split; [assumption | reflexivity]).
  destruct (str_in "MCP server stopped" _) as [[|]|e];
    split; try assumption; try reflexivity; exact I.
Qed.

(** ** The repeated header *)

Lemma headers_app (a b : list printed) : headers (a ++ b) = headers a + headers b.
Proof. unfold headers. rewrite filter_app, length_app. lia. Qed.

Lemma rows_app (a b : list printed) : rows (a ++ b) = rows a + rows b.
Proof. unfold rows. rewrite filter_app, length_app. lia. Qed.

(** Between two counts of lines, the headers printed are the multiples
    of twenty passed. *)
Lemma feed_headers (logs : list value) (pending : tracker) (line_count : Z) :
  0 <= line_count ->
  let out := fst (feed logs pending line_count) in
  headers out = (line_count + rows out) / 20 - line_count / 20.
Proof.
  revert pending line_count.
  induction logs as [|v rest IH]; intros pending line_count Hlc; simpl.
  - unfold rows, headers. simpl. rewrite Z.add_0_r. lia.
  - destruct v; try (unfold rows, headers; simpl; rewrite Z.add_0_r; lia).
    destruct (Viewer.process_log _ _ _ _ _ _) as [[[formatted|]|e] pending'].
    + specialize (IH pending' (line_count + 1) ltac:(lia)).
      destruct (Viewer.feed _ _ _ _ rest pending' (line_count + 1)) as [more outcome].
      simpl fst in *.
      change (Row formatted :: ?l ++ more)%list
        with (([Row formatted] ++ l) ++ more)%list.
      rewrite headers_app, rows_app, IH. clear IH.
      destruct ((line_count + 1) mod 20 =? 0) eqn:E.
      * apply Z.eqb_eq in E.
        change (headers ([Row formatted] ++ [Header])) with 1.
        change (rows ([Row formatted] ++ [Header])) with 1.
        pose proof (Z.div_mod (line_count + 1) 20 ltac:(lia)).
        pose proof (Z.div_mod line_count 20 ltac:(lia)).
        pose proof (Z.mod_pos_bound line_count 20 ltac:(lia)).
        replace (line_count + 1 + rows more) with (line_count + (1 + rows more)) by lia.
        lia.
      * apply Z.eqb_neq in E.
        change (headers ([Row formatted] ++ [])) with 0.
        change (rows ([Row formatted] ++ [])) with 1.
        pose proof (Z.div_mod (line_count + 1) 20 ltac:(lia)).
        pose proof (Z.div_mod line_count 20 ltac:(lia)).
        pose proof (Z.mod_pos_bound line_count 20 ltac:(lia)).
        pose proof (Z.mod_pos_bound (line_count + 1) 20 ltac:(lia)).
        replace (line_count + 1 + rows more) with (line_count + (1 + rows more)) by lia.
        assert ((line_count + 1) / 20 = line_count / 20) by lia.
        lia.
    + apply IH, Hlc.
    + unfold rows, headers. simpl. rewrite Z.add_0_r. lia.
Qed.

(** X27. The column header is printed again after every twentieth
    rendered line and at no other time: whatever the stream, the number
    of repeated headers is the number of rendered lines divided by
    twenty, rounded down. *)
Theorem X27_header_every_twenty_lines (logs : list value) :
  headers (fst (view logs)) = rows (fst (view logs)) / 20.
Proof.
  pose proof (feed_headers logs init 0 ltac:(lia)) as H. cbv zeta in H.
  unfold Viewer.view. rewrite H, Z.add_0_l. change (0 / 20) with 0. apply Z.sub_0_r.
Qed.

(** ** Lines that stop the viewer *)

(** X28. The bare [except] of [format_timestamp] does not protect its own
    fallback: a log line whose [asctime] is [null], a boolean or a number
    makes [process_log] raise a [TypeError], and since the main loop
    catches decoding errors only, the loop ends there with nothing
    printed for that line or any later one. *)
Theorem X28_asctime_of_wrong_type_stops_the_viewer
        (pending : tracker) (log : dict) (v : value) (rest : list value)
        (line_count : Z) :
  lookup "asctime" log = Some v ->
  is_sized v = false ->
  let e := TypeError ("'" ++ type_name v ++ "' object is not subscriptable") in
  process_log pending log = (Raise e, pending)
  /\ feed (PDict log :: rest) pending line_count = ([], Raise e).
Proof.
  intros Hv Hs e.
  assert (E : process_log pending log = (Raise e, pending)).
  { unfold Viewer.process_log, get. rewrite Hv.
    destruct v; try discriminate; reflexivity. }
  split; [exact E |]. simpl. rewrite E. reflexivity.
Qed.

(** ** From the server to the viewer *)

Variable json_dumps : value -> string.
Variable version : string.

(** The lines of a call that returns give one success line. *)
Lemma view_success (stamp trace : LogRecord -> string) (name : string) (args : dict)
      (timestamp : string) (d : Q) (text ts : string) :
  view (map (fun r => PDict (json_object (stamp r) (trace r) r))
            [ called_record name args timestamp;
              completed_record name d text;
              outbound_record name d text ts ])
  = ([ Row (SuccessLine (time_of_day (stamp (called_record name args timestamp)))
                        name (args_column args) d
                        (Z.of_nat (str_len text))) ],
     Ok tt).
Proof.
  unfold Viewer.view, init, json_object. simpl map.
  cbn [feed Viewer.feed].
  unfold Viewer.process_log at 1.
  cbn [get lookup app String.eqb Ascii.eqb Bool.eqb message extra levelno
       logger_name exc_info called_record].
  rewrite (format_timestamp_str datetime). cbn [str_in].
  change (contains "MCP tool called" "MCP tool called") with true. cbv iota.
  unfold Viewer.process_log at 1.
  cbn [get lookup app String.eqb Ascii.eqb Bool.eqb message extra levelno
       logger_name exc_info completed_record].
  rewrite (format_timestamp_str datetime). cbn [str_in].
  change (contains "MCP tool called" "MCP tool completed") with false.
  change (contains "MCP tool completed" "MCP tool completed") with true.
  cbv iota. cbn [truthy negb].
  unfold render_completed. cbn [get lookup String.eqb Ascii.eqb Bool.eqb].
  rewrite (format_args_dict py_repr). cbn [res_bind check_s check_f check_d as_number].
  unfold Viewer.process_log at 1.
  cbn [get lookup app String.eqb Ascii.eqb Bool.eqb message extra levelno
       logger_name exc_info outbound_record].
  rewrite (format_timestamp_str datetime). cbn [str_in].
  reflexivity.
Qed.

(** The lines of a call that raises give one failure line. *)
Lemma view_failure (stamp trace : LogRecord -> string) (name : string) (args : dict)
      (timestamp : string) (d : Q) (e : exn) :
  view (map (fun r => PDict (json_object (stamp r) (trace r) r))
            [ called_record name args timestamp; failed_record name e d ])
  = ([ Row (FailureLine (time_of_day (stamp (called_record name args timestamp)))
                        name (PStr (str_slice_to 50 (str_of_exn e)))) ],
     Ok tt).
Proof.
  unfold Viewer.view, init, json_object. simpl map.
  cbn [feed Viewer.feed].
  unfold Viewer.process_log at 1.
  cbn [get lookup app String.eqb Ascii.eqb Bool.eqb message extra levelno
       logger_name exc_info called_record].
  rewrite (format_timestamp_str datetime). cbn [str_in].
  change (contains "MCP tool called" "MCP tool called") with true. cbv iota.
  unfold Viewer.process_log at 1.
  cbn [get lookup app String.eqb Ascii.eqb Bool.eqb message extra levelno
       logger_name exc_info failed_record].
  rewrite (format_timestamp_str datetime). cbn [str_in].
  reflexivity.
Qed.

(** X29. The viewer shows every tool call of the server as exactly one
    line.  Take any call of [handle_call_tool], the records it submits,
    and the objects the JSON handler writes for them (at whatever times,
    with whatever tracebacks): a fresh viewer prints one row for them.
    When the tool returned, it is the success line with the name of the
    tool, its arguments, the duration logged and the length of the
    response text; when the tool raised, it is the failure line with the
    name of the tool and the first 50 characters (code points) of the
    message of the exception. *)
Theorem X29_one_line_per_tool_call (stamp trace : LogRecord -> string)
        (name : string) (arguments : option dict) (w : world) :
  let args := match arguments with None => [] | Some d => d end in
  let w' := snd (handle_call_tool json_dumps version name arguments w) in
  let lines := map (fun r => PDict (json_object (stamp r) (trace r) r))
                   (skipn (List.length (logged w)) (logged w')) in
  exists ts d,
    view lines
    = ([ Row match fst (tool_result version name args
                          (snd (enter_call name args w))) with
             | Ok result =>
                 SuccessLine ts name (args_column args) d
                             (Z.of_nat (str_len (json_dumps result)))
             | Raise e =>
                 FailureLine ts name (PStr (str_slice_to 50 (str_of_exn e)))
             end ],
       Ok tt).
Proof.
  intros args w' lines. subst lines w'.
  pose proof (HandlerFacts.call_records json_dumps version name arguments w) as H.
  cbv zeta in H. fold args in H.
  destruct (fst (tool_result version name args (snd (enter_call name args w)))).
  - destruct H as (d & ts & _ & L). rewrite L.
    rewrite skipn_app, skipn_all, Nat.sub_diag. simpl skipn.
    eexists _, d. apply view_success.
  - destruct H as (d & _ & L). rewrite L.
    rewrite skipn_app, skipn_all, Nat.sub_diag. simpl skipn.
    eexists _, d. apply view_failure.
Qed.

End WithLibrary.

(** ** The theorems at work *)

(** X24 on the outbound payload record of the server. *)
Lemma X24_outbound_is_ignored :
  process_log string Sample.fromisoformat Sample.strftime_HMS Sample.dumps
    (snd (process_log string Sample.fromisoformat Sample.strftime_HMS Sample.dumps
            init (called "2024-05-01T12:00:00" "echo" [])))
    (json_object "2024-05-01T12:00:01" ""
       (outbound_record "echo" (5 # 100) "{}" "2024-05-01T12:00:01+00:00"))
  = (Ok None,
     snd (process_log string Sample.fromisoformat Sample.strftime_HMS Sample.dumps
            init (called "2024-05-01T12:00:00" "echo" []))).
Proof.
  apply (X24_unknown_events_are_ignored string Sample.fromisoformat
           Sample.strftime_HMS Sample.dumps _ _
           "OUTBOUND JSON-RPC RESPONSE" "2024-05-01T12:00:01");
    reflexivity.
Defined.

(** X26 on an empty slot and a call of [echo]. *)
Lemma X26_slot_after_a_call :
  slot_shape init /\
  slot_shape (snd (process_log string Sample.fromisoformat Sample.strftime_HMS
                     Sample.dumps init (called "2024-05-01T12:00:00" "echo" []))).
Proof.
  assert (H : slot_shape init) by (left; reflexivity).
  split; [exact H |].
  exact (proj1 (X26_slot_keeps_its_shape string Sample.fromisoformat
                  Sample.strftime_HMS Sample.dumps init
                  (called "2024-05-01T12:00:00" "echo" []) H)).
Defined.

(** X28 on a line whose [asctime] is [null]. *)
Lemma X28_null_asctime :
  is_sized PNone = false /\
  process_log string Sample.fromisoformat Sample.strftime_HMS Sample.dumps init
    [("asctime", PNone); ("message", PStr "MCP tool called")]
  = (Raise (TypeError "'NoneType' object is not subscriptable"), init).
Proof.
  split; [reflexivity |].
  exact (proj1 (X28_asctime_of_wrong_type_stops_the_viewer string
                  Sample.fromisoformat Sample.strftime_HMS Sample.dumps init
                  [("asctime", PNone); ("message", PStr "MCP tool called")]
                  PNone [] 0 eq_refl eq_refl)).
Defined.

End ViewerMore.
